(** * Ransomware payment timelines: the three plotting scripts

    A shallow embedding of [plot_months.py], [plot_families.py] and
    [plot_top_families.py].  Each script checks its command line, reads a
    comma-separated file, accumulates the rows in lists or in a dictionary
    keyed by family, groups the families and hands the series to matplotlib.

    - Python [int] is [Z]; Python [float] is the kernel's binary64 [float],
      with [+], [/], [<] the IEEE operations.
    - A [str] is a [string]; [file.readlines()] is a [list string].
    - A [dict] keeps insertion order, which the scripts rely on when they
      iterate over it: it is an association list with unique keys.
    - An uncaught exception ends the run; the interpreter state at that
      point is kept, so that what was appended before the failure shows.
    - The library functions [int], [float], [round] and
      [datetime.datetime.strptime] are an interface ([Builtins]); the
      theorems hold for every implementation, and [ascii_builtins] is one
      that computes. *)

From Stdlib Require Import ZArith List String Ascii Bool Lia Floats.
From Stdlib Require Import Permutation Sorted DecimalString.
Import ListNotations.

Set Implicit Arguments.

Open Scope string_scope.
Open Scope list_scope.

(** ** Exceptions and the interpreter monad *)

Inductive exn : Type :=
| IndexError
| KeyError
| ValueError
| FileNotFoundError.

Inductive result (A : Type) : Type :=
| Ok (a : A)
| Raise (e : exn).

Arguments Ok {A} a.
Arguments Raise {A} e.

(** A statement run in a state [S]: it returns or raises, and leaves a state
    behind in both cases. *)
Definition M (S A : Type) : Type := S -> result A * S.

Definition ret {S A : Type} (a : A) : M S A := fun s => (Ok a, s).

Definition bind {S A B : Type} (m : M S A) (k : A -> M S B) : M S B :=
  fun s =>
    match m s with
    | (Ok a, s') => k a s'
    | (Raise e, s') => (Raise e, s')
    end.

Definition lift {S A : Type} (r : result A) : M S A := fun s => (r, s).

Definition modify {S : Type} (f : S -> S) : M S unit := fun s => (Ok tt, f s).

Definition gets {S A : Type} (f : S -> A) : M S A := fun s => (Ok (f s), s).

Declare Scope py_scope.
Delimit Scope py_scope with py.
Notation "x <- m ;; k" := (bind m (fun x => k))
  (at level 61, m at next level, right associativity) : py_scope.
Notation "m ;;; k" := (bind m (fun _ => k))
  (at level 61, right associativity) : py_scope.
Open Scope py_scope.

(** [for x in l: body] *)
Fixpoint for_each {S A : Type} (body : A -> M S unit) (l : list A) : M S unit :=
  match l with
  | [] => ret tt
  | x :: xs => body x ;;; for_each body xs
  end.

(** ** Sequences *)

(** [l[i]] for [i >= 0] *)
Definition getitem {A : Type} (l : list A) (i : nat) : result A :=
  match nth_error l i with
  | Some x => Ok x
  | None => Raise IndexError
  end.

(** [l[-1]] *)
Definition getlast {A : Type} (l : list A) : result A :=
  match l with
  | [] => Raise IndexError
  | _ => getitem l (List.length l - 1)
  end.

(** [range(a, b)] for [a >= 0]; empty when [b <= a] *)
Definition range (a : nat) (b : Z) : list nat :=
  seq a (Z.to_nat (b - Z.of_nat a)).

(** [s.split(sep)] for a one-character separator *)
Fixpoint split (sep : ascii) (s : string) : list string :=
  match s with
  | EmptyString => [EmptyString]
  | String c rest =>
      if Ascii.eqb c sep then EmptyString :: split sep rest
      else match split sep rest with
           | [] => [String c EmptyString]
           | p :: ps => String c p :: ps
           end
  end.

Definition file_separator : ascii := ","%char.

(** ** Dictionaries *)

Definition dict (V : Type) : Type := list (string * V).

Definition keys {V : Type} (d : dict V) : list string := map fst d.

(** [k in d] *)
Definition dict_in {V : Type} (k : string) (d : dict V) : bool :=
  existsb (fun kv => String.eqb (fst kv) k) d.

(** [d[k] = v] for a key that is not in [d] yet: it goes last *)
Definition dict_add {V : Type} (k : string) (v : V) (d : dict V) : dict V :=
  d ++ [(k, v)].

(** [d[k]] *)
Fixpoint dict_get {V : Type} (k : string) (d : dict V) : result V :=
  match d with
  | [] => Raise KeyError
  | (k', v) :: rest => if String.eqb k' k then Ok v else dict_get k rest
  end.

(** an update of the object [d[k]] in place *)
Fixpoint dict_alter {V : Type} (f : V -> V) (k : string) (d : dict V)
  : result (dict V) :=
  match d with
  | [] => Raise KeyError
  | (k', v) :: rest =>
      if String.eqb k' k then Ok ((k', f v) :: rest)
      else match dict_alter f k rest with
           | Ok rest' => Ok ((k', v) :: rest')
           | Raise e => Raise e
           end
  end.

(** ** Dates *)

(** A [datetime.datetime]; [strptime] with [%Y-%m] sets the day to 1 and the
    time to midnight. *)
Record datetime : Type := mk_datetime {
  year : Z;
  month_of : Z;
  day : Z;
  hour : Z;
  minute : Z;
  second : Z;
  microsecond : Z
}.

Definition datetime_min : datetime := mk_datetime 1 1 1 0 0 0 0.
Definition datetime_max : datetime := mk_datetime 9999 12 31 23 59 59 999999.

Definition dt_fields (d : datetime) : list Z :=
  [year d; month_of d; day d; hour d; minute d; second d; microsecond d].

Fixpoint lex_ltb (a b : list Z) : bool :=
  match a, b with
  | x :: a', y :: b' => (x <? y)%Z || ((x =? y)%Z && lex_ltb a' b')
  | _, _ => false
  end.

(** [a < b] on datetimes *)
Definition dt_ltb (a b : datetime) : bool := lex_ltb (dt_fields a) (dt_fields b).

(** [min(a, b)]: the first argument unless the second is smaller *)
Definition dt_min (a b : datetime) : datetime := if dt_ltb b a then b else a.

(** [max(a, b)]: the first argument unless the second is larger *)
Definition dt_max (a b : datetime) : datetime := if dt_ltb a b then b else a.

(** ** The library functions the scripts call *)

Class Builtins : Type := {
  (** [int(s)]; [None] stands for [ValueError] *)
  py_int : string -> option Z;
  (** [float(s)] *)
  py_float : string -> option float;
  (** [round(x, ndigits)] *)
  py_round : float -> Z -> float;
  (** [datetime.datetime.strptime(s, "%Y-%m")] *)
  strptime : string -> option datetime
}.

Definition parse {A : Type} (o : option A) : result A :=
  match o with
  | Some a => Ok a
  | None => Raise ValueError
  end.

(** ** A run of a script *)

(** How a run ends: [exit(code)], an uncaught exception, or the end of the
    script with the figures it has shown. *)
Inductive status (R : Type) : Type :=
| Exited (code : Z)
| Uncaught (e : exn)
| Completed (r : R).

Arguments Exited {R} code.
Arguments Uncaught {R} e.
Arguments Completed {R} r.

(** What a run does to the world: the lines printed to standard output, the
    paths it opened, and how it ended. *)
Record outcome (R : Type) : Type := mk_outcome {
  stdout : list string;
  opened : list string;
  final : status R
}.

(** The files of the system: [readlines()] of the file at a path, if it can
    be opened. *)
Definition filesystem : Type := string -> option (list string).

Definition nl : string := String (ascii_of_nat 10) EmptyString.

(** [str(n)] for a length *)
Definition str_of_nat (n : nat) : string :=
  DecimalString.NilZero.string_of_uint (Nat.to_uint n).

(** The usage message of a script started as [script], for the file [csv]. *)
Definition usage (script csv : string) : string :=
  "Usage: python " ++ script ++ " " ++ csv ++ nl ++ nl ++
  "       Run run_stats.sh to get " ++ csv ++ " file".

(** [max(l)] on floats: the first item, replaced by each later item that
    compares greater. *)
Definition py_max (l : list float) : result float :=
  match l with
  | [] => Raise ValueError
  | x :: xs => Ok (fold_left (fun m y => if PrimFloat.ltb m y then y else m) xs x)
  end.

(** ** Rows as records *)

(** One parsed row of a family file. *)
Record record : Type := mk_record {
  rec_family : string;
  rec_month : datetime;
  rec_count : Z;
  rec_sum_btc : float;
  rec_sum_usd : float
}.

Definition and_then {A B : Type} (r : result A) (k : A -> result B) : result B :=
  match r with
  | Ok a => k a
  | Raise e => Raise e
  end.

(** Field [i] of a line, the empty text when the line has fewer fields. *)
Definition field (i : nat) (line : string) : string :=
  nth i (split file_separator line) "".

(** The labels of a list in the order of their first occurrence. *)
Fixpoint first_seen (l : list string) : list string :=
  match l with
  | [] => []
  | x :: l' => x :: filter (fun y => negb (String.eqb y x)) (first_seen l')
  end.

(** [a] stands before [b] in [l]. *)
Definition before {A : Type} (l : list A) (a b : A) : Prop :=
  exists l1 l2 l3, l = l1 ++ a :: l2 ++ b :: l3.

(** [dict_alter] on a key that is present. *)
Fixpoint dict_update {V : Type} (f : V -> V) (k : string) (d : dict V) : dict V :=
  match d with
  | [] => []
  | (k', v) :: rest =>
      if String.eqb k' k then (k', f v) :: rest else (k', v) :: dict_update f k rest
  end.

(** The entry of [k] updated by [f], created from [new] when [k] is not a
    key yet. *)
Definition upsert {V : Type} (new : V) (f : V -> V) (k : string) (d : dict V) : dict V :=
  if dict_in k d then dict_update f k d else d ++ [(k, f new)].

(** Records grouped by a label: each record updates the entry of its label
    by [step], in a dictionary that creates entries from [new]. *)
Section Grouping.
Variables V R : Type.
Variable fam : R -> string.
Variable step : R -> V -> V.
Variable new : V.

Definition put (r : R) (d : dict V) : dict V := upsert new (step r) (fam r) d.

Definition group (recs : list R) (d : dict V) : dict V :=
  fold_left (fun acc r => put r acc) recs d.

Definition get_or (k : string) (d : dict V) : V :=
  match dict_get k d with
  | Ok v => v
  | Raise _ => new
  end.

End Grouping.

(** A comparison that did not come out greater. *)
Definition not_gt (c : comparison) : bool :=
  match c with
  | Gt => false
  | _ => true
  end.

(** A float that is zero, a positive number or plus infinity. *)
Definition nonneg_sf (x : spec_float) : bool :=
  match x with
  | S754_zero _ => true
  | S754_infinity false => true
  | S754_finite false _ _ => true
  | _ => false
  end.

Definition nonneg (x : float) : bool := nonneg_sf (Prim2SF x).

(** The sum of a list of floats as a running total from 0. *)
Definition fsum (l : list float) : float := fold_left PrimFloat.add l 0%float.

Definition zsum (l : list Z) : Z := fold_left Z.add l 0%Z.

(** ** plot_families.py *)

Module PlotFamilies.

Section Script.
Context {B : Builtins}.

(** [families[family]]; the random colour of a family only reaches the
    plotting calls and is left out. *)
Record family_rec : Type := mk_family {
  month : list datetime;
  count : list Z;
  sum_btc : list float;
  sum_usd : list float
}.

Definition families_t : Type := dict family_rec.

Definition new_family : family_rec := mk_family [] [] [] [].

Definition append_month (m : datetime) (r : family_rec) : family_rec :=
  mk_family (month r ++ [m]) (count r) (sum_btc r) (sum_usd r).
Definition append_count (c : Z) (r : family_rec) : family_rec :=
  mk_family (month r) (count r ++ [c]) (sum_btc r) (sum_usd r).
Definition append_sum_btc (x : float) (r : family_rec) : family_rec :=
  mk_family (month r) (count r) (sum_btc r ++ [x]) (sum_usd r).
Definition append_sum_usd (x : float) (r : family_rec) : family_rec :=
  mk_family (month r) (count r) (sum_btc r) (sum_usd r ++ [x]).

(** [families[k].<list>.append(x)] *)
Definition alter (f : family_rec -> family_rec) (k : string) : M families_t unit :=
  fun d =>
    match dict_alter f k d with
    | Ok d' => (Ok tt, d')
    | Raise e => (Raise e, d)
    end.

(** The body of the ingestion loop, lines 33 to 53. *)
Definition body (line : string) : M families_t unit :=
  let parts := split file_separator line in
  family <- lift (getitem parts 0) ;;
  p1 <- lift (getitem parts 1) ;;
  if String.eqb p1 "Total" then ret tt
  else
    m <- lift (parse (strptime p1)) ;;
    p2 <- lift (getitem parts 2) ;;
    c <- lift (parse (py_int p2)) ;;
    p3 <- lift (getitem parts 3) ;;
    btc <- lift (parse (py_float p3)) ;;
    p4 <- lift (getitem parts 4) ;;
    usd <- lift (parse (py_float p4)) ;;
    known <- gets (dict_in family) ;;
    (if known then ret tt else modify (dict_add family new_family)) ;;;
    alter (append_month m) family ;;;
    alter (append_count c) family ;;;
    alter (append_sum_btc btc) family ;;;
    alter (append_sum_usd usd) family.

(** Lines 28 to 53: [families] after the loop over [readlines()[1:]]. *)
Definition ingest (lines : list string) : result unit * families_t :=
  for_each body (skipn 1 lines) [].

(** What the loop body makes of a line before it touches [families]: a
    record, nothing for a row of totals, or the exception of the first
    field that is missing or rejected (lines 33 to 40). *)
Definition read_row (line : string) : result (option record) :=
  let parts := split file_separator line in
  and_then (getitem parts 0) (fun family =>
  and_then (getitem parts 1) (fun p1 =>
  if String.eqb p1 "Total" then Ok None
  else
    and_then (parse (strptime p1)) (fun m =>
    and_then (getitem parts 2) (fun p2 =>
    and_then (parse (py_int p2)) (fun c =>
    and_then (getitem parts 3) (fun p3 =>
    and_then (parse (py_float p3)) (fun btc =>
    and_then (getitem parts 4) (fun p4 =>
    and_then (parse (py_float p4)) (fun usd =>
    Ok (Some (mk_record family m c btc usd))))))))))).

Definition row_ok (line : string) : bool :=
  match read_row line with
  | Ok _ => true
  | Raise _ => false
  end.

(** A well-formed file: every line after the header is a row of totals or
    has a month, a count and two sums that parse. *)
Definition well_formed (lines : list string) : bool :=
  forallb row_ok (skipn 1 lines).

(** The records of the rows of a file, in file order. *)
Definition records (lines : list string) : list record :=
  flat_map (fun l => match read_row l with
                     | Ok (Some r) => [r]
                     | _ => []
                     end) (skipn 1 lines).

(** Lines 50 to 53 on the entry of the record's family. *)
Definition append_record (r : record) (v : family_rec) : family_rec :=
  append_sum_usd (rec_sum_usd r)
    (append_sum_btc (rec_sum_btc r)
       (append_count (rec_count r)
          (append_month (rec_month r) v))).

(** Lines 42 to 53 on one record. *)
Definition store (r : record) (fams : families_t) : families_t :=
  upsert new_family (append_record r) (rec_family r) fams.

(** The records of family [k], in file order. *)
Definition rows_of (k : string) (lines : list string) : list record :=
  filter (fun r => String.eqb (rec_family r) k) (records lines).

(** The category labels of the rows after the header whose month field is
    not ["Total"]. *)
Definition labels (lines : list string) : list string :=
  map (field 0)
      (filter (fun l => negb (String.eqb (field 1 l) "Total")) (skipn 1 lines)).

(** The parser of field [i] accepts [p]. *)
Definition accepts (i : nat) (p : string) : bool :=
  match i with
  | 1 => match strptime p with Some _ => true | None => false end
  | 2 => match py_int p with Some _ => true | None => false end
  | _ => match py_float p with Some _ => true | None => false end
  end.

(** A row that is not a row of totals and has a month, count or sum that
    its parser rejects. *)
Definition malformed (line : string) : Prop :=
  (exists p1, getitem (split file_separator line) 1 = Ok p1 /\
              String.eqb p1 "Total" = false) /\
  exists i p, (1 <= i <= 4)%nat /\
              getitem (split file_separator line) i = Ok p /\
              accepts i p = false.

(** The thresholds are the Python integers 1000 and 50000; a float compares
    with them as with the floats of the same value. *)
Definition SMALL_THRESHOLD : float := 1000.
Definition MEDIUM_THRESHOLD : float := 50000.

Record buckets : Type := mk_buckets {
  small : list string;
  medium : list string;
  large : list string
}.

(** The body of the loop of lines 60 to 67. *)
Definition bucket_body (fams : families_t) (family : string) : M buckets unit :=
  r <- lift (dict_get family fams) ;;
  max_sum_usd <- lift (py_max (sum_usd r)) ;;
  if PrimFloat.ltb max_sum_usd SMALL_THRESHOLD then
    modify (fun b => mk_buckets (small b ++ [family]) (medium b) (large b))
  else if PrimFloat.ltb max_sum_usd MEDIUM_THRESHOLD then
    modify (fun b => mk_buckets (small b) (medium b ++ [family]) (large b))
  else
    modify (fun b => mk_buckets (small b) (medium b) (large b ++ [family])).

Definition bucketing (fams : families_t) : result unit * buckets :=
  for_each (bucket_body fams) (keys fams) (mk_buckets [] [] []).

Inductive bucket : Type := Small | Medium | Large.

(** The branch the loop of lines 62 to 67 takes on a maximum. *)
Definition classify (max_sum_usd : float) : bucket :=
  if PrimFloat.ltb max_sum_usd SMALL_THRESHOLD then Small
  else if PrimFloat.ltb max_sum_usd MEDIUM_THRESHOLD then Medium
  else Large.

Definition bucket_rank (c : bucket) : nat :=
  match c with
  | Small => 0
  | Medium => 1
  | Large => 2
  end.

Definition bucket_eqb (c1 c2 : bucket) : bool :=
  (bucket_rank c1 =? bucket_rank c2)%nat.

Definition members (b : buckets) (c : bucket) : list string :=
  match c with
  | Small => small b
  | Medium => medium b
  | Large => large b
  end.

(** [max(families[k]["sum_usd"])], when [k] is a key and has a row. *)
Definition max_usd (fams : families_t) (k : string) : option float :=
  match dict_get k fams with
  | Ok r =>
      match py_max (sum_usd r) with
      | Ok m => Some m
      | Raise _ => None
      end
  | Raise _ => None
  end.

(** The keys among [ks] whose maximum falls in the bucket [c]. *)
Definition keys_in (fams : families_t) (c : bucket) (ks : list string) : list string :=
  filter (fun k => match max_usd fams k with
                   | Some m => bucket_eqb (classify m) c
                   | None => false
                   end) ks.

(** One line of a panel: [ax.plot(month, stats, label=family_name)]. *)
Record line (A : Type) : Type := mk_line {
  label : string;
  xs : list datetime;
  ys : list A
}.

(** The three panels of [plot_family_group]. *)
Record figure : Type := mk_figure {
  group_name : string;
  panel_count : list (line Z);
  panel_btc : list (line float);
  panel_usd : list (line float)
}.

Definition plot_lines {A : Type} (fams : families_t) (metric : family_rec -> list A)
  (family_names : list string) : result (list (line A)) :=
  match for_each
          (fun family_name =>
             r <- lift (dict_get family_name fams) ;;
             modify (fun acc => acc ++ [mk_line family_name (month r) (metric r)]))
          family_names [] with
  | (Ok _, acc) => Ok acc
  | (Raise e, _) => Raise e
  end.

(** [plot_family_group(family_names, group_name)], lines 74 to 113 *)
Definition plot_family_group (fams : families_t) (family_names : list string)
  (name : string) : result figure :=
  match plot_lines fams count family_names with
  | Raise e => Raise e
  | Ok pc =>
      match plot_lines fams sum_btc family_names with
      | Raise e => Raise e
      | Ok pb =>
          match plot_lines fams sum_usd family_names with
          | Raise e => Raise e
          | Ok pu => Ok (mk_figure name pc pb pu)
          end
      end
  end.

(** The script, from the argument check to the last figure. *)
Definition main (argv : list string) (fs : filesystem) : outcome (list figure) :=
  if negb (List.length argv =? 2)%nat then
    match getitem argv 0 with
    | Raise e => mk_outcome [] [] (Uncaught e)
    | Ok script => mk_outcome [usage script "timeline_families.csv"] [] (Exited 1)
    end
  else
    match getitem argv 1 with
    | Raise e => mk_outcome [] [] (Uncaught e)
    | Ok path =>
        match fs path with
        | None => mk_outcome [] [path] (Uncaught FileNotFoundError)
        | Some lines =>
            match ingest lines with
            | (Raise e, _) => mk_outcome [] [path] (Uncaught e)
            | (Ok _, fams) =>
                match bucketing fams with
                | (Raise e, _) => mk_outcome [] [path] (Uncaught e)
                | (Ok _, b) =>
                    let out :=
                      [("Small (< 1000 USD): " ++ str_of_nat (List.length (small b)))%string;
                       ("Medium (< 50000 USD): " ++ str_of_nat (List.length (medium b)))%string;
                       ("Large (>= 50000 USD): " ++ str_of_nat (List.length (large b)))%string] in
                    match plot_family_group fams (small b) "small" with
                    | Raise e => mk_outcome out [path] (Uncaught e)
                    | Ok f1 =>
                        match plot_family_group fams (medium b) "medium" with
                        | Raise e => mk_outcome out [path] (Uncaught e)
                        | Ok f2 =>
                            match plot_family_group fams (large b) "large" with
                            | Raise e => mk_outcome out [path] (Uncaught e)
                            | Ok f3 => mk_outcome out [path] (Completed [f1; f2; f3])
                            end
                        end
                    end
                end
            end
        end
    end.

End Script.
End PlotFamilies.

(** ** [sorted(items, key=..., reverse=True)] *)

(** The sort is stable, and with [reverse=True] it is the stable ascending
    sort of the reversed list, reversed: items with equal keys keep their
    order.  It only ever asks whether one key is less than another.  The
    model is the insertion sort, which returns what every stable sort does
    as long as [<] orders the keys (no [nan] among them). *)
Section Sorted.
Variables A K : Type.
Variable key : A -> K.
Variable lt : K -> K -> bool.

(** [x] goes before the first item whose key is not less than its own. *)
Fixpoint insert (x : A) (l : list A) : list A :=
  match l with
  | [] => [x]
  | y :: l' => if lt (key y) (key x) then y :: insert x l' else x :: y :: l'
  end.

Fixpoint sort_asc (l : list A) : list A :=
  match l with
  | [] => []
  | x :: l' => insert x (sort_asc l')
  end.

Definition sorted_reverse (l : list A) : list A := rev (sort_asc (rev l)).

(** Two keys tie when neither is less than the other. *)
Definition tie (a b : A) : Prop :=
  lt (key a) (key b) = false /\ lt (key b) (key a) = false.

(** The order of the ascending stable sort of [l]: [a] comes before [b]
    when its key is less, or when the keys tie and [a] stands before [b]
    in [l]. *)
Definition ranks_before_asc (l : list A) (a b : A) : Prop :=
  lt (key a) (key b) = true \/ (tie a b /\ before l a b).

(** The order of a descending stable sort of [l]: [a] comes before [b] when
    its key is greater, or when the keys tie and [a] stands before [b] in
    [l]. *)
Definition ranks_before (l : list A) (a b : A) : Prop :=
  lt (key b) (key a) = true \/ (tie a b /\ before l a b).

End Sorted.

(** ** plot_top_families.py *)

Module PlotTopFamilies.

Section Script.
Context {B : Builtins}.

Definition topN : nat := 15.
Definition usd_factor : float := 1.

Definition colours : list string :=
  ["red"; "darkcyan"; "black"; "darkorange"; "dodgerblue"; "magenta"; "gold";
   "limegreen"; "blueviolet"; "chocolate"; "olivedrab"; "lawngreen";
   "darkgreen"; "lightseagreen"; "silver"; "blue"; "olive"; "violet"; "tan";
   "darkred"; "hotpink"; "khaki"; "dimgrey"; "salmon"; "sandybrown"].

(** [families[family]].  The totals start as the integer 0; the first row
    of a family is added in the iteration that creates the entry, and
    [0 + x] on a float [x] is the float addition [0.0 + x]. *)
Record family_rec : Type := mk_family {
  month : list datetime;
  count : list Z;
  sum_btc : list float;
  sum_usd : list float;
  total_count : Z;
  total_sum_btc : float;
  total_sum_usd : float
}.

Definition families_t : Type := dict family_rec.

Record state : Type := mk_state {
  families : families_t;
  min_month : datetime;
  max_month : datetime
}.

Definition init : state := mk_state [] datetime_max datetime_min.

Definition new_family : family_rec := mk_family [] [] [] [] 0 0 0.

Definition append_month (m : datetime) (r : family_rec) : family_rec :=
  mk_family (month r ++ [m]) (count r) (sum_btc r) (sum_usd r)
            (total_count r) (total_sum_btc r) (total_sum_usd r).
Definition append_count (c : Z) (r : family_rec) : family_rec :=
  mk_family (month r) (count r ++ [c]) (sum_btc r) (sum_usd r)
            (total_count r) (total_sum_btc r) (total_sum_usd r).
Definition append_sum_btc (x : float) (r : family_rec) : family_rec :=
  mk_family (month r) (count r) (sum_btc r ++ [x]) (sum_usd r)
            (total_count r) (total_sum_btc r) (total_sum_usd r).
Definition append_sum_usd (x : float) (r : family_rec) : family_rec :=
  mk_family (month r) (count r) (sum_btc r) (sum_usd r ++ [x])
            (total_count r) (total_sum_btc r) (total_sum_usd r).
Definition add_total_count (c : Z) (r : family_rec) : family_rec :=
  mk_family (month r) (count r) (sum_btc r) (sum_usd r)
            (total_count r + c) (total_sum_btc r) (total_sum_usd r).
Definition add_total_sum_btc (x : float) (r : family_rec) : family_rec :=
  mk_family (month r) (count r) (sum_btc r) (sum_usd r)
            (total_count r) (total_sum_btc r + x) (total_sum_usd r).
Definition add_total_sum_usd (x : float) (r : family_rec) : family_rec :=
  mk_family (month r) (count r) (sum_btc r) (sum_usd r)
            (total_count r) (total_sum_btc r) (total_sum_usd r + x).

Definition set_families (f : families_t) (s : state) : state :=
  mk_state f (min_month s) (max_month s).

(** [families[k].<field>] updated in place *)
Definition alter (f : family_rec -> family_rec) (k : string) : M state unit :=
  fun s =>
    match dict_alter f k (families s) with
    | Ok d' => (Ok tt, set_families d' s)
    | Raise e => (Raise e, s)
    end.

(** The body of the ingestion loop, lines 42 to 71. *)
Definition body (line : string) : M state unit :=
  let parts := split file_separator line in
  family <- lift (getitem parts 0) ;;
  if String.eqb family "BlackCat" then ret tt
  else
    p1 <- lift (getitem parts 1) ;;
    if String.eqb p1 "Total" then ret tt
    else
      m <- lift (parse (strptime p1)) ;;
      modify (fun s => mk_state (families s) (dt_min (min_month s) m) (max_month s)) ;;;
      modify (fun s => mk_state (families s) (min_month s) (dt_max (max_month s) m)) ;;;
      p2 <- lift (getitem parts 2) ;;
      c <- lift (parse (py_int p2)) ;;
      p3 <- lift (getitem parts 3) ;;
      btc <- lift (parse (py_float p3)) ;;
      p4 <- lift (getitem parts 4) ;;
      usd <- lift (parse (py_float p4)) ;;
      known <- gets (fun s => dict_in family (families s)) ;;
      (if known then ret tt
       else modify (fun s => set_families (dict_add family new_family (families s)) s)) ;;;
      alter (append_month m) family ;;;
      alter (append_count c) family ;;;
      alter (append_sum_btc btc) family ;;;
      alter (append_sum_usd (usd / usd_factor)) family ;;;
      alter (add_total_count c) family ;;;
      alter (add_total_sum_btc btc) family ;;;
      alter (add_total_sum_usd usd) family.

(** Lines 35 to 71. *)
Definition ingest (lines : list string) : result unit * state :=
  for_each body (skipn 1 lines) init.

(** What the loop body makes of a line: a record, nothing for a row of the
    excluded family or a row of totals, or the exception of the first field
    that is missing or rejected. *)
Definition read_row (line : string) : result (option record) :=
  let parts := split file_separator line in
  and_then (getitem parts 0) (fun family =>
  if String.eqb family "BlackCat" then Ok None
  else
    and_then (getitem parts 1) (fun p1 =>
    if String.eqb p1 "Total" then Ok None
    else
      and_then (parse (strptime p1)) (fun m =>
      and_then (getitem parts 2) (fun p2 =>
      and_then (parse (py_int p2)) (fun c =>
      and_then (getitem parts 3) (fun p3 =>
      and_then (parse (py_float p3)) (fun btc =>
      and_then (getitem parts 4) (fun p4 =>
      and_then (parse (py_float p4)) (fun usd =>
      Ok (Some (mk_record family m c btc usd))))))))))).

Definition row_ok (line : string) : bool :=
  match read_row line with
  | Ok _ => true
  | Raise _ => false
  end.

(** A well-formed file: every line after the header is a row of the
    excluded family, a row of totals, or has a month, a count and two sums
    that parse. *)
Definition well_formed (lines : list string) : bool :=
  forallb row_ok (skipn 1 lines).

(** The records of the rows of a file, in file order. *)
Definition records (lines : list string) : list record :=
  flat_map (fun l => match read_row l with
                     | Ok (Some r) => [r]
                     | _ => []
                     end) (skipn 1 lines).

(** Lines 65 to 71 on the entry of the record's family. *)
Definition add_record (r : record) (v : family_rec) : family_rec :=
  add_total_sum_usd (rec_sum_usd r)
    (add_total_sum_btc (rec_sum_btc r)
       (add_total_count (rec_count r)
          (append_sum_usd (rec_sum_usd r / usd_factor)
             (append_sum_btc (rec_sum_btc r)
                (append_count (rec_count r)
                   (append_month (rec_month r) v)))))).

(** Lines 55 to 71 on one record. *)
Definition store (r : record) (fams : families_t) : families_t :=
  upsert new_family (add_record r) (rec_family r) fams.

(** The records of family [k], in file order. *)
Definition rows_of (k : string) (lines : list string) : list record :=
  filter (fun r => String.eqb (rec_family r) k) (records lines).

(** Lines 49 to 71 on one record. *)
Definition store_state (r : record) (s : state) : state :=
  mk_state (store r (families s))
           (dt_min (min_month s) (rec_month r))
           (dt_max (max_month s) (rec_month r)).

(** The category labels of the rows after the header whose month field is
    not ["Total"]. *)
Definition labels (lines : list string) : list string :=
  map (field 0)
      (filter (fun l => negb (String.eqb (field 1 l) "Total")) (skipn 1 lines)).

(** A row of the excluded family. *)
Definition is_blackcat (line : string) : bool := String.eqb (field 0 line) "BlackCat".

Definition int_lt (a b : Z) : bool := (a <? b)%Z.

(** Lines 74 to 79: the keys of the items sorted by a total, cut at [topN]. *)
Definition top_families {K : Type} (total : family_rec -> K) (lt : K -> K -> bool)
  (fams : families_t) : list string :=
  firstn topN (keys (sorted_reverse (fun item => total (snd item)) lt fams)).

Definition top_families_count : families_t -> list string :=
  top_families total_count int_lt.
Definition top_families_btc : families_t -> list string :=
  top_families total_sum_btc PrimFloat.ltb.
Definition top_families_usd : families_t -> list string :=
  top_families total_sum_usd PrimFloat.ltb.

(** What a top list is: there is a ranking of all the items of [families]
    in descending order of the total, items with tying totals in the order
    they have in [families], and the list is the names of its first [topN]
    items; the excluded family is not among them. *)
Definition ranking_rule {K : Type} (total : family_rec -> K) (lt : K -> K -> bool)
  (fams : families_t) (top : list string) : Prop :=
  exists ranking : list (string * family_rec),
    Permutation ranking fams /\
    StronglySorted (ranks_before (fun item => total (snd item)) lt fams) ranking /\
    top = firstn topN (keys ranking) /\
    (List.length top <= topN)%nat /\
    ~ In "BlackCat" top.

(** [ax.plot(month, values, color=colours[j], label=family_name)] *)
Record line (A : Type) : Type := mk_line {
  label : string;
  colour : string;
  xs : list datetime;
  ys : list A
}.

(** The figure: the lines of the three panels, the arguments of [set_xlim]
    (before the ten days added to the right one) and the two months named
    in the title. *)
Record figure : Type := mk_figure {
  panel_count : list (line Z);
  panel_btc : list (line float);
  panel_usd : list (line float);
  xlim : datetime * datetime;
  title_months : datetime * datetime
}.

Fixpoint enumerate_from {A : Type} (j : nat) (l : list A) : list (nat * A) :=
  match l with
  | [] => []
  | x :: l' => (j, x) :: enumerate_from (S j) l'
  end.

(** The inner loop of lines 92 and 93. *)
Definition plot_lines {A : Type} (fams : families_t) (metric : family_rec -> list A)
  (family_names : list string) : result (list (line A)) :=
  match for_each
          (fun jn : nat * string =>
             let (j, family_name) := jn in
             r <- lift (dict_get family_name fams) ;;
             c <- lift (getitem colours j) ;;
             modify (fun acc => acc ++ [mk_line family_name c (month r) (metric r)]))
          (enumerate_from 0 family_names) [] with
  | (Ok _, acc) => Ok acc
  | (Raise e, _) => Raise e
  end.

Definition render (s : state) : result figure :=
  let fams := families s in
  match plot_lines fams count (top_families_count fams) with
  | Raise e => Raise e
  | Ok pc =>
      match plot_lines fams sum_btc (top_families_btc fams) with
      | Raise e => Raise e
      | Ok pb =>
          match plot_lines fams sum_usd (top_families_usd fams) with
          | Raise e => Raise e
          | Ok pu =>
              Ok (mk_figure pc pb pu (min_month s, max_month s)
                            (min_month s, max_month s))
          end
      end
  end.

Definition main (argv : list string) (fs : filesystem) : outcome figure :=
  if negb (List.length argv =? 2)%nat then
    match getitem argv 0 with
    | Raise e => mk_outcome [] [] (Uncaught e)
    | Ok script => mk_outcome [usage script "timeline_families.csv"] [] (Exited 1)
    end
  else
    match getitem argv 1 with
    | Raise e => mk_outcome [] [] (Uncaught e)
    | Ok path =>
        match fs path with
        | None => mk_outcome [] [path] (Uncaught FileNotFoundError)
        | Some lines =>
            match ingest lines with
            | (Raise e, _) => mk_outcome [] [path] (Uncaught e)
            | (Ok _, s) =>
                match render s with
                | Raise e => mk_outcome [] [path] (Uncaught e)
                | Ok fig => mk_outcome [] [path] (Completed fig)
                end
            end
        end
    end.

End Script.
End PlotTopFamilies.

(** ** plot_months.py *)

(** The numbers of a series: the counts are integers, the sums are floats;
    the peak test adds and compares within one of the two. *)
Class Num (A : Type) : Type := {
  num_add : A -> A -> A;
  num_gt : A -> A -> bool
}.

#[export] Instance num_int : Num Z :=
  {| num_add := Z.add; num_gt := Z.gtb |}.

(** [a > b] on floats is [b < a]. *)
#[export] Instance num_float : Num float :=
  {| num_add := PrimFloat.add; num_gt := fun a b => PrimFloat.ltb b a |}.

Module PlotMonths.

Inductive halign : Type := Left | Center | Right.

(** [ax.text(months[j], y_values[j], y_values[j], ha=...)]; [point] is the
    index [j] the call was made with. *)
Record text (A : Type) : Type := mk_text {
  point : nat;
  tx : datetime;
  ty : A;
  tlabel : A;
  ha : halign
}.

(** One panel: the arguments of [set_xlim], the text calls in order, and
    the plotted line. *)
Record panel (A : Type) : Type := mk_panel {
  xlim : datetime * datetime;
  texts : list (text A);
  plot_x : list datetime;
  plot_y : list A;
  colour : string;
  title : string
}.

Record figure : Type := mk_figure {
  panel_count : panel Z;
  panel_btc : panel float;
  panel_usd : panel float;
  title_months : datetime * datetime
}.

Section Script.
Context {B : Builtins}.

Definition usd_factor : float := 1000000.

Record state : Type := mk_state {
  months : list datetime;
  count : list Z;
  amount_btc : list float;
  amount_usd : list float
}.

Definition init : state := mk_state [] [] [] [].

(** The body of the ingestion loop, lines 32 to 36. *)
Definition body (line : string) : M state unit :=
  let parts := split file_separator line in
  p0 <- lift (getitem parts 0) ;;
  d <- lift (parse (strptime p0)) ;;
  modify (fun s => mk_state (months s ++ [d]) (count s) (amount_btc s) (amount_usd s)) ;;;
  p1 <- lift (getitem parts 1) ;;
  c <- lift (parse (py_int p1)) ;;
  modify (fun s => mk_state (months s) (count s ++ [c]) (amount_btc s) (amount_usd s)) ;;;
  p2 <- lift (getitem parts 2) ;;
  btc <- lift (parse (py_float p2)) ;;
  modify (fun s => mk_state (months s) (count s) (amount_btc s ++ [py_round btc 4])
                            (amount_usd s)) ;;;
  p3 <- lift (getitem parts 3) ;;
  usd <- lift (parse (py_float p3)) ;;
  modify (fun s => mk_state (months s) (count s) (amount_btc s)
                            (amount_usd s ++ [py_round (usd / usd_factor) 2])).

(** Lines 29 to 36. *)
Definition ingest (lines : list string) : result unit * state :=
  for_each body (skipn 1 lines) init.

Definition epsilon_count : Z := 75.
Definition epsilon_btc : float := 300.
Definition epsilon_usd : float := 0x1.999999999999ap+0.  (* 1.6 *)

Definition text_at {A : Type} (months : list datetime) (y_values : list A)
  (j : nat) (h : halign) : result (text A) :=
  match getitem months j with
  | Raise e => Raise e
  | Ok m =>
      match getitem y_values j with
      | Raise e => Raise e
      | Ok y => Ok (mk_text j m y y h)
      end
  end.

(** The body of the loop of lines 60 to 62. *)
Definition peak_body {A : Type} `{Num A} (months : list datetime)
  (y_values : list A) (epsilon : A) (j : nat) : M (list (text A)) unit :=
  yj <- lift (getitem y_values j) ;;
  yl <- lift (getitem y_values (j - 1)) ;;
  if num_gt yj (num_add yl epsilon) then
    yj' <- lift (getitem y_values j) ;;
    yr <- lift (getitem y_values (j + 1)) ;;
    if num_gt yj' (num_add yr epsilon) then
      t <- lift (text_at months y_values j Center) ;;
      modify (fun ts => ts ++ [t])
    else ret tt
  else ret tt.

(** [ax.text(months[-1], y_values[-1], y_values[-1], ha="right")] *)
Definition text_last {A : Type} (months : list datetime) (y_values : list A)
  : result (text A) :=
  match getlast months with
  | Raise e => Raise e
  | Ok m =>
      match getlast y_values with
      | Raise e => Raise e
      | Ok y => Ok (mk_text (List.length y_values - 1) m y y Right)
      end
  end.

(** Lines 58 to 64: the text calls of one panel. *)
Definition annotate {A : Type} `{Num A} (months : list datetime)
  (y_values : list A) (epsilon : A) : M (list (text A)) unit :=
  for_each (peak_body months y_values epsilon)
           (range 1 (Z.of_nat (List.length y_values) - 1)) ;;;
  t0 <- lift (text_at months y_values 0 Left) ;;
  modify (fun ts => ts ++ [t0]) ;;;
  t1 <- lift (text_last months y_values) ;;
  modify (fun ts => ts ++ [t1]).

(** The peak test of line 61 at an index whose two neighbours exist. *)
Definition is_peak {A : Type} `{Num A} (y_values : list A) (epsilon : A) (j : nat) : bool :=
  match nth_error y_values j, nth_error y_values (j - 1), nth_error y_values (j + 1) with
  | Some y, Some l, Some r =>
      num_gt y (num_add l epsilon) && num_gt y (num_add r epsilon)
  | _, _, _ => false
  end.

(** An index strictly between the first and the last whose value passes the
    peak test. *)
Definition interior_peak {A : Type} `{Num A} (y_values : list A) (epsilon : A)
  (j : nat) : bool :=
  (0 <? j)%nat && (j <? List.length y_values - 1)%nat && is_peak y_values epsilon j.

(** Some text call was made for the point of index [j]. *)
Definition annotated {A : Type} (ts : list (text A)) (j : nat) : bool :=
  existsb (fun t => (point t =? j)%nat) ts.

(** The text calls made for the points of indices [js], one after the
    other. *)
Definition texts_of {A : Type} (months : list datetime) (y_values : list A)
  (h : halign) (js : list nat) : list (text A) :=
  flat_map (fun j => match text_at months y_values j h with
                     | Ok t => [t]
                     | Raise _ => []
                     end) js.

(** What the text calls of a panel are, for the series [y_values]: a point
    has a text exactly when it is an interior peak, the first point or the
    last one, and each text sits at its point and shows its value. *)
Definition annotation_rule {A : Type} `{Num A} (months : list datetime)
  (y_values : list A) (epsilon : A) (p : panel A) : Prop :=
  (forall j, annotated (texts p) j = true <->
             interior_peak y_values epsilon j = true \/ j = 0%nat \/
             j = (List.length y_values - 1)%nat) /\
  (forall j, (0 < j < List.length y_values - 1)%nat ->
             (annotated (texts p) j = true <-> is_peak y_values epsilon j = true)) /\
  (forall t, In t (texts p) ->
             nth_error months (point t) = Some (tx t) /\
             nth_error y_values (point t) = Some (ty t) /\
             tlabel t = ty t).

(** The four lists have one length. *)
Definition balanced (s : state) : Prop :=
  List.length (count s) = List.length (months s) /\
  List.length (amount_btc s) = List.length (months s) /\
  List.length (amount_usd s) = List.length (months s).

(** The parser of field [i] of a month row accepts [p]. *)
Definition accepts (i : nat) (p : string) : bool :=
  match i with
  | 0 => match strptime p with Some _ => true | None => false end
  | 1 => match py_int p with Some _ => true | None => false end
  | _ => match py_float p with Some _ => true | None => false end
  end.

(** Field [i] is the first field of the line that its parser rejects. *)
Definition first_rejected (line : string) (i : nat) : Prop :=
  (exists p, getitem (split file_separator line) i = Ok p /\ accepts i p = false) /\
  forall j, (j < i)%nat ->
            exists q, getitem (split file_separator line) j = Ok q /\ accepts j q = true.

(** A row with a month, count or sum that its parser rejects. *)
Definition malformed (line : string) : Prop :=
  exists i p, (i <= 3)%nat /\
              getitem (split file_separator line) i = Ok p /\ accepts i p = false.

Definition opt_list {A : Type} (o : option A) : list A :=
  match o with
  | Some a => [a]
  | None => []
  end.

(** The state a row leaves behind when field [i] is the first one its
    parser rejects: the fields before it were appended to their lists. *)
Definition partial_state (line : string) (i : nat) (s : state) : state :=
  mk_state
    (months s ++ (if (0 <? i)%nat then opt_list (strptime (field 0 line)) else []))
    (count s ++ (if (1 <? i)%nat then opt_list (py_int (field 1 line)) else []))
    (amount_btc s ++
       (if (2 <? i)%nat
        then map (fun x => py_round x 4) (opt_list (py_float (field 2 line)))
        else []))
    (amount_usd s).

(** The body of the loop over the three panels, lines 47 to 75. *)
Definition render_panel {A : Type} `{Num A} (months : list datetime)
  (y_values : list A) (epsilon : A) (colour title : string) : result (panel A) :=
  match getitem months 0 with
  | Raise e => Raise e
  | Ok first =>
      match getlast months with
      | Raise e => Raise e
      | Ok last =>
          match annotate months y_values epsilon [] with
          | (Raise e, _) => Raise e
          | (Ok _, ts) => Ok (mk_panel (first, last) ts months y_values colour title)
          end
      end
  end.

(** Lines 39 to 80. *)
Definition render (s : state) : result figure :=
  match render_panel (months s) (count s) epsilon_count
                     "blue" "Number of transactions" with
  | Raise e => Raise e
  | Ok pc =>
      match render_panel (months s) (amount_btc s) epsilon_btc
                         "green" "Payment sum in BTC" with
      | Raise e => Raise e
      | Ok pb =>
          match render_panel (months s) (amount_usd s) epsilon_usd
                             "red" "Payment sum in USD (in millions)" with
          | Raise e => Raise e
          | Ok pu =>
              match getitem (months s) 0 with
              | Raise e => Raise e
              | Ok first_month =>
                  match getlast (months s) with
                  | Raise e => Raise e
                  | Ok last_month => Ok (mk_figure pc pb pu (first_month, last_month))
                  end
              end
          end
      end
  end.

Definition main (argv : list string) (fs : filesystem) : outcome figure :=
  if negb (List.length argv =? 2)%nat then
    match getitem argv 0 with
    | Raise e => mk_outcome [] [] (Uncaught e)
    | Ok script => mk_outcome [usage script "timeline_months.csv"] [] (Exited 1)
    end
  else
    match getitem argv 1 with
    | Raise e => mk_outcome [] [] (Uncaught e)
    | Ok path =>
        match fs path with
        | None => mk_outcome [] [path] (Uncaught FileNotFoundError)
        | Some lines =>
            match ingest lines with
            | (Raise e, _) => mk_outcome [] [path] (Uncaught e)
            | (Ok _, s) =>
                match render s with
                | Raise e => mk_outcome [] [path] (Uncaught e)
                | Ok fig => mk_outcome [] [path] (Completed fig)
                end
            end
        end
    end.

End Script.
End PlotMonths.

(** ** What the scripts hand to matplotlib *)

Module FamiliesPlots.
Import PlotFamilies.

(** The lines of a panel are those of the families [names], in that order:
    each has its family as label and plots the months of the family against
    its values of the metric. *)
Definition plots {A : Type} (fams : families_t) (metric : family_rec -> list A)
  (names : list string) (ls : list (line A)) : Prop :=
  Forall2 (fun k ln =>
             label ln = k /\
             exists v, dict_get k fams = Ok v /\ xs ln = month v /\ ys ln = metric v)
          names ls.

(** The figure of a group shows the families [names] in each of its three
    panels. *)
Definition shows (fams : families_t) (names : list string) (name : string)
  (f : figure) : Prop :=
  group_name f = name /\
  plots fams count names (panel_count f) /\
  plots fams sum_btc names (panel_btc f) /\
  plots fams sum_usd names (panel_usd f).

(** Every line of the figure has as many x values as y values. *)
Definition square (f : figure) : Prop :=
  Forall (fun ln => List.length (xs ln) = List.length (ys ln)) (panel_count f) /\
  Forall (fun ln => List.length (xs ln) = List.length (ys ln)) (panel_btc f) /\
  Forall (fun ln => List.length (xs ln) = List.length (ys ln)) (panel_usd f).

(** The three lines the script prints. *)
Definition report (b : buckets) : list string :=
  [("Small (< 1000 USD): " ++ str_of_nat (List.length (small b)))%string;
   ("Medium (< 50000 USD): " ++ str_of_nat (List.length (medium b)))%string;
   ("Large (>= 50000 USD): " ++ str_of_nat (List.length (large b)))%string].

End FamiliesPlots.

Module TopPlots.
Import PlotTopFamilies.

(** The lines of a panel are those of the families [names], in that order:
    each has its family as label, plots the months of the family against
    its values of the metric, and the line of rank [j] has the colour
    [colours[j]]. *)
Definition plots {A : Type} (fams : families_t) (metric : family_rec -> list A)
  (names : list string) (ls : list (line A)) : Prop :=
  Forall2 (fun k ln =>
             label ln = k /\
             exists v, dict_get k fams = Ok v /\ xs ln = month v /\ ys ln = metric v)
          names ls /\
  map (@colour A) ls = firstn (List.length names) colours.

(** Every line of the figure has as many x values as y values. *)
Definition square (f : figure) : Prop :=
  Forall (fun ln => List.length (xs ln) = List.length (ys ln)) (panel_count f) /\
  Forall (fun ln => List.length (xs ln) = List.length (ys ln)) (panel_btc f) /\
  Forall (fun ln => List.length (xs ln) = List.length (ys ln)) (panel_usd f).

End TopPlots.

Module MonthsCalls.
Import PlotMonths.

(** The text calls of a panel in the order they were made, each as the
    index of its point and its alignment. *)
Definition calls {A : Type} (p : panel A) : list (nat * halign) :=
  map (fun t => (point t, ha t)) (texts p).

(** The calls lines 60 to 64 make for a series: a centred text for each
    index of [range(1, len(y_values) - 1)] that passes the peak test, in
    increasing order, then the text of the first point and the text of the
    last one. *)
Definition expected_calls {A : Type} `{Num A} (y_values : list A) (epsilon : A)
  : list (nat * halign) :=
  map (fun j => (j, Center))
      (filter (is_peak y_values epsilon)
              (range 1 (Z.of_nat (List.length y_values) - 1))) ++
  [(0%nat, Left); ((List.length y_values - 1)%nat, Right)].

(** The lists differ in length by one at most, a list of an earlier column
    being the longer one. *)
Definition staircase (s : state) : Prop :=
  (List.length (amount_usd s) <= List.length (amount_btc s))%nat /\
  (List.length (amount_btc s) <= List.length (count s))%nat /\
  (List.length (count s) <= List.length (months s))%nat /\
  (List.length (months s) <= List.length (amount_usd s) + 1)%nat.

Section Rows.
Context {B : Builtins}.

(** What a row that is read without error appends to the four lists. *)
Definition parsed_row (line : string) (s : state) : option state :=
  match strptime (field 0 line), py_int (field 1 line),
        py_float (field 2 line), py_float (field 3 line) with
  | Some d, Some c, Some btc, Some usd =>
      Some (mk_state (months s ++ [d]) (count s ++ [c])
                     (amount_btc s ++ [py_round btc 4])
                     (amount_usd s ++ [py_round (usd / usd_factor) 2]))
  | _, _, _, _ => None
  end.

End Rows.

End MonthsCalls.

(** ** How a run can fail *)


(** ** The labels of the y axis

    [mt.FuncFormatter(lambda x, p: format(int(x), ','))]: matplotlib calls
    the function with the place [x] of a tick, a float, and shows what it
    returns. *)
Module Ticks.

(** [int(x)] on a float: the number without its fraction; there is none for
    [nan] ([ValueError]) and for an infinity ([OverflowError]). *)
Inductive conversion : Type :=
| Integer (n : Z)
| NanToInteger
| InfinityToInteger.

(** A finite float is [m * 2^e]; with [e < 0] the shift drops the bits of
    the fraction, and the sign is put on afterwards, so that the number is
    cut towards zero. *)
Definition int_of_float (x : float) : conversion :=
  match Prim2SF x with
  | S754_nan => NanToInteger
  | S754_infinity _ => InfinityToInteger
  | S754_zero _ => Integer 0
  | S754_finite s m e =>
      let n := Z.shiftl (Z.pos m) e in
      Integer (if s then (- n)%Z else n)
  end.

(** The decimal digits of [|n|], the first one first. *)
Definition digits (n : Z) : list ascii :=
  list_ascii_of_string (NilZero.string_of_uint (N.to_uint (Z.abs_N n))).

(** A comma after every third item that has an item after it. *)
Fixpoint group3 (l : list ascii) : list ascii :=
  match l with
  | a :: b :: c :: ((_ :: _) as rest) => a :: b :: c :: ","%char :: group3 rest
  | _ => l
  end.

(** [format(n, ',')]: the digits in groups of three from the right. *)
Definition format_comma (n : Z) : string :=
  let body := string_of_list_ascii (rev (group3 (rev (digits n)))) in
  if (n <? 0)%Z then String "-" body else body.

(** [str(n)] *)
Definition str (n : Z) : string :=
  let body := string_of_list_ascii (digits n) in
  if (n <? 0)%Z then String "-" body else body.

(** [s.replace(",", "")] *)
Definition without_commas (s : string) : string :=
  string_of_list_ascii
    (filter (fun c => negb (Ascii.eqb c ","%char)) (list_ascii_of_string s)).

(** The label of the tick at [x], or the exception of [int]. *)
Definition tick_label (x : float) : string + conversion :=
  match int_of_float x with
  | Integer n => inl (format_comma n)
  | c => inr c
  end.

End Ticks.

(** ** An implementation of the library functions

    [int], [float], [round] and [strptime] as CPython computes them on ASCII
    text (digits of other scripts, and the limit recent interpreters put
    on the number of digits of an [int], are left out).  The theorems
    below do not depend on it; the examples run on it. *)

Module CPython.

Definition chars (s : string) : list ascii := list_ascii_of_string s.

(** The ASCII characters [str.isspace] accepts. *)
Definition is_space (c : ascii) : bool :=
  let n := nat_of_ascii c in
  ((9 <=? n) && (n <=? 13) || (28 <=? n) && (n <=? 32))%nat.

Fixpoint lstrip (l : list ascii) : list ascii :=
  match l with
  | c :: l' => if is_space c then lstrip l' else l
  | [] => []
  end.

Definition strip (l : list ascii) : list ascii := rev (lstrip (rev (lstrip l))).

Definition digit_of (c : ascii) : option Z :=
  let n := nat_of_ascii c in
  if ((48 <=? n) && (n <=? 57))%nat then Some (Z.of_nat (n - 48)) else None.

(** The rest of a [digitpart] after a digit: digits, each possibly after
    one underscore.  Returns the value, the number of digits and what is
    left. *)
Fixpoint more_digits (acc : Z) (n : nat) (l : list ascii) : Z * nat * list ascii :=
  match l with
  | [] => (acc, n, l)
  | c :: l' =>
      match digit_of c with
      | Some d => more_digits (10 * acc + d) (S n) l'
      | None =>
          if Ascii.eqb c "_" then
            match l' with
            | c2 :: l'' =>
                match digit_of c2 with
                | Some d => more_digits (10 * acc + d) (S n) l''
                | None => (acc, n, l)
                end
            | [] => (acc, n, l)
            end
          else (acc, n, l)
      end
  end.

(** [digitpart ::= digit (["_"] digit)*], continuing the value [acc]. *)
Definition digitpart (acc : Z) (l : list ascii) : option (Z * nat * list ascii) :=
  match l with
  | c :: l' =>
      match digit_of c with
      | Some d => Some (more_digits (10 * acc + d) 1 l')
      | None => None
      end
  | [] => None
  end.

(** An optional sign: [true] for minus. *)
Definition sign (l : list ascii) : bool * list ascii :=
  match l with
  | c :: l' =>
      if Ascii.eqb c "-" then (true, l')
      else if Ascii.eqb c "+" then (false, l')
      else (false, l)
  | [] => (false, l)
  end.

(** [int(s)] *)
Definition int (s : string) : option Z :=
  let (neg, l) := sign (strip (chars s)) in
  match digitpart 0 l with
  | Some (v, _, []) => Some (if neg then - v else v)%Z
  | _ => None
  end.

(** The float nearest to [num / den] (ties to even), for [0 < num] and
    [0 < den]: the quotient is taken with more than 64 bits and one sticky
    bit, and rounded once. *)
Definition float_of_ratio (neg : bool) (num den : Z) : float :=
  if (num <=? 0)%Z then (if neg then neg_zero else zero)
  else
    let k := (64 + Z.log2_up den)%Z in
    let n := (num * 2 ^ k)%Z in
    let q := (n / den)%Z in
    let sticky := if (n mod den =? 0)%Z then 0%Z else 1%Z in
    let m := (2 * q + sticky)%Z in
    SF2Prim (binary_normalize prec emax (if neg then - m else m)%Z (- k - 1) false).

(** The float nearest to [m * 10 ^ e], for [0 <= m] with [nd] digits. *)
Definition float_of_decimal (neg : bool) (m : Z) (nd : nat) (e : Z) : float :=
  if (m =? 0)%Z then (if neg then neg_zero else zero)
  else if (310 <? Z.of_nat nd + e)%Z then (if neg then neg_infinity else infinity)
  else if (Z.of_nat nd + e <? -330)%Z then (if neg then neg_zero else zero)
  else if (0 <=? e)%Z then float_of_ratio neg (m * 10 ^ e) 1
  else float_of_ratio neg m (10 ^ (- e)).

Definition lower (c : ascii) : ascii :=
  let n := nat_of_ascii c in
  if ((65 <=? n) && (n <=? 90))%nat then ascii_of_nat (n + 32) else c.

(** [exponent ::= ("e" | "E") [sign] digitpart], to the end of the text. *)
Definition exponent (l : list ascii) : option Z :=
  match l with
  | [] => Some 0%Z
  | c :: l' =>
      if Ascii.eqb (lower c) "e" then
        let (neg, l'') := sign l' in
        match digitpart 0 l'' with
        | Some (v, _, []) => Some (if neg then - v else v)%Z
        | _ => None
        end
      else None
  end.

(** [number ::= [digitpart] "." digitpart | digitpart ["."]], then the
    exponent. *)
Definition floatnumber (neg : bool) (l : list ascii) : option float :=
  match digitpart 0 l with
  | Some (i, ni, rest) =>
      match rest with
      | c :: rest' =>
          if Ascii.eqb c "." then
            match digitpart i rest' with
            | Some (v, nf, rest'') =>
                match exponent rest'' with
                | Some e => Some (float_of_decimal neg v (ni + nf) (e - Z.of_nat nf))
                | None => None
                end
            | None =>
                match exponent rest' with
                | Some e => Some (float_of_decimal neg i ni e)
                | None => None
                end
            end
          else
            match exponent rest with
            | Some e => Some (float_of_decimal neg i ni e)
            | None => None
            end
      | [] => Some (float_of_decimal neg i ni 0)
      end
  | None =>
      match l with
      | c :: rest =>
          if Ascii.eqb c "." then
            match digitpart 0 rest with
            | Some (v, nf, rest') =>
                match exponent rest' with
                | Some e => Some (float_of_decimal neg v nf (e - Z.of_nat nf))
                | None => None
                end
            | None => None
            end
          else None
      | [] => None
      end
  end.

(** [float(s)] *)
Definition float_of_string (s : string) : option float :=
  let (neg, l) := sign (strip (chars s)) in
  let word := string_of_list_ascii (map lower l) in
  if String.eqb word "inf" || String.eqb word "infinity" then
    Some (if neg then neg_infinity else infinity)
  else if String.eqb word "nan" then Some nan
  else floatnumber neg l.

(** The integer nearest to [num / den], ties to even, for [0 < den]. *)
Definition round_half_even (num den : Z) : Z :=
  let q := (num / den)%Z in
  let r := (num mod den)%Z in
  if (den <? 2 * r)%Z then (q + 1)%Z
  else if (2 * r <? den)%Z then q
  else if Z.even q then q else (q + 1)%Z.

(** [round(x, ndigits)]: the exact value of [x] is rounded to [ndigits]
    decimals, ties to even, and the decimal is converted back. *)
Definition round (x : float) (ndigits : Z) : float :=
  match Prim2SF x with
  | S754_finite s m e =>
      let up := (10 ^ Z.max ndigits 0)%Z in
      let down := (10 ^ Z.max (- ndigits) 0)%Z in
      let num := (Zpos m * 2 ^ Z.max e 0 * up)%Z in
      let den := (2 ^ Z.max (- e) 0 * down)%Z in
      float_of_ratio s (round_half_even num den * down) up
  | _ => x
  end.

Definition all_digits (l : list ascii) : option Z :=
  fold_left (fun acc c =>
               match acc, digit_of c with
               | Some v, Some d => Some (10 * v + d)%Z
               | _, _ => None
               end) l (Some 0%Z).

(** The month of the directive [%m]: [1[0-2]|0[1-9]|[1-9]], the first
    alternative that matches, and then the text must end. *)
Definition month_directive (l : list ascii) : option Z :=
  match l with
  | [a; b] =>
      match digit_of a, digit_of b with
      | Some 1%Z, Some d => if (d <=? 2)%Z then Some (10 + d)%Z else None
      | Some 0%Z, Some d => if (1 <=? d)%Z then Some d else None
      | _, _ => None
      end
  | [a] =>
      match digit_of a with
      | Some d => if (1 <=? d)%Z then Some d else None
      | None => None
      end
  | _ => None
  end.

(** [datetime.datetime.strptime(s, "%Y-%m")]: four digits, a dash, the
    month; the year 0 is out of range for a [datetime]. *)
Definition strptime_ym (s : string) : option datetime :=
  match chars s with
  | y1 :: y2 :: y3 :: y4 :: dash :: rest =>
      if Ascii.eqb dash "-" then
        match all_digits [y1; y2; y3; y4], month_directive rest with
        | Some y, Some m =>
            if (1 <=? y)%Z then Some (mk_datetime y m 1 0 0 0 0) else None
        | _, _ => None
        end
      else None
  | _ => None
  end.

End CPython.

#[export] Instance ascii_builtins : Builtins := {|
  py_int := CPython.int;
  py_float := CPython.float_of_string;
  py_round := CPython.round;
  strptime := CPython.strptime_ym
|}.

(** ** Example files *)

Definition row (s : string) : string := (s ++ nl)%string.

(** A month file with one peak in each of its series. *)
Definition months_file : list string :=
  [row "Month,Count,Sum (BTC),Sum (USD)";
   row "2021-01,5,0.5,1000000";
   row "2021-02,700,900.25,700000000";
   row "2021-03,3,0.25,3000000"].

(** A month file that has only its header. *)
Definition months_header_only : list string :=
  [row "Month,Count,Sum (BTC),Sum (USD)"].

(** The file of the specification's round trip. *)
Definition acme_file : list string :=
  [row "Family,Month,Count,Sum (BTC),Sum (USD)";
   row "Acme,2021-01,5,0.01,500";
   row "Acme,2021-02,7,0.02,700";
   row "Acme,2021-03,3,0.01,300"].

(** One file for an empty file system and one that holds [lines] under
    every path. *)
Definition no_files : filesystem := fun _ => None.
Definition only_file (lines : list string) : filesystem := fun _ => Some lines.

(** A family file with a row of the excluded family. *)
Definition blackcat_file : list string :=
  [row "Family,Month,Count,Sum (BTC),Sum (USD)";
   row "BlackCat,2021-01,1,0.5,100"].

(** A family file with ties, a row of totals and rows of the excluded
    family, one of them not even a row. *)
Definition ranking_file : list string :=
  [row "Family,Month,Count,Sum (BTC),Sum (USD)";
   row "Conti,2021-01,5,1.5,100";
   row "Ryuk,2021-01,7,0.5,300";
   row "BlackCat,2021-01,99,9.5,90000";
   row "Conti,2021-02,2,1.0,200";
   row "Ryuk,Total,7,0.5,300";
   row "BlackCat,no month";
   row "Maze,2021-02,7,2.5,60000"].

(** A month file with a row of totals. *)
Definition months_total_file : list string :=
  [row "Month,Count,Sum (BTC),Sum (USD)";
   row "2021-01,5,0.5,1000000";
   row "Total,5,0.5,1000000"].

(** The same file without the row of totals. *)
Definition months_total_file_without : list string :=
  [row "Month,Count,Sum (BTC),Sum (USD)";
   row "2021-01,5,0.5,1000000"].

(** A month file whose second row has a count that is not a number. *)
Definition months_bad_count_file : list string :=
  [row "Month,Count,Sum (BTC),Sum (USD)";
   row "2021-01,5,0.5,1000000";
   row "2021-02,many,0.25,2000000";
   row "2021-03,3,0.25,3000000"].

(** A family file whose second row has a count that is not a number. *)
Definition families_bad_count_file : list string :=
  [row "Family,Month,Count,Sum (BTC),Sum (USD)";
   row "Conti,2021-01,5,1.5,100";
   row "Conti,2021-02,many,0.5,300";
   row "Ryuk,2021-02,7,0.5,300"].

(** A family file whose first row has a USD sum that is no number. *)
Definition nan_file : list string :=
  [row "Family,Month,Count,Sum (BTC),Sum (USD)";
   row "Conti,2021-01,5,1.5,nan";
   row "Conti,2021-02,2,1.0,200"].


(** * Properties *)

Unset Implicit Arguments.

(** ** Loops, lists and dictionaries *)

Lemma for_each_app {S A : Type} (body : A -> M S unit) (l1 l2 : list A) (s : S) :
  for_each body (l1 ++ l2) s =
  match for_each body l1 s with
  | (Ok _, s') => for_each body l2 s'
  | (Raise e, s') => (Raise e, s')
  end.
Proof.
  revert s. induction l1 as [|x l1 IH]; intros s; simpl.
  - reflexivity.
  - unfold bind. destruct (body x s) as [[[]|e] s']; [apply IH | reflexivity].
Qed.

Lemma filter_filter {A : Type} (p q : A -> bool) (l : list A) :
  filter p (filter q l) = filter (fun x => q x && p x) l.
Proof.
  induction l as [|x l IH]; simpl; [reflexivity|].
  destruct (q x); simpl; [destruct (p x)|]; rewrite IH; reflexivity.
Qed.

Lemma dict_in_In {V : Type} (k : string) (d : dict V) :
  dict_in k d = true <-> In k (keys d).
Proof.
  unfold dict_in, keys. rewrite existsb_exists, in_map_iff. split.
  - intros [kv [Hin Heq]]. apply String.eqb_eq in Heq. exists kv. split; assumption.
  - intros [kv [Heq Hin]]. exists kv. split; [assumption|]. apply String.eqb_eq. exact Heq.
Qed.

Lemma dict_in_app {V : Type} (k : string) (d1 d2 : dict V) :
  dict_in k (d1 ++ d2) = dict_in k d1 || dict_in k d2.
Proof. unfold dict_in. apply existsb_app. Qed.

Lemma keys_dict_update {V : Type} (f : V -> V) (k : string) (d : dict V) :
  keys (dict_update f k d) = keys d.
Proof.
  induction d as [|[k' v] d IH]; simpl; [reflexivity|].
  destruct (String.eqb k' k); simpl; [reflexivity|]. f_equal. exact IH.
Qed.

Lemma dict_in_update {V : Type} (f : V -> V) (k k' : string) (d : dict V) :
  dict_in k' (dict_update f k d) = dict_in k' d.
Proof.
  destruct (dict_in k' d) eqn:E.
  - apply dict_in_In. rewrite keys_dict_update. apply dict_in_In. exact E.
  - destruct (dict_in k' (dict_update f k d)) eqn:E'; [|reflexivity].
    apply dict_in_In in E'. rewrite keys_dict_update in E'.
    apply dict_in_In in E'. congruence.
Qed.

Lemma dict_alter_update {V : Type} (f : V -> V) (k : string) (d : dict V) :
  dict_in k d = true -> dict_alter f k d = Ok (dict_update f k d).
Proof.
  induction d as [|[k' v] d IH]; simpl; [discriminate|].
  unfold dict_in. simpl. destruct (String.eqb k' k); simpl; [reflexivity|].
  intros H. fold (dict_in k d) in H. rewrite (IH H). reflexivity.
Qed.

Lemma dict_update_twice {V : Type} (f g : V -> V) (k : string) (d : dict V) :
  dict_update f k (dict_update g k d) = dict_update (fun v => f (g v)) k d.
Proof.
  induction d as [|[k' v] d IH]; simpl; [reflexivity|].
  destruct (String.eqb k' k) eqn:E; simpl; rewrite E; [reflexivity|].
  f_equal. exact IH.
Qed.

Lemma dict_update_new {V : Type} (f : V -> V) (k : string) (v : V) (d : dict V) :
  dict_in k d = false -> dict_update f k (d ++ [(k, v)]) = d ++ [(k, f v)].
Proof.
  induction d as [|[k' v'] d IH]; simpl.
  - intros _. rewrite String.eqb_refl. reflexivity.
  - unfold dict_in. simpl. destruct (String.eqb k' k); simpl; [discriminate|].
    intros H. fold (dict_in k d) in H. rewrite (IH H). reflexivity.
Qed.

Lemma dict_get_In {V : Type} (k : string) (v : V) (d : dict V) :
  NoDup (keys d) -> In (k, v) d -> dict_get k d = Ok v.
Proof.
  induction d as [|[k' v'] d IH]; simpl; [contradiction|].
  intros Hnd [Heq|Hin].
  - inversion Heq; subst. rewrite String.eqb_refl. reflexivity.
  - inversion Hnd as [|? ? Hnot Hnd']; subst.
    destruct (String.eqb k' k) eqn:E.
    + apply String.eqb_eq in E. subst k'. exfalso. apply Hnot.
      change k with (fst (k, v)). apply in_map. exact Hin.
    + apply IH; assumption.
Qed.

Lemma dict_get_Ok_In {V : Type} (k : string) (v : V) (d : dict V) :
  dict_get k d = Ok v -> In (k, v) d.
Proof.
  induction d as [|[k' v'] d IH]; simpl; [discriminate|].
  destruct (String.eqb k' k) eqn:E.
  - apply String.eqb_eq in E. subst k'. intros H. inversion H. left. reflexivity.
  - intros H. right. apply IH. exact H.
Qed.

Lemma dict_get_update {V : Type} (f : V -> V) (k k' : string) (d : dict V) :
  dict_get k (dict_update f k' d) =
  if String.eqb k' k then
    match dict_get k d with
    | Ok v => Ok (f v)
    | Raise e => Raise e
    end
  else dict_get k d.
Proof.
  induction d as [|[k0 v] d IH]; simpl.
  - destruct (String.eqb k' k); reflexivity.
  - destruct (String.eqb k0 k') eqn:E1; simpl.
    + apply String.eqb_eq in E1. subst k0.
      destruct (String.eqb k' k); reflexivity.
    + destruct (String.eqb k0 k) eqn:E2; [|exact IH].
      apply String.eqb_eq in E2. subst k0. rewrite String.eqb_sym in E1.
      rewrite E1. reflexivity.
Qed.

Lemma dict_get_app {V : Type} (k : string) (d1 d2 : dict V) :
  dict_get k (d1 ++ d2) =
  match dict_get k d1 with
  | Ok v => Ok v
  | Raise _ => dict_get k d2
  end.
Proof.
  induction d1 as [|[k0 v] d1 IH]; simpl; [reflexivity|].
  destruct (String.eqb k0 k); [reflexivity | exact IH].
Qed.

Lemma dict_get_Raise {V : Type} (k : string) (e : exn) (d : dict V) :
  dict_get k d = Raise e -> dict_in k d = false.
Proof.
  induction d as [|[k0 v] d IH]; simpl; [reflexivity|].
  unfold dict_in. simpl. destruct (String.eqb k0 k); [discriminate|]. exact IH.
Qed.

(** A split text has a first field. *)
Lemma split_first (sep : ascii) (s : string) :
  exists p ps, split sep s = p :: ps.
Proof.
  destruct s as [|c s]; simpl.
  - eexists. eexists. reflexivity.
  - destruct (Ascii.eqb c sep).
    + eexists. eexists. reflexivity.
    + destruct (split sep s); eexists; eexists; reflexivity.
Qed.

Lemma getitem_field (i : nat) (line p : string) :
  getitem (split file_separator line) i = Ok p -> field i line = p.
Proof.
  unfold getitem, field. intros H.
  destruct (nth_error (split file_separator line) i) as [x|] eqn:E; [|discriminate].
  inversion H; subst. apply nth_error_nth. exact E.
Qed.

Lemma getitem_first (line : string) :
  getitem (split file_separator line) 0 = Ok (field 0 line).
Proof.
  unfold getitem, field. destruct (split_first file_separator line) as [p [ps E]].
  rewrite E. reflexivity.
Qed.

Lemma getitem_before {A : Type} (l : list A) (i j : nat) (x : A) :
  getitem l i = Ok x -> (j <= i)%nat -> exists y, getitem l j = Ok y.
Proof.
  unfold getitem. intros H Hj.
  destruct (nth_error l i) eqn:E; [|discriminate].
  assert (Hi : (i < List.length l)%nat) by (apply nth_error_Some; congruence).
  destruct (nth_error l j) as [y|] eqn:E'.
  - exists y. reflexivity.
  - apply nth_error_None in E'. lia.
Qed.

Lemma first_seen_In (k : string) (l : list string) :
  In k (first_seen l) <-> In k l.
Proof.
  induction l as [|x l IH]; simpl; [tauto|].
  rewrite filter_In, IH. destruct (String.eqb k x) eqn:E.
  - apply String.eqb_eq in E. subst x. simpl. intuition discriminate.
  - apply String.eqb_neq in E. simpl. intuition congruence.
Qed.

Lemma first_seen_NoDup (l : list string) : NoDup (first_seen l).
Proof.
  induction l as [|x l IH]; simpl; constructor.
  - rewrite filter_In. intros [_ H]. rewrite String.eqb_refl in H. discriminate.
  - apply NoDup_filter. exact IH.
Qed.

(** The labels that occur, counted once each. *)
Lemma first_seen_length (l : list string) :
  List.length (first_seen l) = List.length (nodup string_dec l).
Proof.
  apply Permutation_length. apply NoDup_Permutation.
  - apply first_seen_NoDup.
  - apply NoDup_nodup.
  - intros k. rewrite first_seen_In, nodup_In. tauto.
Qed.

(** ** Grouping records by a label *)

Section Grouping.
Variables V R : Type.
Variable fam : R -> string.
Variable step : R -> V -> V.
Variable new : V.

Local Abbreviation put' := (put fam step new).
Local Abbreviation group' := (group fam step new).
Local Abbreviation get' := (get_or new).

Lemma keys_put (r : R) (d : dict V) :
  keys (put' r d) = if dict_in (fam r) d then keys d else keys d ++ [fam r].
Proof.
  unfold put, upsert. destruct (dict_in (fam r) d).
  - apply keys_dict_update.
  - unfold keys. rewrite map_app. reflexivity.
Qed.

Lemma dict_in_put (k : string) (r : R) (d : dict V) :
  dict_in k (put' r d) = dict_in k d || String.eqb (fam r) k.
Proof.
  unfold put, upsert. destruct (dict_in (fam r) d) eqn:E.
  - rewrite dict_in_update. destruct (String.eqb (fam r) k) eqn:Ek.
    + apply String.eqb_eq in Ek. subst k. rewrite E. reflexivity.
    + rewrite orb_false_r. reflexivity.
  - rewrite dict_in_app. unfold dict_in at 2. simpl. rewrite orb_false_r. reflexivity.
Qed.

Lemma keys_group (recs : list R) (d : dict V) :
  keys (group' recs d) =
  keys d ++ filter (fun k => negb (dict_in k d)) (first_seen (map fam recs)).
Proof.
  revert d. induction recs as [|r recs IH]; intros d; simpl.
  - rewrite app_nil_r. reflexivity.
  - unfold group in *. simpl. rewrite IH. rewrite keys_put.
    rewrite filter_filter.
    destruct (dict_in (fam r) d) eqn:E; simpl.
    + f_equal. apply filter_ext. intros k. rewrite dict_in_put.
      destruct (String.eqb k (fam r)) eqn:Ek.
      * apply String.eqb_eq in Ek. subst k. rewrite E. reflexivity.
      * rewrite String.eqb_sym in Ek. rewrite Ek, orb_false_r. reflexivity.
    + rewrite <- app_assoc. simpl. do 2 f_equal. apply filter_ext. intros k.
      rewrite dict_in_put. rewrite (String.eqb_sym (fam r) k).
      destruct (String.eqb k (fam r)), (dict_in k d); reflexivity.
Qed.

Lemma get_or_put (k : string) (r : R) (d : dict V) :
  get' k (put' r d) = if String.eqb (fam r) k then step r (get' k d) else get' k d.
Proof.
  unfold get_or, put, upsert. destruct (dict_in (fam r) d) eqn:E.
  - rewrite dict_get_update. destruct (String.eqb (fam r) k) eqn:Ek; [|reflexivity].
    apply String.eqb_eq in Ek. subst k.
    destruct (dict_get (fam r) d) eqn:G; [reflexivity|].
    apply dict_get_Raise in G. congruence.
  - rewrite dict_get_app. simpl. destruct (dict_get k d) eqn:G.
    + destruct (String.eqb (fam r) k) eqn:Ek; [|reflexivity].
      apply String.eqb_eq in Ek. subst k.
      apply dict_get_Ok_In in G. apply (in_map fst) in G.
      apply dict_in_In in G. simpl in G. congruence.
    + destruct (String.eqb (fam r) k); reflexivity.
Qed.

Lemma get_or_group (k : string) (recs : list R) (d : dict V) :
  get' k (group' recs d) =
  fold_left (fun v r => step r v) (filter (fun r => String.eqb (fam r) k) recs)
            (get' k d).
Proof.
  revert d. induction recs as [|r recs IH]; intros d; simpl; [reflexivity|].
  unfold group in *. simpl. rewrite IH, get_or_put.
  destruct (String.eqb (fam r) k); reflexivity.
Qed.

End Grouping.

(** ** The stable sort *)

Lemma StronglySorted_app {A : Type} (R : A -> A -> Prop) (l1 l2 : list A) :
  StronglySorted R l1 -> StronglySorted R l2 ->
  (forall a b, In a l1 -> In b l2 -> R a b) ->
  StronglySorted R (l1 ++ l2).
Proof.
  intros H1 H2 H12. induction H1 as [|a l1 H1 IH Ha]; simpl; [exact H2|].
  constructor.
  - apply IH. intros x y Hx Hy. apply H12; [right; exact Hx | exact Hy].
  - apply Forall_app. split; [exact Ha|].
    apply Forall_forall. intros y Hy. apply H12; [left; reflexivity | exact Hy].
Qed.

Lemma StronglySorted_rev {A : Type} (R : A -> A -> Prop) (l : list A) :
  StronglySorted R l -> StronglySorted (fun a b => R b a) (rev l).
Proof.
  intros H. induction H as [|a l H IH Ha]; simpl; [constructor|].
  apply StronglySorted_app.
  - exact IH.
  - constructor; constructor.
  - intros x y Hx [Hy|[]]. subst y. apply in_rev in Hx.
    rewrite Forall_forall in Ha. apply Ha. exact Hx.
Qed.

Lemma StronglySorted_impl {A : Type} (R1 R2 : A -> A -> Prop) (l : list A) :
  (forall a b, In a l -> In b l -> R1 a b -> R2 a b) ->
  StronglySorted R1 l -> StronglySorted R2 l.
Proof.
  intros Himp H. induction H as [|a l H IH Ha]; constructor.
  - apply IH. intros x y Hx Hy. apply Himp; right; assumption.
  - rewrite Forall_forall in *. intros y Hy. apply Himp;
      [left; reflexivity | right; exact Hy | apply Ha; exact Hy].
Qed.

Lemma before_cons {A : Type} (x a b : A) (l : list A) :
  before l a b -> before (x :: l) a b.
Proof.
  intros [l1 [l2 [l3 E]]]. exists (x :: l1), l2, l3. rewrite E. reflexivity.
Qed.

Lemma before_head {A : Type} (x b : A) (l : list A) :
  In b l -> before (x :: l) x b.
Proof.
  intros H. apply in_split in H. destruct H as [l2 [l3 E]].
  exists [], l2, l3. rewrite E. reflexivity.
Qed.

Lemma before_rev {A : Type} (a b : A) (l : list A) :
  before (rev l) a b -> before l b a.
Proof.
  intros [l1 [l2 [l3 E]]]. exists (rev l3), (rev l2), (rev l1).
  rewrite <- (rev_involutive l), E.
  rewrite rev_app_distr. simpl. rewrite rev_app_distr. simpl.
  rewrite <- !app_assoc. reflexivity.
Qed.

Section SortFacts.
Variables A K : Type.
Variable key : A -> K.
Variable lt : K -> K -> bool.

Lemma insert_perm (x : A) (l : list A) :
  Permutation (insert key lt x l) (x :: l).
Proof.
  induction l as [|y l IH]; simpl; [reflexivity|].
  destruct (lt (key y) (key x)); [|reflexivity].
  rewrite IH. apply perm_swap.
Qed.

Lemma sort_asc_perm (l : list A) : Permutation (sort_asc key lt l) l.
Proof.
  induction l as [|x l IH]; simpl; [reflexivity|].
  rewrite insert_perm. apply perm_skip. exact IH.
Qed.

Lemma sorted_reverse_perm (l : list A) : Permutation (sorted_reverse key lt l) l.
Proof.
  unfold sorted_reverse. rewrite <- Permutation_rev, sort_asc_perm.
  symmetry. apply Permutation_rev.
Qed.

(** The keys that [<] orders: it is asymmetric on them, and being not
    less is transitive. *)
Variable good : K -> Prop.
Hypothesis lt_asym :
  forall a b, good a -> good b -> lt a b = true -> lt b a = false.
Hypothesis lt_negtrans :
  forall a b c, good a -> good b -> good c ->
                lt a b = false -> lt b c = false -> lt a c = false.

Local Abbreviation asc := (ranks_before_asc key lt).

Lemma asc_not_gt (l : list A) (a b : A) :
  good (key a) -> good (key b) -> asc l a b -> lt (key b) (key a) = false.
Proof.
  intros Ga Gb [H|[[_ H] _]]; [apply lt_asym; assumption | exact H].
Qed.

Lemma insert_sorted (x : A) (l s : list A) :
  good (key x) -> Forall (fun a => good (key a)) s ->
  (forall w, In w s -> In w l) ->
  StronglySorted (asc l) s ->
  StronglySorted (asc (x :: l)) (insert key lt x s).
Proof.
  intros Gx Gs Hsub Hs. induction Hs as [|y s Hs IH Hy]; simpl.
  - constructor; constructor.
  - inversion Gs as [|? ? Gy Gs']; subst.
    destruct (lt (key y) (key x)) eqn:E.
    + constructor.
      * apply IH; [exact Gs'|]. intros w Hw. apply Hsub. right. exact Hw.
      * apply Forall_forall. intros w Hw.
        apply (Permutation_in _ (insert_perm x s)) in Hw. destruct Hw as [Hw|Hw].
        -- subst w. left. exact E.
        -- rewrite Forall_forall in Hy. destruct (Hy w Hw) as [H|[Ht Hb]].
           ++ left. exact H.
           ++ right. split; [exact Ht | apply before_cons; exact Hb].
    + assert (Hall : forall w, In w (y :: s) -> lt (key w) (key x) = false).
      { intros w [Hw|Hw]; [subst w; exact E|].
        rewrite Forall_forall in Hy, Gs'.
        apply (lt_negtrans (key w) (key y) (key x)); auto.
        apply (asc_not_gt l y w); auto. }
      constructor.
      * apply (StronglySorted_impl (asc l)).
        -- intros a b _ _ [H|[Ht Hb]]; [left; exact H|].
           right. split; [exact Ht | apply before_cons; exact Hb].
        -- constructor; assumption.
      * apply Forall_forall. intros w Hw.
        destruct (lt (key x) (key w)) eqn:E'; [left; exact E'|].
        right. split; [split; [exact E' | apply Hall; exact Hw]|].
        apply before_head. apply Hsub. exact Hw.
Qed.

Lemma sort_asc_sorted (l : list A) :
  Forall (fun a => good (key a)) l ->
  StronglySorted (asc l) (sort_asc key lt l).
Proof.
  induction l as [|x l IH]; intros G; simpl; [constructor|].
  inversion G as [|? ? Gx Gl]; subst.
  apply insert_sorted.
  - exact Gx.
  - apply Forall_forall. intros a Ha. rewrite Forall_forall in Gl. apply Gl.
    apply (Permutation_in _ (sort_asc_perm l)). exact Ha.
  - intros w Hw. apply (Permutation_in _ (sort_asc_perm l)). exact Hw.
  - apply IH. exact Gl.
Qed.

(** [sorted(l, key=key, reverse=True)] is in descending order of the keys,
    and items whose keys tie keep the order they have in [l]. *)
Lemma sorted_reverse_sorted (l : list A) :
  Forall (fun a => good (key a)) l ->
  StronglySorted (ranks_before key lt l) (sorted_reverse key lt l).
Proof.
  intros G. unfold sorted_reverse.
  apply (StronglySorted_impl (fun a b => asc (rev l) b a)).
  - intros a b _ _ [H|[[H1 H2] Hb]]; [left; exact H|].
    right. split; [split; assumption | apply before_rev; exact Hb].
  - apply StronglySorted_rev. apply sort_asc_sorted.
    apply Forall_forall. intros a Ha. rewrite Forall_forall in G. apply G.
    apply in_rev. exact Ha.
Qed.

End SortFacts.

(** ** The order of the floats *)

Lemma SFcompare_antisym (a b : spec_float) (c : comparison) :
  SFcompare a b = Some c -> SFcompare b a = Some (CompOpp c).
Proof.
  destruct a as [sa|sa| |sa ma ea], b as [sb|sb| |sb mb eb]; simpl;
    try discriminate;
    try (destruct sa); try (destruct sb); simpl;
    intros H; inversion H; clear H; try reflexivity.
  all: rewrite (Z.compare_antisym ea eb);
    destruct (ea ?= eb)%Z; simpl; try reflexivity;
    change (Pos.compare_cont Eq mb ma) with (Pos.compare mb ma);
    change (Pos.compare_cont Eq ma mb) with (Pos.compare ma mb);
    rewrite (Pos.compare_antisym ma mb); destruct (ma ?= mb)%positive; reflexivity.
Qed.

Lemma SFcompare_trans (a b c : spec_float) (x y : comparison) :
  SFcompare a b = Some x -> SFcompare b c = Some y ->
  not_gt x = true -> not_gt y = true ->
  exists z, SFcompare a c = Some z /\ not_gt z = true /\ (z = Eq -> x = Eq /\ y = Eq).
Proof.
  destruct a as [sa|sa| |sa ma ea], b as [sb|sb| |sb mb eb], c as [sc|sc| |sc mc ec];
    simpl; try discriminate;
    try (destruct sa); try (destruct sb); try (destruct sc); simpl;
    intros H1 H2; inversion H1; inversion H2; subst; clear H1 H2; simpl;
    try discriminate; intros Hx Hy;
    try (eexists; split; [reflexivity|]; split;
         [reflexivity | intros; try discriminate; auto]; fail).
  all: change (Pos.compare_cont Eq ?p ?q) with (Pos.compare p q) in *.
  all: destruct (Z.compare_spec ea eb), (Z.compare_spec eb ec), (Z.compare_spec ea ec);
    try lia; simpl in *; try discriminate.
  all: try (eexists; split; [reflexivity|]; split;
            [reflexivity | intros; try discriminate; auto]; fail).
  all: destruct (Pos.compare_spec ma mb), (Pos.compare_spec mb mc),
    (Pos.compare_spec ma mc); try lia; simpl in *; try discriminate.
  all: try (eexists; split; [reflexivity|]; split;
            [reflexivity | intros; try discriminate; auto]; fail).
Qed.

Lemma not_nan_compare (a b : float) :
  is_nan a = false -> is_nan b = false ->
  exists c, SFcompare (Prim2SF a) (Prim2SF b) = Some c.
Proof.
  unfold is_nan. rewrite !eqb_spec. unfold SFeqb. intros Ha Hb.
  destruct (Prim2SF a) as [sa|sa| |sa ma ea], (Prim2SF b) as [sb|sb| |sb mb eb];
    simpl in *; try discriminate; eexists; reflexivity.
Qed.

(** [a < b] and [b < a] do not both hold. *)
Lemma float_lt_asym (a b : float) :
  PrimFloat.ltb a b = true -> PrimFloat.ltb b a = false.
Proof.
  rewrite !ltb_spec. unfold SFltb.
  destruct (SFcompare (Prim2SF a) (Prim2SF b)) as [c|] eqn:E; [|discriminate].
  rewrite (SFcompare_antisym _ _ _ E). destruct c; simpl; congruence.
Qed.

(** Among floats that are not [nan], being not less is transitive. *)
Lemma float_lt_negtrans (a b c : float) :
  is_nan a = false -> is_nan b = false -> is_nan c = false ->
  PrimFloat.ltb a b = false -> PrimFloat.ltb b c = false -> PrimFloat.ltb a c = false.
Proof.
  intros Na Nb Nc. rewrite !ltb_spec. unfold SFltb.
  destruct (not_nan_compare c b Nc Nb) as [x Hx].
  destruct (not_nan_compare b a Nb Na) as [y Hy].
  rewrite (SFcompare_antisym _ _ _ Hx), (SFcompare_antisym _ _ _ Hy).
  intros H1 H2.
  destruct (SFcompare_trans _ _ _ x y Hx Hy) as [z [Hz [Hn _]]].
  - destruct x; simpl in *; congruence.
  - destruct y; simpl in *; congruence.
  - rewrite (SFcompare_antisym _ _ _ Hz). destruct z; simpl in *; congruence.
Qed.

(** [a <= b] excludes [b < a]. *)
Lemma float_le_not_lt (a b : float) :
  PrimFloat.leb a b = true -> PrimFloat.ltb b a = false.
Proof.
  rewrite leb_spec, ltb_spec. unfold SFleb, SFltb.
  destruct (SFcompare (Prim2SF a) (Prim2SF b)) as [c|] eqn:E; [|discriminate].
  rewrite (SFcompare_antisym _ _ _ E). destruct c; simpl; congruence.
Qed.

(** [a <= b] and [b < c] give [a < c]. *)
Lemma float_le_lt_trans (a b c : float) :
  PrimFloat.leb a b = true -> PrimFloat.ltb b c = true -> PrimFloat.ltb a c = true.
Proof.
  rewrite leb_spec, !ltb_spec. unfold SFleb, SFltb.
  destruct (SFcompare (Prim2SF a) (Prim2SF b)) as [x|] eqn:Ex; [|discriminate].
  destruct (SFcompare (Prim2SF b) (Prim2SF c)) as [y|] eqn:Ey; [|discriminate].
  intros H1 H2.
  destruct (SFcompare_trans _ _ _ x y Ex Ey) as [z [Hz [Hn He]]].
  - destruct x; simpl in *; congruence.
  - destruct y; simpl in *; congruence.
  - rewrite Hz. destruct z; simpl in *; try reflexivity; try discriminate.
    destruct (He eq_refl) as [_ Hy]. subst y. discriminate.
Qed.

(** [a < b] and [b <= c] give [a < c]. *)
Lemma float_lt_le_trans (a b c : float) :
  PrimFloat.ltb a b = true -> PrimFloat.leb b c = true -> PrimFloat.ltb a c = true.
Proof.
  rewrite leb_spec, !ltb_spec. unfold SFleb, SFltb.
  destruct (SFcompare (Prim2SF a) (Prim2SF b)) as [x|] eqn:Ex; [|discriminate].
  destruct (SFcompare (Prim2SF b) (Prim2SF c)) as [y|] eqn:Ey; [|discriminate].
  intros H1 H2.
  destruct (SFcompare_trans _ _ _ x y Ex Ey) as [z [Hz [Hn He]]].
  - destruct x; simpl in *; congruence.
  - destruct y; simpl in *; congruence.
  - rewrite Hz. destruct z; simpl in *; try reflexivity; try discriminate.
    destruct (He eq_refl) as [Hx _]. subst x. discriminate.
Qed.


(** *** Sums of non-negative floats *)

Lemma iter_pos_invariant {A : Type} (f : A -> A) (P : A -> Prop) :
  (forall x, P x -> P (f x)) -> forall p x, P x -> P (iter_pos f p x).
Proof.
  intros Hf. induction p as [p IH|p IH|]; intros x Hx; simpl.
  - apply IH, IH, Hf, Hx.
  - apply IH, IH, Hx.
  - apply Hf, Hx.
Qed.

Lemma shr_1_nonneg (mrs : shr_record) :
  (0 <= shr_m mrs)%Z -> (0 <= shr_m (shr_1 mrs))%Z.
Proof.
  destruct mrs as [m r s]. simpl. destruct m as [|[p|p|]|[p|p|]]; simpl; lia.
Qed.

Lemma shr_fexp_nonneg (m e : Z) (l : location) :
  (0 <= m)%Z -> (0 <= shr_m (fst (shr_fexp prec emax m e l)))%Z.
Proof.
  intros Hm. unfold shr_fexp, shr.
  assert (H0 : (0 <= shr_m (shr_record_of_loc m l))%Z).
  { destruct l as [|[]]; simpl; exact Hm. }
  destruct (fexp prec emax (Zdigits2 m + e) - e)%Z; simpl; try exact H0.
  apply (iter_pos_invariant shr_1 (fun r => (0 <= shr_m r)%Z) shr_1_nonneg). exact H0.
Qed.

Lemma round_nearest_even_nonneg (m : Z) (l : location) :
  (0 <= m)%Z -> (0 <= round_nearest_even m l)%Z.
Proof.
  intros Hm. destruct l as [|[]]; simpl; try lia. destruct (Z.even m); lia.
Qed.

Lemma binary_round_aux_nonneg (m e : Z) (l : location) :
  (0 <= m)%Z -> nonneg_sf (binary_round_aux prec emax false m e l) = true.
Proof.
  intros Hm. unfold binary_round_aux.
  pose proof (shr_fexp_nonneg m e l Hm) as H1.
  destruct (shr_fexp prec emax m e l) as [mrs' e']. simpl in H1.
  pose proof (shr_fexp_nonneg _ e' loc_Exact
                (round_nearest_even_nonneg (shr_m mrs') (loc_of_shr_record mrs') H1)) as H2.
  destruct (shr_fexp prec emax
              (round_nearest_even (shr_m mrs') (loc_of_shr_record mrs')) e' loc_Exact)
    as [mrs'' e'']. simpl in H2.
  destruct (shr_m mrs'') as [|p|p]; simpl.
  - reflexivity.
  - destruct (e'' <=? 971)%Z; reflexivity.
  - lia.
Qed.

Lemma binary_round_nonneg (m : positive) (e : Z) :
  nonneg_sf (binary_round prec emax false m e) = true.
Proof.
  unfold binary_round.
  destruct (shl_align m e (fexp prec emax (Z.pos (digits2_pos m) + e))) as [mz ez].
  apply binary_round_aux_nonneg. lia.
Qed.

Lemma SFadd_nonneg (x y : spec_float) :
  nonneg_sf x = true -> nonneg_sf y = true ->
  nonneg_sf (SFadd prec emax x y) = true.
Proof.
  destruct x as [sx|[]| |[] mx ex], y as [sy|[]| |[] my ey];
    try discriminate; try reflexivity; intros _ _.
  - destruct sx, sy; reflexivity.
  - unfold SFadd, cond_Zopp.
    destruct (shl_align mx ex (Z.min ex ey)) as [ma ea].
    destruct (shl_align my ey (Z.min ex ey)) as [mb eb].
    cbn [fst]. change (Z.pos ma + Z.pos mb)%Z with (Z.pos (ma + mb)).
    apply binary_round_nonneg.
Qed.

(** The sum of two non-negative floats is non-negative. *)
Lemma add_nonneg (x y : float) :
  nonneg x = true -> nonneg y = true -> nonneg (x + y) = true.
Proof. unfold nonneg. rewrite add_spec. apply SFadd_nonneg. Qed.

Lemma fsum_nonneg (l : list float) :
  Forall (fun x => nonneg x = true) l -> nonneg (fsum l) = true.
Proof.
  unfold fsum. assert (H0 : nonneg 0%float = true) by reflexivity.
  revert H0. generalize 0%float as acc.
  induction l as [|x l IH]; intros acc Hacc Hl; simpl; [exact Hacc|].
  inversion Hl; subst. apply IH; [apply add_nonneg; assumption | assumption].
Qed.

(** [0 <= x] says that [x] is non-negative. *)
Lemma leb_zero_nonneg (x : float) :
  PrimFloat.leb 0 x = true -> nonneg x = true.
Proof.
  rewrite leb_spec. unfold nonneg, SFleb.
  change (Prim2SF 0) with (S754_zero false).
  destruct (Prim2SF x) as [s|[]| |[] m e]; simpl; try reflexivity; discriminate.
Qed.

(** A non-negative float is not [nan]. *)
Lemma nonneg_not_nan (x : float) : nonneg x = true -> is_nan x = false.
Proof.
  unfold nonneg, is_nan. rewrite eqb_spec. unfold SFeqb.
  destruct (Prim2SF x) as [s|[]| |[] m e]; simpl; try discriminate; try reflexivity.
  intros _. rewrite Z.compare_refl.
  change (Pos.compare_cont Eq m m) with (Pos.compare m m).
  rewrite Pos.compare_refl. reflexivity.
Qed.

(** *** Division by one *)

Lemma shr_fexp_canonical (m : positive) (e : Z) :
  fexp prec emax (Z.pos (digits2_pos m) + e) = e ->
  shr_fexp prec emax (Z.pos m) e loc_Exact =
  ({| shr_m := Z.pos m; shr_r := false; shr_s := false |}, e).
Proof.
  intros H. unfold shr_fexp. cbn [Zdigits2]. rewrite H, Z.sub_diag. reflexivity.
Qed.

Lemma shr_fexp_double (m : positive) (e : Z) :
  fexp prec emax (Z.pos (digits2_pos m) + e) = e ->
  shr_fexp prec emax (Z.pos m~0) (e - 1) loc_Exact =
  ({| shr_m := Z.pos m; shr_r := false; shr_s := false |}, e).
Proof.
  intros H. unfold shr_fexp. cbn [Zdigits2 digits2_pos].
  replace (Z.pos (Pos.succ (digits2_pos m)) + (e - 1))%Z
    with (Z.pos (digits2_pos m) + e)%Z by lia.
  rewrite H. replace (e - (e - 1))%Z with 1%Z by lia.
  unfold shr. cbn [iter_pos shr_record_of_loc shr_1 orb]. f_equal. lia.
Qed.

Lemma binary_round_aux_canonical (s : bool) (m : positive) (e : Z) :
  bounded prec emax m e = true ->
  binary_round_aux prec emax s (Z.pos m) e loc_Exact = S754_finite s m e.
Proof.
  unfold bounded, canonical_mantissa. rewrite andb_true_iff, Z.eqb_eq.
  intros [Hc He]. unfold binary_round_aux.
  rewrite (shr_fexp_canonical m e Hc).
  cbn [shr_m loc_of_shr_record round_nearest_even].
  rewrite (shr_fexp_canonical m e Hc). cbn [shr_m]. rewrite He. reflexivity.
Qed.

Lemma binary_round_aux_double (s : bool) (m : positive) (e : Z) :
  bounded prec emax m e = true ->
  binary_round_aux prec emax s (Z.pos m~0) (e - 1) loc_Exact = S754_finite s m e.
Proof.
  unfold bounded, canonical_mantissa. rewrite andb_true_iff, Z.eqb_eq.
  intros [Hc He]. unfold binary_round_aux.
  rewrite (shr_fexp_double m e Hc).
  cbn [shr_m loc_of_shr_record round_nearest_even].
  rewrite (shr_fexp_canonical m e Hc). cbn [shr_m]. rewrite He. reflexivity.
Qed.

Lemma div_eucl_exact (q b : Z) : (0 < b)%Z -> Z.div_eucl (q * b) b = (q, 0%Z).
Proof.
  intros Hb. pose proof (Z.div_eucl_eq (q * b) b) as H.
  pose proof (Z.mod_pos_bound (q * b) b Hb) as Hr. unfold Z.modulo in Hr.
  destruct (Z.div_eucl (q * b) b) as [q' r].
  assert (Heq : (q * b = b * q' + r)%Z) by (apply H; lia).
  assert (q' = q) by nia. assert (r = 0%Z) by nia. subst. reflexivity.
Qed.

(** The quotient of a float by 1, of mantissa [2 ^ 52] and exponent [-52]:
    it is exact and rounds to the float itself. *)
Lemma SFdiv_one (s : bool) (m : positive) (e : Z) :
  bounded prec emax m e = true ->
  SFdiv prec emax (S754_finite s m e) (S754_finite false 4503599627370496 (-52)) =
  S754_finite s m e.
Proof.
  intros Hb. assert (Hb' := Hb). revert Hb'.
  unfold bounded, canonical_mantissa. rewrite andb_true_iff, Z.eqb_eq, Z.leb_le.
  unfold fexp, SpecFloat.emin, emax, prec. intros [Hc He].
  unfold SFdiv, SFdiv_core_binary.
  change (Zdigits2 4503599627370496) with 53%Z.
  change (Zdigits2 (Z.pos m)) with (Z.pos (digits2_pos m)).
  unfold fexp, SpecFloat.emin, emax, prec.
  set (d := Z.pos (digits2_pos m)) in *.
  set (e0 := Z.min (Z.max (d + e - (53 + -52) - 53) (3 - 1024 - 53)) (e - -52)).
  assert (He0 : (e0 = e - 1 \/ e0 = e)%Z) by (unfold e0; lia).
  replace (xorb s false) with s by (destruct s; reflexivity).
  destruct He0 as [He0|He0]; rewrite He0.
  - replace (e - -52 - (e - 1))%Z with 53%Z by lia.
    rewrite Z.shiftl_mul_pow2 by lia.
    change (2 ^ 53)%Z with (2 * 4503599627370496)%Z.
    replace (Z.pos m * (2 * 4503599627370496))%Z
      with (Z.pos m~0 * 4503599627370496)%Z by lia.
    rewrite div_eucl_exact by lia.
    change (new_location 4503599627370496 0) with loc_Exact.
    apply binary_round_aux_double. exact Hb.
  - replace (e - -52 - e)%Z with 52%Z by lia.
    rewrite Z.shiftl_mul_pow2 by lia.
    change (2 ^ 52)%Z with 4503599627370496%Z.
    rewrite div_eucl_exact by lia.
    change (new_location 4503599627370496 0) with loc_Exact.
    apply binary_round_aux_canonical. exact Hb.
Qed.

(** Dividing by 1 returns the float. *)
Lemma div_one (x : float) : (x / 1)%float = x.
Proof.
  apply Prim2SF_inj. rewrite div_spec. unfold SF64div.
  pose proof (Prim2SF_valid x) as Hv.
  change (Prim2SF 1) with (S754_finite false 4503599627370496 (-52)).
  destruct (Prim2SF x) as [s|s| |s m e]; simpl in Hv.
  - destruct s; reflexivity.
  - destruct s; reflexivity.
  - reflexivity.
  - apply SFdiv_one. exact Hv.
Qed.

(** ** plot_families.py: ingestion *)

Module FamiliesFacts.
Import PlotFamilies.

Section Facts.
Context {B : Builtins}.

Lemma alter_present (f : family_rec -> family_rec) (k : string) (d : families_t) :
  dict_in k d = true -> alter f k d = (Ok tt, dict_update f k d).
Proof.
  intros H. unfold alter. rewrite (dict_alter_update f k d H). reflexivity.
Qed.

(** The four appends of lines 50 to 53 on an entry that exists. *)
Lemma appends_present (r : record) (d : families_t) :
  dict_in (rec_family r) d = true ->
  (alter (append_month (rec_month r)) (rec_family r) ;;;
   alter (append_count (rec_count r)) (rec_family r) ;;;
   alter (append_sum_btc (rec_sum_btc r)) (rec_family r) ;;;
   alter (append_sum_usd (rec_sum_usd r)) (rec_family r)) d =
  (Ok tt,
   dict_update (fun v => append_sum_usd (rec_sum_usd r)
                           (append_sum_btc (rec_sum_btc r)
                              (append_count (rec_count r)
                                 (append_month (rec_month r) v))))
               (rec_family r) d).
Proof.
  intros H. unfold bind.
  rewrite alter_present by exact H.
  rewrite alter_present by (rewrite dict_in_update; exact H).
  rewrite alter_present by (rewrite !dict_in_update; exact H).
  rewrite alter_present by (rewrite !dict_in_update; exact H).
  rewrite !dict_update_twice. reflexivity.
Qed.

(** The loop body parses the line and then stores the record. *)
Lemma body_read_row (line : string) (d : families_t) :
  body line d =
  match read_row line with
  | Raise e => (Raise e, d)
  | Ok None => (Ok tt, d)
  | Ok (Some r) => (Ok tt, store r d)
  end.
Proof.
  unfold body, read_row.
  set (parts := split file_separator line).
  unfold bind at 1, lift at 1.
  destruct (getitem parts 0) as [family|e]; simpl; [|reflexivity].
  unfold bind at 1, lift at 1.
  destruct (getitem parts 1) as [p1|e]; simpl; [|reflexivity].
  destruct (String.eqb p1 "Total"); [reflexivity|].
  unfold bind at 1, lift at 1.
  destruct (parse (strptime p1)) as [m|e]; simpl; [|reflexivity].
  unfold bind at 1, lift at 1.
  destruct (getitem parts 2) as [p2|e]; simpl; [|reflexivity].
  unfold bind at 1, lift at 1.
  destruct (parse (py_int p2)) as [c|e]; simpl; [|reflexivity].
  unfold bind at 1, lift at 1.
  destruct (getitem parts 3) as [p3|e]; simpl; [|reflexivity].
  unfold bind at 1, lift at 1.
  destruct (parse (py_float p3)) as [btc|e]; simpl; [|reflexivity].
  unfold bind at 1, lift at 1.
  destruct (getitem parts 4) as [p4|e]; simpl; [|reflexivity].
  unfold bind at 1, lift at 1.
  destruct (parse (py_float p4)) as [usd|e]; simpl; [|reflexivity].
  unfold bind at 1, gets at 1.
  unfold store, upsert, append_record. simpl.
  destruct (dict_in family d) eqn:E.
  - unfold bind at 1, ret at 1.
    apply (appends_present (mk_record family m c btc usd) d E).
  - unfold bind at 1, modify at 1, dict_add.
    assert (E' : dict_in family (d ++ [(family, new_family)]) = true).
    { rewrite dict_in_app. unfold dict_in at 2. simpl.
      rewrite String.eqb_refl. apply orb_true_r. }
    etransitivity; [exact (appends_present (mk_record family m c btc usd) _ E')|].
    simpl. rewrite (dict_update_new _ family new_family d E). reflexivity.
Qed.

(** The loop on rows that all parse: the records, stored in file order. *)
Lemma for_each_body_ok (rows : list string) (d : families_t) :
  forallb row_ok rows = true ->
  for_each body rows d =
  (Ok tt, fold_left (fun acc r => store r acc)
            (flat_map (fun l => match read_row l with
                                | Ok (Some r) => [r]
                                | _ => []
                                end) rows) d).
Proof.
  revert d. induction rows as [|l rows IH]; intros d H; simpl in *.
  - reflexivity.
  - apply andb_prop in H. destruct H as [Hl Hrows].
    unfold bind. rewrite body_read_row. unfold row_ok in Hl.
    destruct (read_row l) as [[r|]|e]; try discriminate; simpl; apply IH; exact Hrows.
Qed.

(** A loop that ends without an exception has read rows that all parse. *)
Lemma for_each_body_rows_ok (rows : list string) (d d' : families_t) :
  for_each body rows d = (Ok tt, d') -> forallb row_ok rows = true.
Proof.
  revert d. induction rows as [|l rows IH]; intros d H; simpl in *; [reflexivity|].
  unfold bind in H. rewrite body_read_row in H. unfold row_ok.
  destruct (read_row l) as [[r|]|e]; simpl; try discriminate; eapply IH; exact H.
Qed.

Lemma read_row_record (l : string) (r : record) :
  read_row l = Ok (Some r) ->
  rec_family r = field 0 l /\ String.eqb (field 1 l) "Total" = false.
Proof.
  unfold read_row. rewrite getitem_first. simpl.
  destruct (getitem (split file_separator l) 1) as [p1|e] eqn:E1; simpl; [|discriminate].
  rewrite (getitem_field 1 l p1 E1).
  destruct (String.eqb p1 "Total"); [discriminate|].
  destruct (parse (strptime p1)); simpl; [|discriminate].
  destruct (getitem (split file_separator l) 2); simpl; [|discriminate].
  destruct (parse (py_int a0)); simpl; [|discriminate].
  destruct (getitem (split file_separator l) 3); simpl; [|discriminate].
  destruct (parse (py_float a2)); simpl; [|discriminate].
  destruct (getitem (split file_separator l) 4); simpl; [|discriminate].
  destruct (parse (py_float a4)); simpl; [|discriminate].
  intros H. inversion H; subst. simpl. split; reflexivity.
Qed.

Lemma read_row_skipped (l : string) :
  read_row l = Ok None -> String.eqb (field 1 l) "Total" = true.
Proof.
  unfold read_row. rewrite getitem_first. simpl.
  destruct (getitem (split file_separator l) 1) as [p1|e] eqn:E1; simpl; [|discriminate].
  rewrite (getitem_field 1 l p1 E1).
  destruct (String.eqb p1 "Total"); [reflexivity|].
  destruct (parse (strptime p1)); simpl; [|discriminate].
  destruct (getitem (split file_separator l) 2); simpl; [|discriminate].
  destruct (parse (py_int a0)); simpl; [|discriminate].
  destruct (getitem (split file_separator l) 3); simpl; [|discriminate].
  destruct (parse (py_float a2)); simpl; [|discriminate].
  destruct (getitem (split file_separator l) 4); simpl; [|discriminate].
  destruct (parse (py_float a4)); simpl; discriminate.
Qed.

(** On a well-formed file the families of the records are the labels of
    the rows that are not rows of totals. *)
Lemma records_labels (lines : list string) :
  well_formed lines = true -> map rec_family (records lines) = labels lines.
Proof.
  unfold well_formed, records, labels. generalize (skipn 1 lines) as rows.
  induction rows as [|l rows IH]; simpl; [reflexivity|].
  intros H. apply andb_prop in H. destruct H as [Hl Hrows]. unfold row_ok in Hl.
  destruct (read_row l) as [[r|]|e] eqn:E; try discriminate.
  - destruct (read_row_record l r E) as [Hf Ht]. rewrite Ht. simpl.
    rewrite Hf, (IH Hrows). reflexivity.
  - rewrite (read_row_skipped l E). simpl. apply IH. exact Hrows.
Qed.

(** The entry of a family after its records [rs] were appended to [v]. *)
Lemma fold_append_record (rs : list record) (v : family_rec) :
  fold_left (fun v r => append_record r v) rs v =
  mk_family (month v ++ map rec_month rs) (count v ++ map rec_count rs)
            (sum_btc v ++ map rec_sum_btc rs) (sum_usd v ++ map rec_sum_usd rs).
Proof.
  revert v. induction rs as [|r rs IH]; intros v; simpl.
  - rewrite !app_nil_r. destruct v; reflexivity.
  - rewrite IH. simpl. rewrite <- !app_assoc. reflexivity.
Qed.

(** Ingestion of a well-formed file groups its records by family. *)
Lemma ingest_group (lines : list string) :
  well_formed lines = true ->
  ingest lines = (Ok tt, group rec_family append_record new_family (records lines) []).
Proof.
  intros H. unfold ingest. rewrite (for_each_body_ok _ _ H). reflexivity.
Qed.

Lemma ingest_well_formed (lines : list string) (fams : families_t) :
  ingest lines = (Ok tt, fams) -> well_formed lines = true.
Proof. unfold ingest, well_formed. apply for_each_body_rows_ok. Qed.

(** The keys after ingestion: the families of the records in the order of
    their first rows. *)
Lemma ingest_keys (lines : list string) (fams : families_t) :
  ingest lines = (Ok tt, fams) ->
  keys fams = first_seen (map rec_family (records lines)).
Proof.
  intros H. pose proof (ingest_well_formed lines fams H) as Hwf.
  rewrite (ingest_group lines Hwf) in H. inversion H; subst fams.
  rewrite keys_group. simpl.
  clear. induction (first_seen (map rec_family (records lines))) as [|x l IH];
    simpl; [reflexivity|]. f_equal. exact IH.
Qed.

(** The entry of a family after ingestion: one item per record of the
    family, in file order. *)
Lemma ingest_entry (lines : list string) (fams : families_t) (k : string)
  (v : family_rec) :
  ingest lines = (Ok tt, fams) -> In (k, v) fams ->
  v = mk_family (map rec_month (rows_of k lines)) (map rec_count (rows_of k lines))
                (map rec_sum_btc (rows_of k lines)) (map rec_sum_usd (rows_of k lines)).
Proof.
  intros H Hin. pose proof (ingest_keys lines fams H) as Hk.
  assert (Hnd : NoDup (keys fams)) by (rewrite Hk; apply first_seen_NoDup).
  pose proof (dict_get_In k v fams Hnd Hin) as Hg.
  pose proof (ingest_well_formed lines fams H) as Hwf.
  rewrite (ingest_group lines Hwf) in H. inversion H as [Hf]. clear H.
  assert (Hv : get_or new_family k fams = v) by (unfold get_or; rewrite Hg; reflexivity).
  rewrite <- Hv, <- Hf. rewrite get_or_group. unfold get_or. simpl.
  rewrite fold_append_record. reflexivity.
Qed.

(** A row with a rejected month, count or sum raises [ValueError]: the
    fields before the first rejected one exist and parse. *)
Lemma malformed_raises (line : string) :
  malformed line -> read_row line = Raise ValueError.
Proof.
  intros [[p1 [Hp1 Hnt]] [i [p [Hi [Hp Hrej]]]]].
  assert (Hget : forall j, (j <= i)%nat ->
                           exists q, getitem (split file_separator line) j = Ok q).
  { intros j Hj. apply (getitem_before _ i j p Hp Hj). }
  unfold read_row. rewrite getitem_first. simpl. rewrite Hp1. simpl. rewrite Hnt.
  destruct i as [|[|[|[|[|i]]]]]; try lia; simpl in Hrej.
  - rewrite Hp1 in Hp. inversion Hp; subst p.
    destruct (strptime p1); [discriminate|]. reflexivity.
  - destruct (strptime p1); [|reflexivity]. simpl.
    rewrite Hp. simpl. destruct (py_int p); [discriminate|]. reflexivity.
  - destruct (strptime p1); [|reflexivity]. simpl.
    destruct (Hget 2%nat) as [q2 G2]; [lia|]. rewrite G2. simpl.
    destruct (py_int q2); [|reflexivity]. simpl.
    rewrite Hp. simpl. destruct (py_float p); [discriminate|]. reflexivity.
  - destruct (strptime p1); [|reflexivity]. simpl.
    destruct (Hget 2%nat) as [q2 G2]; [lia|]. rewrite G2. simpl.
    destruct (py_int q2); [|reflexivity]. simpl.
    destruct (Hget 3%nat) as [q3 G3]; [lia|]. rewrite G3. simpl.
    destruct (py_float q3); [|reflexivity]. simpl.
    rewrite Hp. simpl. destruct (py_float p); [discriminate|]. reflexivity.
Qed.

(** A row of totals leaves [families] as it is. *)
Lemma body_total (line : string) (d : families_t) :
  getitem (split file_separator line) 1 = Ok "Total" -> body line d = (Ok tt, d).
Proof.
  intros H. rewrite body_read_row. unfold read_row.
  rewrite getitem_first. simpl. rewrite H. reflexivity.
Qed.

(** *** Bucketing *)

Lemma bucket_eqb_eq (c1 c2 : bucket) : bucket_eqb c1 c2 = true <-> c1 = c2.
Proof. destruct c1, c2; simpl; split; intros H; try reflexivity; discriminate. Qed.

(** One iteration of the loop of lines 60 to 67. *)
Lemma bucket_body_spec (fams : families_t) (k : string) (m : float) (b : buckets) :
  max_usd fams k = Some m ->
  bucket_body fams k b =
  (Ok tt, mk_buckets (small b ++ keys_in fams Small [k])
                     (medium b ++ keys_in fams Medium [k])
                     (large b ++ keys_in fams Large [k])).
Proof.
  intros Hm. unfold keys_in. simpl. rewrite Hm.
  unfold max_usd in Hm. unfold bucket_body, bind, lift, modify.
  destruct (dict_get k fams) as [r|e]; [|discriminate].
  destruct (py_max (sum_usd r)) as [m'|e]; [|discriminate].
  inversion Hm; subst m'. unfold classify.
  destruct (PrimFloat.ltb m SMALL_THRESHOLD); simpl.
  - rewrite !app_nil_r. reflexivity.
  - destruct (PrimFloat.ltb m MEDIUM_THRESHOLD); simpl; rewrite !app_nil_r; reflexivity.
Qed.

Lemma keys_in_app (fams : families_t) (c : bucket) (ks1 ks2 : list string) :
  keys_in fams c (ks1 ++ ks2) = keys_in fams c ks1 ++ keys_in fams c ks2.
Proof. unfold keys_in. apply filter_app. Qed.

Lemma bucket_loop_spec (fams : families_t) (ks : list string) (b : buckets) :
  (forall k, In k ks -> exists m, max_usd fams k = Some m) ->
  for_each (bucket_body fams) ks b =
  (Ok tt, mk_buckets (small b ++ keys_in fams Small ks)
                     (medium b ++ keys_in fams Medium ks)
                     (large b ++ keys_in fams Large ks)).
Proof.
  revert b. induction ks as [|k ks IH]; intros b Hks.
  - simpl. unfold keys_in. simpl. rewrite !app_nil_r. destruct b; reflexivity.
  - simpl for_each. unfold bind.
    destruct (Hks k (or_introl eq_refl)) as [m Hm].
    rewrite (bucket_body_spec fams k m b Hm).
    rewrite IH by (intros k' Hk'; apply Hks; right; exact Hk').
    cbn [small medium large]. rewrite <- !app_assoc, <- !keys_in_app. reflexivity.
Qed.

(** The three selections of a list of keys that have a maximum are a
    rearrangement of the list. *)
Lemma keys_in_partition (fams : families_t) (ks : list string) :
  (forall k, In k ks -> exists m, max_usd fams k = Some m) ->
  Permutation (keys_in fams Small ks ++ keys_in fams Medium ks ++ keys_in fams Large ks) ks.
Proof.
  induction ks as [|k ks IH]; intros Hks; [reflexivity|].
  assert (IH' := IH (fun k' Hk' => Hks k' (or_intror Hk'))). clear IH.
  destruct (Hks k (or_introl eq_refl)) as [m Hm].
  unfold keys_in in *. simpl. rewrite Hm.
  destruct (classify m); simpl.
  - apply perm_skip. exact IH'.
  - symmetry. apply Permutation_cons_app. symmetry. exact IH'.
  - symmetry. rewrite app_assoc. apply Permutation_cons_app.
    rewrite <- app_assoc. symmetry. exact IH'.
Qed.

Lemma keys_in_In (fams : families_t) (c : bucket) (ks : list string) (k : string)
  (m : float) :
  max_usd fams k = Some m ->
  (In k (keys_in fams c ks) <-> In k ks /\ classify m = c).
Proof.
  intros Hm. unfold keys_in. rewrite filter_In, Hm, bucket_eqb_eq. tauto.
Qed.

(** After ingestion every family has a row, hence a maximum. *)
Lemma ingest_max_usd (lines : list string) (fams : families_t) (k : string) :
  ingest lines = (Ok tt, fams) -> In k (keys fams) ->
  exists m, max_usd fams k = Some m.
Proof.
  intros H Hk. pose proof (ingest_keys lines fams H) as Hkeys.
  assert (Hnd : NoDup (keys fams)) by (rewrite Hkeys; apply first_seen_NoDup).
  unfold keys in Hk. apply in_map_iff in Hk. destruct Hk as [[k' v] [Hfst Hin]].
  simpl in Hfst. subst k'.
  unfold max_usd. rewrite (dict_get_In k v fams Hnd Hin).
  rewrite (ingest_entry lines fams k v H Hin). simpl.
  assert (Hrow : In k (map rec_family (records lines))).
  { apply first_seen_In. rewrite <- Hkeys. change k with (fst (k, v)).
    apply in_map. exact Hin. }
  apply in_map_iff in Hrow. destruct Hrow as [r [Hr Hrin]].
  assert (Hne : In r (rows_of k lines)).
  { unfold rows_of. apply filter_In. split; [exact Hrin|]. apply String.eqb_eq. exact Hr. }
  destruct (rows_of k lines) as [|r0 rs]; [contradiction|]. simpl.
  eexists. reflexivity.
Qed.

(** The branch taken is the bucket the thresholds name. *)
Lemma classify_thresholds (m : float) :
  (PrimFloat.ltb m SMALL_THRESHOLD = true -> classify m = Small) /\
  (PrimFloat.leb SMALL_THRESHOLD m = true -> PrimFloat.ltb m MEDIUM_THRESHOLD = true ->
   classify m = Medium) /\
  (PrimFloat.leb MEDIUM_THRESHOLD m = true -> classify m = Large).
Proof.
  unfold classify. repeat split.
  - intros H. rewrite H. reflexivity.
  - intros H1 H2. rewrite (float_le_not_lt _ _ H1), H2. reflexivity.
  - intros H. rewrite (float_le_not_lt _ _ H).
    destruct (PrimFloat.ltb m SMALL_THRESHOLD) eqn:E; [|reflexivity].
    assert (Hc : PrimFloat.ltb m MEDIUM_THRESHOLD = true).
    { apply (float_lt_le_trans m SMALL_THRESHOLD MEDIUM_THRESHOLD E). reflexivity. }
    rewrite (float_le_not_lt _ _ H) in Hc. discriminate.
Qed.

(** A larger maximum never falls in a smaller bucket. *)
Lemma classify_monotone (m1 m2 : float) :
  PrimFloat.leb m1 m2 = true ->
  (bucket_rank (classify m1) <= bucket_rank (classify m2))%nat.
Proof.
  intros H. unfold classify.
  destruct (PrimFloat.ltb m2 SMALL_THRESHOLD) eqn:E2.
  - rewrite (float_le_lt_trans m1 m2 _ H E2). simpl. lia.
  - destruct (PrimFloat.ltb m2 MEDIUM_THRESHOLD) eqn:E2'.
    + pose proof (float_le_lt_trans m1 m2 _ H E2') as H1.
      destruct (PrimFloat.ltb m1 SMALL_THRESHOLD); [simpl; lia|].
      rewrite H1. simpl. lia.
    + destruct (PrimFloat.ltb m1 SMALL_THRESHOLD); [simpl; lia|].
      destruct (PrimFloat.ltb m1 MEDIUM_THRESHOLD); simpl; lia.
Qed.

End Facts.
End FamiliesFacts.

(** ** plot_top_families.py: ingestion *)

Module TopFacts.
Import PlotTopFamilies.

Section Facts.
Context {B : Builtins}.

Lemma alter_present_top (f : family_rec -> family_rec) (k : string) (s : state) :
  dict_in k (families s) = true ->
  alter f k s = (Ok tt, set_families (dict_update f k (families s)) s).
Proof.
  intros H. unfold alter. rewrite (dict_alter_update f k (families s) H). reflexivity.
Qed.

(** Lines 65 to 71 on an entry that exists. *)
Lemma updates_present (r : record) (s : state) :
  dict_in (rec_family r) (families s) = true ->
  (alter (append_month (rec_month r)) (rec_family r) ;;;
   alter (append_count (rec_count r)) (rec_family r) ;;;
   alter (append_sum_btc (rec_sum_btc r)) (rec_family r) ;;;
   alter (append_sum_usd (rec_sum_usd r / usd_factor)) (rec_family r) ;;;
   alter (add_total_count (rec_count r)) (rec_family r) ;;;
   alter (add_total_sum_btc (rec_sum_btc r)) (rec_family r) ;;;
   alter (add_total_sum_usd (rec_sum_usd r)) (rec_family r)) s =
  (Ok tt,
   set_families
     (dict_update
        (fun v => add_total_sum_usd (rec_sum_usd r)
                    (add_total_sum_btc (rec_sum_btc r)
                       (add_total_count (rec_count r)
                          (append_sum_usd (rec_sum_usd r / usd_factor)
                             (append_sum_btc (rec_sum_btc r)
                                (append_count (rec_count r)
                                   (append_month (rec_month r) v)))))))
        (rec_family r) (families s)) s).
Proof.
  intros H. unfold bind.
  rewrite alter_present_top by exact H.
  do 6 (rewrite alter_present_top by (simpl; rewrite !dict_in_update; exact H)).
  simpl. rewrite !dict_update_twice. destruct s; reflexivity.
Qed.

(** The loop body parses the line, moves the two months and stores the
    record; when it raises, [families] is as before. *)
Lemma body_read_row_top (line : string) (s : state) :
  exists s',
    body line s = (match read_row line with
                   | Raise e => Raise e
                   | Ok _ => Ok tt
                   end, s') /\
    match read_row line with
    | Raise _ => families s' = families s
    | Ok None => s' = s
    | Ok (Some r) => s' = store_state r s
    end.
Proof.
  unfold body, read_row.
  set (parts := split file_separator line).
  unfold bind at 1, lift at 1.
  destruct (getitem parts 0) as [family|e]; simpl;
    [|eexists; split; reflexivity].
  destruct (String.eqb family "BlackCat");
    [eexists; split; reflexivity|].
  unfold bind at 1, lift at 1.
  destruct (getitem parts 1) as [p1|e]; simpl;
    [|eexists; split; reflexivity].
  destruct (String.eqb p1 "Total");
    [eexists; split; reflexivity|].
  unfold bind at 1, lift at 1.
  destruct (parse (strptime p1)) as [m|e]; simpl;
    [|eexists; split; reflexivity].
  unfold bind at 1, modify at 1. unfold bind at 1, modify at 1.
  unfold bind at 1, lift at 1.
  destruct (getitem parts 2) as [p2|e]; simpl;
    [|eexists; split; reflexivity].
  unfold bind at 1, lift at 1.
  destruct (parse (py_int p2)) as [c|e]; simpl;
    [|eexists; split; reflexivity].
  unfold bind at 1, lift at 1.
  destruct (getitem parts 3) as [p3|e]; simpl;
    [|eexists; split; reflexivity].
  unfold bind at 1, lift at 1.
  destruct (parse (py_float p3)) as [btc|e]; simpl;
    [|eexists; split; reflexivity].
  unfold bind at 1, lift at 1.
  destruct (getitem parts 4) as [p4|e]; simpl;
    [|eexists; split; reflexivity].
  unfold bind at 1, lift at 1.
  destruct (parse (py_float p4)) as [usd|e]; simpl;
    [|eexists; split; reflexivity].
  unfold bind at 1, gets at 1. simpl.
  unfold store_state, store, upsert, add_record. simpl.
  destruct (dict_in family (families s)) eqn:E.
  - unfold bind at 1, ret at 1.
    eexists; split; [|reflexivity].
    etransitivity;
      [exact (updates_present (mk_record family m c btc usd)
                (mk_state (families s) (dt_min (min_month s) m) (dt_max (max_month s) m)) E)|].
    reflexivity.
  - unfold bind at 1, modify at 1, dict_add, set_families. simpl.
    assert (E' : dict_in family (families s ++ [(family, new_family)]) = true).
    { rewrite dict_in_app. unfold dict_in at 2. simpl.
      rewrite String.eqb_refl. apply orb_true_r. }
    eexists; split; [|reflexivity].
    etransitivity;
      [exact (updates_present (mk_record family m c btc usd)
                (mk_state (families s ++ [(family, new_family)])
                          (dt_min (min_month s) m) (dt_max (max_month s) m)) E')|].
    simpl. unfold set_families. simpl.
    rewrite (dict_update_new _ family new_family (families s) E). reflexivity.
Qed.

(** The loop on rows that all parse: the records, stored in file order. *)
Lemma for_each_body_ok_top (rows : list string) (s : state) :
  forallb row_ok rows = true ->
  for_each body rows s =
  (Ok tt, fold_left (fun acc r => store_state r acc)
            (flat_map (fun l => match read_row l with
                                | Ok (Some r) => [r]
                                | _ => []
                                end) rows) s).
Proof.
  revert s. induction rows as [|l rows IH]; intros s H; simpl in *.
  - reflexivity.
  - apply andb_prop in H. destruct H as [Hl Hrows].
    unfold bind. destruct (body_read_row_top l s) as [s' [Hb Hs]].
    unfold row_ok in Hl. rewrite Hb.
    destruct (read_row l) as [[r|]|e]; try discriminate; subst s'; simpl;
      apply IH; exact Hrows.
Qed.

(** A loop that ends without an exception has read rows that all parse. *)
Lemma for_each_body_rows_ok_top (rows : list string) (s s' : state) :
  for_each body rows s = (Ok tt, s') -> forallb row_ok rows = true.
Proof.
  revert s. induction rows as [|l rows IH]; intros s H; simpl in *; [reflexivity|].
  unfold bind in H. destruct (body_read_row_top l s) as [s1 [Hb _]].
  rewrite Hb in H. unfold row_ok.
  destruct (read_row l) as [[r|]|e]; simpl; try discriminate; eapply IH; exact H.
Qed.

Lemma read_row_record_top (l : string) (r : record) :
  read_row l = Ok (Some r) ->
  rec_family r = field 0 l /\ String.eqb (field 0 l) "BlackCat" = false /\
  String.eqb (field 1 l) "Total" = false.
Proof.
  unfold read_row. rewrite getitem_first. simpl.
  destruct (String.eqb (field 0 l) "BlackCat"); [discriminate|].
  destruct (getitem (split file_separator l) 1) as [p1|e] eqn:E1; simpl; [|discriminate].
  rewrite (getitem_field 1 l p1 E1).
  destruct (String.eqb p1 "Total"); [discriminate|].
  destruct (parse (strptime p1)); simpl; [|discriminate].
  destruct (getitem (split file_separator l) 2); simpl; [|discriminate].
  destruct (parse (py_int a0)); simpl; [|discriminate].
  destruct (getitem (split file_separator l) 3); simpl; [|discriminate].
  destruct (parse (py_float a2)); simpl; [|discriminate].
  destruct (getitem (split file_separator l) 4); simpl; [|discriminate].
  destruct (parse (py_float a4)); simpl; [|discriminate].
  intros H. inversion H; subst. simpl. repeat split; reflexivity.
Qed.

Lemma read_row_skipped_top (l : string) :
  read_row l = Ok None ->
  String.eqb (field 0 l) "BlackCat" || String.eqb (field 1 l) "Total" = true.
Proof.
  unfold read_row. rewrite getitem_first. simpl.
  destruct (String.eqb (field 0 l) "BlackCat"); [reflexivity|].
  destruct (getitem (split file_separator l) 1) as [p1|e] eqn:E1; simpl; [|discriminate].
  rewrite (getitem_field 1 l p1 E1).
  destruct (String.eqb p1 "Total"); [reflexivity|].
  destruct (parse (strptime p1)); simpl; [|discriminate].
  destruct (getitem (split file_separator l) 2); simpl; [|discriminate].
  destruct (parse (py_int a0)); simpl; [|discriminate].
  destruct (getitem (split file_separator l) 3); simpl; [|discriminate].
  destruct (parse (py_float a2)); simpl; [|discriminate].
  destruct (getitem (split file_separator l) 4); simpl; [|discriminate].
  destruct (parse (py_float a4)); simpl; discriminate.
Qed.

(** On a well-formed file the families of the records are the labels,
    other than the excluded one, of the rows that are not rows of totals. *)
Lemma records_labels_top (lines : list string) :
  well_formed lines = true ->
  map rec_family (records lines) =
  filter (fun k => negb (String.eqb k "BlackCat")) (labels lines).
Proof.
  unfold well_formed, records, labels. generalize (skipn 1 lines) as rows.
  induction rows as [|l rows IH]; simpl; [reflexivity|].
  intros H. apply andb_prop in H. destruct H as [Hl Hrows]. unfold row_ok in Hl.
  destruct (read_row l) as [[r|]|e] eqn:E; try discriminate.
  - destruct (read_row_record_top l r E) as [Hf [Hb Ht]]. rewrite Ht. simpl.
    rewrite Hb. simpl. rewrite Hf, (IH Hrows). reflexivity.
  - pose proof (read_row_skipped_top l E) as Hs. simpl.
    destruct (String.eqb (field 1 l) "Total"); simpl; [apply IH; exact Hrows|].
    rewrite orb_false_r in Hs. rewrite Hs. simpl. apply IH. exact Hrows.
Qed.

(** The entry of a family after its records [rs] were added to [v]. *)
Lemma fold_add_record (rs : list record) (v : family_rec) :
  fold_left (fun v r => add_record r v) rs v =
  mk_family (month v ++ map rec_month rs) (count v ++ map rec_count rs)
            (sum_btc v ++ map rec_sum_btc rs)
            (sum_usd v ++ map (fun r => (rec_sum_usd r / usd_factor)%float) rs)
            (fold_left Z.add (map rec_count rs) (total_count v))
            (fold_left PrimFloat.add (map rec_sum_btc rs) (total_sum_btc v))
            (fold_left PrimFloat.add (map rec_sum_usd rs) (total_sum_usd v)).
Proof.
  revert v. induction rs as [|r rs IH]; intros v; simpl.
  - rewrite !app_nil_r. destruct v; reflexivity.
  - rewrite IH. simpl. rewrite <- !app_assoc. reflexivity.
Qed.

Lemma families_fold_store (recs : list record) (s : state) :
  families (fold_left (fun acc r => store_state r acc) recs s) =
  group rec_family add_record new_family recs (families s).
Proof.
  revert s. induction recs as [|r recs IH]; intros s; simpl; [reflexivity|].
  rewrite IH. reflexivity.
Qed.

Lemma ingest_well_formed_top (lines : list string) (s : state) :
  ingest lines = (Ok tt, s) -> well_formed lines = true.
Proof. unfold ingest, well_formed. apply for_each_body_rows_ok_top. Qed.

(** Ingestion of a well-formed file groups its records by family. *)
Lemma ingest_group_top (lines : list string) :
  well_formed lines = true ->
  exists s, ingest lines = (Ok tt, s) /\
            families s = group rec_family add_record new_family (records lines) [].
Proof.
  intros H. unfold ingest. rewrite (for_each_body_ok_top _ _ H).
  eexists. split; [reflexivity|]. apply families_fold_store.
Qed.

Lemma ingest_families_top (lines : list string) (s : state) :
  ingest lines = (Ok tt, s) ->
  families s = group rec_family add_record new_family (records lines) [].
Proof.
  intros H. destruct (ingest_group_top lines (ingest_well_formed_top lines s H))
    as [s' [H' Hf]]. rewrite H in H'. inversion H'; subst s'. exact Hf.
Qed.

(** The keys after ingestion: the families of the records in the order of
    their first rows. *)
Lemma ingest_keys_top (lines : list string) (s : state) :
  ingest lines = (Ok tt, s) ->
  keys (families s) = first_seen (map rec_family (records lines)).
Proof.
  intros H. rewrite (ingest_families_top lines s H).
  rewrite keys_group. simpl.
  clear. induction (first_seen (map rec_family (records lines))) as [|x l IH];
    simpl; [reflexivity|]. f_equal. exact IH.
Qed.

(** The entry of a family after ingestion: one item per record of the
    family in each list, and the totals run over the same records. *)
Lemma ingest_entry_top (lines : list string) (s : state) (k : string)
  (v : family_rec) :
  ingest lines = (Ok tt, s) -> In (k, v) (families s) ->
  v = mk_family (map rec_month (rows_of k lines)) (map rec_count (rows_of k lines))
                (map rec_sum_btc (rows_of k lines))
                (map (fun r => (rec_sum_usd r / usd_factor)%float) (rows_of k lines))
                (zsum (map rec_count (rows_of k lines)))
                (fsum (map rec_sum_btc (rows_of k lines)))
                (fsum (map rec_sum_usd (rows_of k lines))).
Proof.
  intros H Hin. pose proof (ingest_keys_top lines s H) as Hk.
  assert (Hnd : NoDup (keys (families s))) by (rewrite Hk; apply first_seen_NoDup).
  pose proof (dict_get_In k v (families s) Hnd Hin) as Hg.
  assert (Hv : get_or new_family k (families s) = v)
    by (unfold get_or; rewrite Hg; reflexivity).
  rewrite <- Hv, (ingest_families_top lines s H). rewrite get_or_group.
  unfold get_or. simpl. rewrite fold_add_record. reflexivity.
Qed.

(** A row of totals leaves the state as it is. *)
Lemma body_total_top (line : string) (s : state) :
  getitem (split file_separator line) 1 = Ok "Total" -> body line s = (Ok tt, s).
Proof.
  intros H. destruct (body_read_row_top line s) as [s' [Hb Hs]].
  assert (Hr : read_row line = Ok None).
  { unfold read_row. rewrite getitem_first. simpl.
    destruct (String.eqb (field 0 line) "BlackCat"); [reflexivity|].
    rewrite H. reflexivity. }
  rewrite Hr in Hb, Hs. subst s'. exact Hb.
Qed.

(** A row of the excluded family leaves the state as it is, whatever its
    other fields. *)
Lemma body_blackcat (line : string) (s : state) :
  is_blackcat line = true -> body line s = (Ok tt, s).
Proof.
  unfold is_blackcat. intros H. unfold body, bind, lift.
  rewrite getitem_first, H. reflexivity.
Qed.

Lemma for_each_without_blackcat (rows : list string) (s : state) :
  for_each body rows s = for_each body (filter (fun l => negb (is_blackcat l)) rows) s.
Proof.
  revert s. induction rows as [|l rows IH]; intros s; simpl; [reflexivity|].
  destruct (is_blackcat l) eqn:E; simpl.
  - unfold bind. rewrite (body_blackcat l s E). apply IH.
  - unfold bind. destruct (body l s) as [[[]|e] s']; [apply IH | reflexivity].
Qed.

(** The excluded family never becomes a key. *)
Lemma body_no_blackcat (line : string) (s : state) :
  ~ In "BlackCat" (keys (families s)) ->
  ~ In "BlackCat" (keys (families (snd (body line s)))).
Proof.
  intros Hs. destruct (body_read_row_top line s) as [s' [Hb Hs']].
  rewrite Hb. simpl.
  destruct (read_row line) as [[r|]|e] eqn:E.
  - subst s'. simpl. unfold store. fold (put rec_family add_record new_family r (families s)).
    rewrite keys_put. destruct (read_row_record_top line r E) as [Hf [Hbc _]].
    destruct (dict_in (rec_family r) (families s)); [exact Hs|].
    intros Hin. apply in_app_or in Hin. destruct Hin as [Hin|[Hin|[]]]; [tauto|].
    rewrite Hf in Hin. rewrite Hin, String.eqb_refl in Hbc. discriminate.
  - subst s'. exact Hs.
  - rewrite Hs'. exact Hs.
Qed.

Lemma for_each_no_blackcat (rows : list string) (s : state) :
  ~ In "BlackCat" (keys (families s)) ->
  ~ In "BlackCat" (keys (families (snd (for_each body rows s)))).
Proof.
  revert s. induction rows as [|l rows IH]; intros s Hs; simpl; [exact Hs|].
  unfold bind. pose proof (body_no_blackcat l s Hs) as Hb.
  destruct (body l s) as [[[]|e] s']; simpl in *; [apply IH; exact Hb | exact Hb].
Qed.

(** The names of a top list are keys of the dictionary. *)
Lemma top_families_keys {K : Type} (total : family_rec -> K) (lt : K -> K -> bool)
  (fams : families_t) (k : string) :
  In k (top_families total lt fams) -> In k (keys fams).
Proof.
  unfold top_families. intros H.
  assert (H' : In k (keys (sorted_reverse (fun item => total (snd item)) lt fams))).
  { rewrite <- (firstn_skipn topN). apply in_or_app. left. exact H. }
  unfold keys in *. apply in_map_iff in H'. destruct H' as [kv [Hk Hin]].
  apply in_map_iff. exists kv. split; [exact Hk|].
  apply (Permutation_in _ (sorted_reverse_perm _ _ (fun item => total (snd item)) lt fams)).
  exact Hin.
Qed.

(** With [usd_factor = 1] the USD list holds the sums of the rows as they
    were parsed. *)
Lemma usd_list_unscaled (rs : list record) :
  map (fun r => (rec_sum_usd r / usd_factor)%float) rs = map rec_sum_usd rs.
Proof. apply map_ext. intros r. apply div_one. Qed.

(** When the sums of the rows are non-negative, no total is [nan]. *)
Lemma totals_not_nan (lines : list string) (s : state) :
  ingest lines = (Ok tt, s) ->
  Forall (fun r => PrimFloat.leb 0 (rec_sum_btc r) = true /\
                   PrimFloat.leb 0 (rec_sum_usd r) = true) (records lines) ->
  Forall (fun item => is_nan (total_sum_btc (snd item)) = false) (families s) /\
  Forall (fun item => is_nan (total_sum_usd (snd item)) = false) (families s).
Proof.
  intros Hin Hrows. rewrite Forall_forall in Hrows.
  assert (Hsub : forall k r, In r (rows_of k lines) -> In r (records lines)).
  { intros k r Hr. unfold rows_of in Hr. apply filter_In in Hr. tauto. }
  split; apply Forall_forall; intros [k v] Hv; simpl;
    rewrite (ingest_entry_top lines s k v Hin Hv); simpl;
    apply nonneg_not_nan, fsum_nonneg, Forall_forall; intros x Hx;
    apply in_map_iff in Hx; destruct Hx as [r [Hr Hrin]]; subst x;
    apply leb_zero_nonneg; apply (Hrows r (Hsub k r Hrin)).
Qed.

(** A top list follows the ranking rule when [<] orders the totals. *)
Lemma ranking_rule_holds {K : Type} (total : family_rec -> K) (lt : K -> K -> bool)
  (good : K -> Prop) (fams : families_t) :
  (forall a b, good a -> good b -> lt a b = true -> lt b a = false) ->
  (forall a b c, good a -> good b -> good c ->
                 lt a b = false -> lt b c = false -> lt a c = false) ->
  Forall (fun item => good (total (snd item))) fams ->
  ~ In "BlackCat" (keys fams) ->
  ranking_rule total lt fams (top_families total lt fams).
Proof.
  intros Hasym Hneg Hgood Hk.
  exists (sorted_reverse (fun item => total (snd item)) lt fams).
  split; [apply sorted_reverse_perm|].
  split; [apply (sorted_reverse_sorted _ _ _ lt good Hasym Hneg fams Hgood)|].
  split; [reflexivity|].
  split; [apply firstn_le_length|].
  intros H. apply Hk. apply (top_families_keys total lt fams "BlackCat" H).
Qed.

End Facts.
End TopFacts.

(** ** plot_months.py *)

Module MonthsFacts.
Import PlotMonths.

Ltac run_step :=
  unfold bind at 1; unfold lift, modify, gets, ret; simpl.

Lemma getitem_length {A : Type} (l : list A) (i : nat) :
  (i < List.length l)%nat -> exists x, getitem l i = Ok x /\ nth_error l i = Some x.
Proof.
  intros H. unfold getitem. destruct (nth_error l i) as [x|] eqn:E.
  - exists x. split; reflexivity.
  - apply nth_error_None in E. lia.
Qed.

Section Annotations.
Context {A : Type} `{Num A}.
Variable months : list datetime.
Variable y_values : list A.
Variable epsilon : A.
Hypothesis same_length : List.length months = List.length y_values.

Lemma text_at_in_range (j : nat) (h : halign) :
  (j < List.length y_values)%nat ->
  exists m y, nth_error months j = Some m /\ nth_error y_values j = Some y /\
              text_at months y_values j h = Ok (mk_text j m y y h).
Proof.
  intros Hj. unfold text_at.
  destruct (getitem_length months j) as [m [Hm Hm']]; [lia|].
  destruct (getitem_length y_values j Hj) as [y [Hy Hy']].
  exists m, y. rewrite Hm, Hy. repeat split; assumption.
Qed.

Lemma texts_of_one (j : nat) (h : halign) :
  (j < List.length y_values)%nat ->
  exists t, text_at months y_values j h = Ok t /\ texts_of months y_values h [j] = [t].
Proof.
  intros Hj. destruct (text_at_in_range j h Hj) as [m [y [_ [_ Ht]]]].
  eexists. split; [exact Ht|]. unfold texts_of. simpl. rewrite Ht. reflexivity.
Qed.

(** One iteration of the loop of lines 60 to 62. *)
Lemma peak_body_spec (j : nat) (ts : list (text A)) :
  (1 <= j)%nat -> (j + 1 < List.length y_values)%nat ->
  peak_body months y_values epsilon j ts =
  (Ok tt, ts ++ (if is_peak y_values epsilon j
                 then texts_of months y_values Center [j] else [])).
Proof.
  intros H1 H2. unfold peak_body, is_peak.
  destruct (getitem_length y_values j) as [yj [_ Nj]]; [lia|].
  destruct (getitem_length y_values (j - 1)) as [yl [_ Nl]]; [lia|].
  destruct (getitem_length y_values (j + 1)) as [yr [_ Nr]]; [lia|].
  destruct (texts_of_one j Center) as [t [Ht Hts]]; [lia|].
  unfold bind, lift, modify, ret, getitem. rewrite Nj, Nl, Nr. cbv beta iota.
  destruct (num_gt yj (num_add yl epsilon)); cbv beta iota.
  - destruct (num_gt yj (num_add yr epsilon)); cbv beta iota.
    + rewrite Ht, Hts. reflexivity.
    + rewrite app_nil_r. reflexivity.
  - rewrite app_nil_r. reflexivity.
Qed.

Lemma texts_of_app (h : halign) (js1 js2 : list nat) :
  texts_of months y_values h (js1 ++ js2) =
  texts_of months y_values h js1 ++ texts_of months y_values h js2.
Proof. unfold texts_of. apply flat_map_app. Qed.

Lemma peak_loop_spec (js : list nat) (ts : list (text A)) :
  (forall j, In j js -> (1 <= j)%nat /\ (j + 1 < List.length y_values)%nat) ->
  for_each (peak_body months y_values epsilon) js ts =
  (Ok tt, ts ++ texts_of months y_values Center (filter (is_peak y_values epsilon) js)).
Proof.
  revert ts. induction js as [|j js IH]; intros ts Hjs; simpl.
  - rewrite app_nil_r. reflexivity.
  - unfold bind. destruct (Hjs j (or_introl eq_refl)) as [H1 H2].
    rewrite (peak_body_spec j ts H1 H2).
    rewrite IH by (intros j' Hj'; apply Hjs; right; exact Hj').
    rewrite <- app_assoc.
    destruct (is_peak y_values epsilon j); cbv iota.
    + change (j :: filter (is_peak y_values epsilon) js)
        with ([j] ++ filter (is_peak y_values epsilon) js).
      rewrite texts_of_app. reflexivity.
    + reflexivity.
Qed.

Lemma range_In (j : nat) :
  In j (range 1 (Z.of_nat (List.length y_values) - 1)) <->
  (1 <= j)%nat /\ (j + 1 < List.length y_values)%nat.
Proof. unfold range. rewrite in_seq. lia. Qed.

(** The text calls of a panel: the interior peaks in order, then the first
    point, then the last. *)
Lemma annotate_spec :
  y_values <> [] ->
  annotate months y_values epsilon [] =
  (Ok tt,
   texts_of months y_values Center
            (filter (is_peak y_values epsilon)
                    (range 1 (Z.of_nat (List.length y_values) - 1))) ++
   texts_of months y_values Left [0%nat] ++
   texts_of months y_values Right [(List.length y_values - 1)%nat]).
Proof.
  intros Hne. unfold annotate.
  assert (Hlen : (0 < List.length y_values)%nat).
  { destruct y_values; [congruence | simpl; lia]. }
  destruct (texts_of_one 0 Left Hlen) as [t0 [Ht0 Hts0]].
  destruct (texts_of_one (List.length y_values - 1) Right) as [t1 [Ht1 Hts1]]; [lia|].
  assert (Hlast : text_last months y_values = Ok t1).
  { rewrite <- Ht1. unfold text_last, text_at, getlast.
    destruct months as [|m0 ms] eqn:Em; [simpl in same_length; lia|].
    destruct y_values as [|y0 ys] eqn:Ey; [congruence|].
    rewrite <- Em, <- Ey in *. rewrite same_length. reflexivity. }
  rewrite Hts0, Hts1.
  unfold bind at 1. rewrite peak_loop_spec by (intros j Hj; apply range_In; exact Hj).
  unfold bind, lift, modify. rewrite Ht0, Hlast. cbv beta iota.
  rewrite <- app_assoc. reflexivity.
Qed.

Lemma annotated_app (ts1 ts2 : list (text A)) (j : nat) :
  annotated (ts1 ++ ts2) j = annotated ts1 j || annotated ts2 j.
Proof. unfold annotated. apply existsb_app. Qed.

Lemma In_texts_of (h : halign) (js : list nat) (t : text A) :
  In t (texts_of months y_values h js) ->
  In (point t) js /\ ha t = h /\
  nth_error months (point t) = Some (tx t) /\
  nth_error y_values (point t) = Some (ty t) /\ tlabel t = ty t.
Proof.
  unfold texts_of. rewrite in_flat_map. intros [j [Hj Ht]].
  unfold text_at, getitem in Ht.
  destruct (nth_error months j) as [m|] eqn:Em; [|contradiction].
  destruct (nth_error y_values j) as [y|] eqn:Ey; [|contradiction].
  destruct Ht as [Ht|[]]. subst t. simpl. repeat split; assumption.
Qed.

Lemma annotated_texts_of (h : halign) (js : list nat) (j : nat) :
  (forall i, In i js -> (i < List.length y_values)%nat) ->
  (annotated (texts_of months y_values h js) j = true <-> In j js).
Proof.
  intros Hjs. unfold annotated. rewrite existsb_exists. split.
  - intros [t [Ht Hp]]. apply Nat.eqb_eq in Hp. subst j.
    apply (In_texts_of h js t Ht).
  - intros Hj. destruct (text_at_in_range j h (Hjs j Hj)) as [m [y [_ [_ Ht]]]].
    exists (mk_text j m y y h). split.
    + unfold texts_of. rewrite in_flat_map. exists j. split; [exact Hj|].
      rewrite Ht. left. reflexivity.
    + simpl. apply Nat.eqb_refl.
Qed.

(** A panel that is drawn follows the annotation rule. *)
Lemma render_panel_rule (colour title : string) (p : panel A) :
  render_panel months y_values epsilon colour title = Ok p ->
  annotation_rule months y_values epsilon p.
Proof.
  unfold render_panel. intros Hp.
  destruct (getitem months 0) as [first|e] eqn:Hfirst; [|discriminate].
  destruct (getlast months) as [last|e]; [|discriminate].
  assert (Hne : y_values <> []).
  { intros E. rewrite E in same_length. destruct months; [discriminate Hfirst|].
    simpl in same_length. lia. }
  rewrite (annotate_spec Hne) in Hp. inversion Hp; subst p; clear Hp.
  assert (Hlen : (0 < List.length y_values)%nat).
  { destruct y_values; [congruence | simpl; lia]. }
  assert (Hmain : forall j,
             annotated
               (texts_of months y_values Center
                  (filter (is_peak y_values epsilon)
                     (range 1 (Z.of_nat (List.length y_values) - 1))) ++
                texts_of months y_values Left [0%nat] ++
                texts_of months y_values Right [(List.length y_values - 1)%nat]) j = true <->
             interior_peak y_values epsilon j = true \/ j = 0%nat \/
             j = (List.length y_values - 1)%nat).
  { intros j. rewrite !annotated_app, !orb_true_iff.
    rewrite annotated_texts_of
      by (intros i Hi; apply filter_In in Hi; destruct Hi as [Hi _];
          apply range_In in Hi; lia).
    rewrite annotated_texts_of by (intros i [Hi|[]]; subst i; lia).
    rewrite annotated_texts_of by (intros i [Hi|[]]; subst i; lia).
    rewrite filter_In, range_In. unfold interior_peak.
    rewrite !andb_true_iff, !Nat.ltb_lt. simpl. intuition lia. }
  unfold annotation_rule. cbn [texts]. split; [exact Hmain|]. split.
  - intros j Hj. rewrite Hmain. unfold interior_peak.
    rewrite !andb_true_iff, !Nat.ltb_lt. intuition lia.
  - intros t Ht. apply in_app_or in Ht. destruct Ht as [Ht|Ht];
      [|apply in_app_or in Ht; destruct Ht as [Ht|Ht]].
    + apply In_texts_of in Ht. tauto.
    + apply (In_texts_of Left [0%nat]) in Ht. tauto.
    + apply (In_texts_of Right [(List.length y_values - 1)%nat]) in Ht. tauto.
Qed.

(** A panel of a series that is not empty is drawn. *)
Lemma render_panel_total (colour title : string) :
  months <> [] ->
  exists p, render_panel months y_values epsilon colour title = Ok p.
Proof.
  intros Hne. unfold render_panel.
  assert (Hlen : (0 < List.length months)%nat).
  { destruct months; [congruence | simpl; lia]. }
  destruct (getitem_length months 0 Hlen) as [first [Hfirst _]]. rewrite Hfirst.
  destruct (getitem_length months (List.length months - 1)) as [last [Hlast _]]; [lia|].
  assert (Hgl : getlast months = Ok last).
  { unfold getlast. destruct months; [congruence | exact Hlast]. }
  rewrite Hgl.
  assert (Hy : y_values <> []).
  { intros E. rewrite E in same_length. simpl in same_length. lia. }
  rewrite (annotate_spec Hy). eexists. reflexivity.
Qed.

End Annotations.

Section Facts.
Context {B : Builtins}.

(** A row that is read to its end adds one entry to each list. *)
Lemma body_balanced (line : string) (s s' : state) :
  body line s = (Ok tt, s') -> balanced s -> balanced s'.
Proof.
  unfold body. set (parts := split file_separator line).
  run_step. destruct (getitem parts 0) as [p0|e]; [|discriminate].
  run_step. destruct (parse (strptime p0)) as [d|e]; [|discriminate].
  run_step.
  run_step. destruct (getitem parts 1) as [p1|e]; [|discriminate].
  run_step. destruct (parse (py_int p1)) as [c|e]; [|discriminate].
  run_step.
  run_step. destruct (getitem parts 2) as [p2|e]; [|discriminate].
  run_step. destruct (parse (py_float p2)) as [btc|e]; [|discriminate].
  run_step.
  run_step. destruct (getitem parts 3) as [p3|e]; [|discriminate].
  run_step. destruct (parse (py_float p3)) as [usd|e]; [|discriminate].
  intros H. inversion H; subst; clear H.
  unfold balanced. simpl. rewrite !length_app. simpl. intros (H1 & H2 & H3).
  repeat split; lia.
Qed.

Lemma for_each_balanced (rows : list string) (s s' : state) :
  for_each body rows s = (Ok tt, s') -> balanced s -> balanced s'.
Proof.
  revert s. induction rows as [|l rows IH]; intros s H Hb; simpl in H.
  - inversion H; subst. exact Hb.
  - unfold bind in H. destruct (body l s) as [[[]|e] s1] eqn:E; [|discriminate].
    apply (IH s1 H). apply (body_balanced l s s1 E Hb).
Qed.

Lemma ingest_balanced (lines : list string) (s : state) :
  ingest lines = (Ok tt, s) -> balanced s.
Proof.
  unfold ingest. intros H. apply (for_each_balanced _ _ _ H).
  unfold balanced, init. simpl. repeat split.
Qed.

(** A row whose field [i] is the first rejected one raises [ValueError]
    after the fields before it were appended. *)
Lemma body_first_rejected (line : string) (i : nat) (s : state) :
  first_rejected line i -> (i <= 3)%nat ->
  body line s = (Raise ValueError, partial_state line i s).
Proof.
  intros [[p [Hp Hrej]] Hbefore] Hi.
  assert (H0 : (0 < i)%nat -> exists q d, getitem (split file_separator line) 0 = Ok q /\
                                          field 0 line = q /\ strptime q = Some d).
  { intros H. destruct (Hbefore 0%nat H) as [q [Hq Ha]]. simpl in Ha.
    destruct (strptime q) as [d|] eqn:E; [|discriminate].
    exists q, d. repeat split; [exact Hq | apply getitem_field; exact Hq | exact E]. }
  assert (H1 : (1 < i)%nat -> exists q c, getitem (split file_separator line) 1 = Ok q /\
                                          field 1 line = q /\ py_int q = Some c).
  { intros H. destruct (Hbefore 1%nat H) as [q [Hq Ha]]. simpl in Ha.
    destruct (py_int q) as [c|] eqn:E; [|discriminate].
    exists q, c. repeat split; [exact Hq | apply getitem_field; exact Hq | exact E]. }
  assert (H2 : (2 < i)%nat -> exists q x, getitem (split file_separator line) 2 = Ok q /\
                                          field 2 line = q /\ py_float q = Some x).
  { intros H. destruct (Hbefore 2%nat H) as [q [Hq Ha]]. simpl in Ha.
    destruct (py_float q) as [x|] eqn:E; [|discriminate].
    exists q, x. repeat split; [exact Hq | apply getitem_field; exact Hq | exact E]. }
  unfold body, partial_state, bind, lift, modify, parse.
  destruct i as [|[|[|[|i]]]]; try lia; simpl in Hrej |- *.
  - rewrite Hp. destruct (strptime p); [discriminate|].
    rewrite !app_nil_r. destruct s; reflexivity.
  - destruct H0 as [q0 [d [G0 [F0 P0]]]]; [lia|].
    rewrite G0, F0, P0, Hp. destruct (py_int p); [discriminate|].
    rewrite !app_nil_r. reflexivity.
  - destruct H0 as [q0 [d [G0 [F0 P0]]]]; [lia|].
    destruct H1 as [q1 [c [G1 [F1 P1]]]]; [lia|].
    rewrite G0, F0, P0, G1, F1, P1, Hp. destruct (py_float p); [discriminate|].
    rewrite !app_nil_r. reflexivity.
  - destruct H0 as [q0 [d [G0 [F0 P0]]]]; [lia|].
    destruct H1 as [q1 [c [G1 [F1 P1]]]]; [lia|].
    destruct H2 as [q2 [x [G2 [F2 P2]]]]; [lia|].
    rewrite G0, F0, P0, G1, F1, P1, G2, F2, P2, Hp.
    destruct (py_float p); [discriminate|]. reflexivity.
Qed.

(** Among the fields up to a rejected one there is a first rejected one. *)
Lemma first_rejected_below (line : string) (i : nat) (p : string) (n : nat) :
  getitem (split file_separator line) i = Ok p -> (n <= i)%nat ->
  (forall j, (j < n)%nat ->
             exists q, getitem (split file_separator line) j = Ok q /\
                       accepts j q = true) \/
  (exists j, (j < n)%nat /\ first_rejected line j).
Proof.
  intros Hp. induction n as [|n IH]; intros Hn.
  - left. intros j Hj. lia.
  - destruct IH as [Hall|[j [Hj Hfirst]]]; [lia| |].
    + destruct (getitem_before _ i n p Hp) as [q Hq]; [lia|].
      destruct (accepts n q) eqn:E.
      * left. intros j Hj. destruct (Nat.eq_dec j n) as [->|Hne].
        -- exists q. split; assumption.
        -- apply Hall. lia.
      * right. exists n. split; [lia|]. split; [|exact Hall].
        exists q. split; assumption.
    + right. exists j. split; [lia | exact Hfirst].
Qed.

Lemma malformed_first_rejected (line : string) :
  malformed line -> exists j, (j <= 3)%nat /\ first_rejected line j.
Proof.
  intros [i [p [Hi [Hp Hrej]]]].
  destruct (first_rejected_below line i p i Hp (Nat.le_refl i)) as [Hall|[j [Hj Hfirst]]].
  - exists i. split; [exact Hi|]. split; [|exact Hall]. exists p. split; assumption.
  - exists j. split; [lia | exact Hfirst].
Qed.

(** A row whose first field is ["Total"] is handed to the date parser. *)
Lemma body_total_months (line : string) (s : state) :
  strptime "Total" = None -> field 0 line = "Total" ->
  body line s = (Raise ValueError, s).
Proof.
  intros Hs Hf. unfold body, bind, lift. rewrite getitem_first, Hf, Hs. reflexivity.
Qed.

(** A row that is read to its end adds one month. *)
Lemma body_months_length (line : string) (s s' : state) :
  body line s = (Ok tt, s') ->
  List.length (months s') = S (List.length (months s)).
Proof.
  unfold body. set (parts := split file_separator line).
  run_step. destruct (getitem parts 0) as [p0|e]; [|discriminate].
  run_step. destruct (parse (strptime p0)) as [d|e]; [|discriminate].
  run_step.
  run_step. destruct (getitem parts 1) as [p1|e]; [|discriminate].
  run_step. destruct (parse (py_int p1)) as [c|e]; [|discriminate].
  run_step.
  run_step. destruct (getitem parts 2) as [p2|e]; [|discriminate].
  run_step. destruct (parse (py_float p2)) as [btc|e]; [|discriminate].
  run_step.
  run_step. destruct (getitem parts 3) as [p3|e]; [|discriminate].
  run_step. destruct (parse (py_float p3)) as [usd|e]; [|discriminate].
  intros H. inversion H; subst; clear H. simpl. rewrite length_app. simpl. lia.
Qed.

Lemma for_each_months_length (rows : list string) (s s' : state) :
  for_each body rows s = (Ok tt, s') ->
  List.length (months s') = (List.length (months s) + List.length rows)%nat.
Proof.
  revert s. induction rows as [|l rows IH]; intros s H; simpl in H.
  - inversion H; subst. simpl. lia.
  - unfold bind in H. destruct (body l s) as [[[]|e] s1] eqn:E; [|discriminate].
    rewrite (IH s1 H), (body_months_length l s s1 E). simpl. lia.
Qed.

(** After the ingestion of a file with a row after the header there is a
    month. *)
Lemma ingest_months_nonempty (lines : list string) (s : state) :
  ingest lines = (Ok tt, s) -> skipn 1 lines <> [] -> months s <> [].
Proof.
  unfold ingest. intros H Hrows. apply for_each_months_length in H.
  destruct (skipn 1 lines) as [|l rows]; [congruence|].
  intros E. rewrite E in H. simpl in H. lia.
Qed.

(** The figure of a state with at least one month is drawn. *)
Lemma render_total (s : state) :
  balanced s -> months s <> [] -> exists fig, render s = Ok fig.
Proof.
  intros (Hc & Hb & Hu) Hne. unfold render.
  destruct (render_panel_total (months s) (count s) epsilon_count (eq_sym Hc)
              "blue" "Number of transactions" Hne) as [pc Hpc].
  destruct (render_panel_total (months s) (amount_btc s) epsilon_btc (eq_sym Hb)
              "green" "Payment sum in BTC" Hne) as [pb Hpb].
  destruct (render_panel_total (months s) (amount_usd s) epsilon_usd (eq_sym Hu)
              "red" "Payment sum in USD (in millions)" Hne) as [pu Hpu].
  rewrite Hpc, Hpb, Hpu.
  assert (Hlen : (0 < List.length (months s))%nat).
  { destruct (months s); [congruence | simpl; lia]. }
  destruct (getitem_length (months s) 0 Hlen) as [first [Hfirst _]]. rewrite Hfirst.
  destruct (getitem_length (months s) (List.length (months s) - 1))
    as [last [Hlast _]]; [lia|].
  assert (Hgl : getlast (months s) = Ok last).
  { unfold getlast. destruct (months s); [congruence | exact Hlast]. }
  rewrite Hgl. eexists. reflexivity.
Qed.

End Facts.
End MonthsFacts.
(** * More about the scripts *)

(** ** Lists, dictionaries and exceptions *)

Lemma getitem_short {A : Type} (l : list A) (i : nat) :
  (List.length l <= i)%nat -> getitem l i = Raise IndexError.
Proof.
  intros H. unfold getitem. apply nth_error_None in H. rewrite H. reflexivity.
Qed.

Lemma getitem_firstn {A : Type} (n i : nat) (l : list A) :
  (i < n)%nat -> getitem l i = getitem (firstn n l) i.
Proof.
  intros H. unfold getitem. rewrite nth_error_firstn.
  destruct (Nat.ltb_spec i n); [reflexivity | lia].
Qed.

Lemma dict_get_key {V : Type} (k : string) (d : dict V) :
  In k (keys d) -> exists v, dict_get k d = Ok v.
Proof.
  induction d as [|[k' v'] d IH]; simpl; [intros []|].
  intros [H|H].
  - subst. rewrite String.eqb_refl. eexists. reflexivity.
  - destruct (String.eqb k' k); [eexists; reflexivity | apply IH; exact H].
Qed.

Lemma NoDup_firstn {A : Type} (n : nat) (l : list A) : NoDup l -> NoDup (firstn n l).
Proof.
  intros H. rewrite <- (firstn_skipn n l) in H. apply NoDup_app_remove_r in H. exact H.
Qed.

Lemma firstn_snoc {A : Type} (j : nat) (l : list A) (c : A) :
  nth_error l j = Some c -> firstn (S j) l = firstn j l ++ [c].
Proof.
  revert l. induction j as [|j IH]; intros [|x l] H; simpl in H; try discriminate.
  - inversion H. reflexivity.
  - change (firstn (S (S j)) (x :: l)) with (x :: firstn (S j) l).
    change (firstn (S j) (x :: l)) with (x :: firstn j l).
    rewrite (IH l H). reflexivity.
Qed.

Lemma first_seen_filter (p : string -> bool) (l : list string) :
  first_seen (filter p l) = filter p (first_seen l).
Proof.
  induction l as [|x l IH]; simpl; [reflexivity|].
  destruct (p x) eqn:E; simpl.
  - rewrite IH, !filter_filter. f_equal. apply filter_ext. intros y. apply andb_comm.
  - rewrite IH, filter_filter. apply filter_ext_in. intros y _.
    destruct (String.eqb_spec y x) as [->|]; simpl; [rewrite E|]; reflexivity.
Qed.

Lemma map_filter_comm {A C : Type} (f : A -> C) (p : C -> bool) (l : list A) :
  map f (filter (fun a => p (f a)) l) = filter p (map f l).
Proof.
  induction l as [|a l IH]; simpl; [reflexivity|].
  destruct (p (f a)); simpl; rewrite IH; reflexivity.
Qed.

Lemma getitem_exn {A : Type} (l : list A) (i : nat) (e : exn) :
  getitem l i = Raise e -> e = IndexError.
Proof. unfold getitem. destruct (nth_error l i); congruence. Qed.

Lemma parse_exn {A : Type} (o : option A) (e : exn) :
  parse o = Raise e -> e = ValueError.
Proof. destruct o; simpl; congruence. Qed.

(** ** The order of the datetimes *)

Lemma lex_ltb_irrefl (a : list Z) : lex_ltb a a = false.
Proof.
  induction a as [|x a IH]; simpl; [reflexivity|].
  rewrite Z.ltb_irrefl, Z.eqb_refl, IH. reflexivity.
Qed.

Lemma lex_ltb_negtrans (a b c : list Z) :
  List.length a = List.length b -> List.length b = List.length c ->
  lex_ltb a b = false -> lex_ltb b c = false -> lex_ltb a c = false.
Proof.
  revert b c. induction a as [|x a IH]; intros [|y b] [|z c]; simpl;
    try discriminate; try reflexivity.
  intros Hab Hbc H1 H2.
  apply orb_false_iff in H1. destruct H1 as [H1 H1'].
  apply orb_false_iff in H2. destruct H2 as [H2 H2'].
  apply Z.ltb_ge in H1, H2.
  apply orb_false_iff. split; [apply Z.ltb_ge; lia|].
  destruct (Z.eqb_spec x z) as [E|E]; [|reflexivity]. simpl.
  assert (x = y) by lia. assert (y = z) by lia. subst.
  rewrite Z.eqb_refl in H1', H2'. simpl in H1', H2'.
  apply (IH b c); congruence.
Qed.

Lemma lex_ltb_asym (a b : list Z) : lex_ltb a b = true -> lex_ltb b a = false.
Proof.
  revert b. induction a as [|x a IH]; intros [|y b]; simpl; try discriminate;
    try reflexivity.
  intros H. apply orb_true_iff in H. apply orb_false_iff.
  destruct H as [H|H].
  - apply Z.ltb_lt in H. split; [apply Z.ltb_ge; lia|].
    destruct (Z.eqb_spec y x); [lia | reflexivity].
  - apply andb_true_iff in H. destruct H as [H H']. apply Z.eqb_eq in H. subst.
    rewrite Z.ltb_irrefl, Z.eqb_refl. simpl. split; [reflexivity | apply IH; exact H'].
Qed.

Lemma lex_ltb_tie (a b : list Z) :
  List.length a = List.length b ->
  lex_ltb a b = false -> lex_ltb b a = false -> a = b.
Proof.
  revert b. induction a as [|x a IH]; intros [|y b]; simpl; try discriminate;
    try reflexivity.
  intros Hlen H1 H2.
  apply orb_false_iff in H1. destruct H1 as [H1 H1'].
  apply orb_false_iff in H2. destruct H2 as [H2 H2'].
  apply Z.ltb_ge in H1, H2. assert (x = y) by lia. subst.
  rewrite Z.eqb_refl in H1', H2'. simpl in H1', H2'.
  f_equal. apply IH; congruence.
Qed.

Lemma dt_ltb_irrefl (a : datetime) : dt_ltb a a = false.
Proof. apply lex_ltb_irrefl. Qed.

Lemma dt_ltb_negtrans (a b c : datetime) :
  dt_ltb a b = false -> dt_ltb b c = false -> dt_ltb a c = false.
Proof. apply lex_ltb_negtrans; reflexivity. Qed.

Lemma dt_ltb_asym (a b : datetime) : dt_ltb a b = true -> dt_ltb b a = false.
Proof. apply lex_ltb_asym. Qed.

Lemma dt_ltb_tie (a b : datetime) :
  dt_ltb a b = false -> dt_ltb b a = false -> a = b.
Proof.
  intros H1 H2. pose proof (lex_ltb_tie (dt_fields a) (dt_fields b) eq_refl H1 H2) as H.
  destruct a, b. unfold dt_fields in H. simpl in H. inversion H. reflexivity.
Qed.

(** [min] over a list, from a first value: no value is less than the
    result, which is one of them. *)
Lemma fold_dt_min (ms : list datetime) (a : datetime) :
  let r := fold_left dt_min ms a in
  dt_ltb a r = false /\ (forall m, In m ms -> dt_ltb m r = false) /\
  (r = a \/ In r ms).
Proof.
  revert a. induction ms as [|m ms IH]; intros a; simpl.
  - split; [apply dt_ltb_irrefl|]. split; [intros m []|]. left. reflexivity.
  - destruct (IH (dt_min a m)) as (H1 & H2 & H3).
    assert (Ha : dt_ltb a (dt_min a m) = false).
    { unfold dt_min. destruct (dt_ltb m a) eqn:E;
        [apply dt_ltb_asym; exact E | apply dt_ltb_irrefl]. }
    assert (Hm : dt_ltb m (dt_min a m) = false).
    { unfold dt_min. destruct (dt_ltb m a) eqn:E; [apply dt_ltb_irrefl | exact E]. }
    split; [apply (dt_ltb_negtrans _ _ _ Ha H1)|]. split.
    + intros x [Hx|Hx]; [subst x; apply (dt_ltb_negtrans _ _ _ Hm H1) | apply H2; exact Hx].
    + destruct H3 as [H3|H3]; [|right; right; exact H3].
      rewrite H3. unfold dt_min. destruct (dt_ltb m a); [right; left|left]; reflexivity.
Qed.

Lemma fold_dt_max (ms : list datetime) (a : datetime) :
  let r := fold_left dt_max ms a in
  dt_ltb r a = false /\ (forall m, In m ms -> dt_ltb r m = false) /\
  (r = a \/ In r ms).
Proof.
  revert a. induction ms as [|m ms IH]; intros a; simpl.
  - split; [apply dt_ltb_irrefl|]. split; [intros m []|]. left. reflexivity.
  - destruct (IH (dt_max a m)) as (H1 & H2 & H3).
    assert (Ha : dt_ltb (dt_max a m) a = false).
    { unfold dt_max. destruct (dt_ltb a m) eqn:E;
        [apply dt_ltb_asym; exact E | apply dt_ltb_irrefl]. }
    assert (Hm : dt_ltb (dt_max a m) m = false).
    { unfold dt_max. destruct (dt_ltb a m) eqn:E; [apply dt_ltb_irrefl | exact E]. }
    split; [apply (dt_ltb_negtrans _ _ _ H1 Ha)|]. split.
    + intros x [Hx|Hx]; [subst x; apply (dt_ltb_negtrans _ _ _ H1 Hm) | apply H2; exact Hx].
    + destruct H3 as [H3|H3]; [|right; right; exact H3].
      rewrite H3. unfold dt_max. destruct (dt_ltb a m); [right; left|left]; reflexivity.
Qed.

(** ** [max] of a list of floats *)

Lemma float_lt_irrefl (a : float) : PrimFloat.ltb a a = false.
Proof.
  destruct (PrimFloat.ltb a a) eqn:E; [|reflexivity].
  pose proof (float_lt_asym a a E). congruence.
Qed.

(** Among floats that are not [nan], not less is greater or equal. *)
Lemma float_not_lt_le (a b : float) :
  is_nan a = false -> is_nan b = false ->
  PrimFloat.ltb a b = false -> PrimFloat.leb b a = true.
Proof.
  intros Na Nb. rewrite ltb_spec, leb_spec. unfold SFltb, SFleb.
  destruct (not_nan_compare b a Nb Na) as [c Hc].
  rewrite (SFcompare_antisym _ _ _ Hc), Hc. destruct c; simpl; congruence.
Qed.

Lemma float_le_not_nan (a b : float) :
  PrimFloat.leb a b = true -> is_nan a = false /\ is_nan b = false.
Proof.
  unfold is_nan. rewrite leb_spec, !eqb_spec. unfold SFleb, SFeqb.
  destruct (Prim2SF a) as [sa|sa| |sa ma ea], (Prim2SF b) as [sb|sb| |sb mb eb];
    simpl; try discriminate; intros _; split; try reflexivity.
  all: try (destruct sa; reflexivity); try (destruct sb; reflexivity).
  all: rewrite ?Z.compare_refl; change (Pos.compare_cont Eq ?p ?q) with (Pos.compare p q);
    rewrite ?Pos.compare_refl; try (destruct sa; reflexivity);
    try (destruct sb; reflexivity).
Qed.

Lemma float_lt_not_nan (a b : float) :
  PrimFloat.ltb a b = true -> is_nan a = false /\ is_nan b = false.
Proof.
  unfold is_nan. rewrite ltb_spec, !eqb_spec. unfold SFltb, SFeqb.
  destruct (Prim2SF a) as [sa|sa| |sa ma ea], (Prim2SF b) as [sb|sb| |sb mb eb];
    simpl; try discriminate; intros _; split; try reflexivity.
  all: try (destruct sa; reflexivity); try (destruct sb; reflexivity).
  all: rewrite ?Z.compare_refl; change (Pos.compare_cont Eq ?p ?q) with (Pos.compare p q);
    rewrite ?Pos.compare_refl; try (destruct sa; reflexivity);
    try (destruct sb; reflexivity).
Qed.

(** [nan] is less than nothing. *)
Lemma float_nan_not_lt (a b : float) : is_nan a = true -> PrimFloat.ltb a b = false.
Proof.
  intros Na. destruct (PrimFloat.ltb a b) eqn:E; [|reflexivity].
  destruct (float_lt_not_nan a b E) as [H _]. congruence.
Qed.

Local Abbreviation fmax_step :=
  (fun m y : float => if PrimFloat.ltb m y then y else m) (only parsing).

Lemma fold_fmax (xs : list float) (x : float) :
  Forall (fun y => is_nan y = false) (x :: xs) ->
  let r := fold_left fmax_step xs x in
  In r (x :: xs) /\ forall y, In y (x :: xs) -> PrimFloat.ltb r y = false.
Proof.
  revert x. induction xs as [|y xs IH]; intros x Hn; simpl.
  - split; [left; reflexivity|]. intros y [Hy|[]]. subst. apply float_lt_irrefl.
  - inversion Hn as [|? ? Nx Hn']. inversion Hn' as [|? ? Ny Hn'']. subst.
    assert (Nx' : is_nan (fmax_step x y) = false).
    { cbv beta. destruct (PrimFloat.ltb x y); assumption. }
    destruct (IH (fmax_step x y)) as [Hin Hge]; [constructor; assumption|].
    set (r := fold_left fmax_step xs (fmax_step x y)) in *.
    assert (Nr : is_nan r = false).
    { destruct Hin as [Hr|Hr]; [rewrite <- Hr; exact Nx'|].
      rewrite Forall_forall in Hn''. apply Hn''. exact Hr. }
    assert (Hx : PrimFloat.ltb (fmax_step x y) x = false).
    { cbv beta. destruct (PrimFloat.ltb x y) eqn:E;
        [apply float_lt_asym; exact E | apply float_lt_irrefl]. }
    assert (Hy : PrimFloat.ltb (fmax_step x y) y = false).
    { cbv beta. destruct (PrimFloat.ltb x y) eqn:E;
        [apply float_lt_irrefl | exact E]. }
    pose proof (Hge _ (or_introl eq_refl)) as Hr.
    split.
    + destruct Hin as [Hin|Hin]; [|right; right; exact Hin].
      rewrite <- Hin. cbv beta.
      destruct (PrimFloat.ltb x y); [right; left | left]; reflexivity.
    + intros z [Hz|[Hz|Hz]].
      * subst z. apply (float_lt_negtrans r (fmax_step x y) x Nr Nx' Nx Hr Hx).
      * subst z. apply (float_lt_negtrans r (fmax_step x y) y Nr Nx' Ny Hr Hy).
      * apply Hge. right. exact Hz.
Qed.

(** [max] of floats without a [nan]: an item that no item exceeds. *)
Lemma py_max_greatest (l : list float) (m : float) :
  py_max l = Ok m -> Forall (fun y => is_nan y = false) l ->
  In m l /\ forall y, In y l -> PrimFloat.leb y m = true.
Proof.
  destruct l as [|x xs]; simpl; [discriminate|]. intros H Hn. inversion H as [Hm].
  destruct (fold_fmax xs x Hn) as [Hin Hge]. cbv zeta in Hin, Hge.
  split; [exact Hin|]. intros y Hy.
  assert (Nm : is_nan (fold_left fmax_step xs x) = false).
  { rewrite Forall_forall in Hn. apply Hn. exact Hin. }
  apply float_not_lt_le; [exact Nm | rewrite Forall_forall in Hn; apply Hn; exact Hy|].
  apply Hge. exact Hy.
Qed.

(** [max] keeps a first item that is [nan]. *)
Lemma py_max_nan_first (x : float) (xs : list float) :
  is_nan x = true -> py_max (x :: xs) = Ok x.
Proof.
  intros Nx. simpl. f_equal. induction xs as [|y xs IH]; simpl; [reflexivity|].
  rewrite (float_nan_not_lt x y Nx). exact IH.
Qed.

(** ** The rows that are read *)

Module MonthsMore.
Import PlotMonths MonthsFacts MonthsCalls.

Section Facts.
Context {B : Builtins}.

Lemma body_ok_parsed (line : string) (s s' : state) :
  body line s = (Ok tt, s') -> parsed_row line s = Some s'.
Proof.
  unfold body, parsed_row. set (parts := split file_separator line).
  run_step. destruct (getitem parts 0) as [p0|e] eqn:G0; [|discriminate].
  rewrite (getitem_field 0 line p0 G0).
  run_step. destruct (strptime p0) as [d|]; [|discriminate].
  simpl. run_step.
  run_step. destruct (getitem parts 1) as [p1|e] eqn:G1; [|discriminate].
  rewrite (getitem_field 1 line p1 G1).
  run_step. destruct (py_int p1) as [c|]; [|discriminate].
  simpl. run_step.
  run_step. destruct (getitem parts 2) as [p2|e] eqn:G2; [|discriminate].
  rewrite (getitem_field 2 line p2 G2).
  run_step. destruct (py_float p2) as [btc|]; [|discriminate].
  simpl. run_step.
  run_step. destruct (getitem parts 3) as [p3|e] eqn:G3; [|discriminate].
  rewrite (getitem_field 3 line p3 G3).
  run_step. destruct (py_float p3) as [usd|]; [|discriminate].
  simpl. intros H. inversion H. reflexivity.
Qed.

Lemma for_each_body_series (rows : list string) (s s' : state) :
  for_each body rows s = (Ok tt, s') ->
  map Some (months s') =
    map Some (months s) ++ map (fun l => strptime (field 0 l)) rows /\
  map Some (count s') =
    map Some (count s) ++ map (fun l => py_int (field 1 l)) rows /\
  map Some (amount_btc s') =
    map Some (amount_btc s) ++
    map (fun l => option_map (fun x => py_round x 4) (py_float (field 2 l))) rows /\
  map Some (amount_usd s') =
    map Some (amount_usd s) ++
    map (fun l => option_map (fun x => py_round (x / usd_factor) 2)
                             (py_float (field 3 l))) rows.
Proof.
  revert s. induction rows as [|l rows IH]; intros s H; simpl in H.
  - inversion H; subst. simpl. rewrite !app_nil_r. repeat split.
  - unfold bind in H. destruct (body l s) as [[[]|e] s1] eqn:E; [|discriminate].
    apply body_ok_parsed in E. unfold parsed_row in E.
    destruct (strptime (field 0 l)) as [d|] eqn:E0; [|discriminate].
    destruct (py_int (field 1 l)) as [c|] eqn:E1; [|discriminate].
    destruct (py_float (field 2 l)) as [btc|] eqn:E2; [|discriminate].
    destruct (py_float (field 3 l)) as [usd|] eqn:E3; [|discriminate].
    inversion E; subst s1; clear E.
    destruct (IH _ H) as (H1 & H2 & H3 & H4). simpl in H1, H2, H3, H4.
    simpl. rewrite E0, E1, E2, E3. simpl.
    rewrite H1, H2, H3, H4, !map_app, <- !app_assoc. simpl. repeat split.
Qed.

End Facts.
End MonthsMore.

Module MonthsStairs.
Import PlotMonths MonthsFacts MonthsCalls.

Section Facts.
Context {B : Builtins}.

(** One row, from lists of one length: either all four lists grow by one,
    or the row raises [IndexError] or [ValueError] and leaves a staircase. *)
Lemma body_staircase (line : string) (s : state) :
  balanced s ->
  match body line s with
  | (Ok _, s') => balanced s'
  | (Raise e, s') => staircase s' /\ (e = IndexError \/ e = ValueError)
  end.
Proof.
  intros (H1 & H2 & H3).
  unfold body. set (parts := split file_separator line).
  run_step. destruct (getitem parts 0) as [p0|e] eqn:G0.
  2:{ apply getitem_exn in G0. unfold staircase. repeat split; try lia. auto. }
  run_step. destruct (parse (strptime p0)) as [d|e] eqn:P0.
  2:{ apply parse_exn in P0. unfold staircase. repeat split; try lia. auto. }
  run_step.
  run_step. destruct (getitem parts 1) as [p1|e] eqn:G1.
  2:{ apply getitem_exn in G1. unfold staircase. simpl. rewrite length_app. simpl.
      repeat split; try lia. auto. }
  run_step. destruct (parse (py_int p1)) as [c|e] eqn:P1.
  2:{ apply parse_exn in P1. unfold staircase. simpl. rewrite length_app. simpl.
      repeat split; try lia. auto. }
  run_step.
  run_step. destruct (getitem parts 2) as [p2|e] eqn:G2.
  2:{ apply getitem_exn in G2. unfold staircase. simpl. rewrite !length_app. simpl.
      repeat split; try lia. auto. }
  run_step. destruct (parse (py_float p2)) as [btc|e] eqn:P2.
  2:{ apply parse_exn in P2. unfold staircase. simpl. rewrite !length_app. simpl.
      repeat split; try lia. auto. }
  run_step.
  run_step. destruct (getitem parts 3) as [p3|e] eqn:G3.
  2:{ apply getitem_exn in G3. unfold staircase. simpl. rewrite !length_app. simpl.
      repeat split; try lia. auto. }
  run_step. destruct (parse (py_float p3)) as [usd|e] eqn:P3.
  2:{ apply parse_exn in P3. unfold staircase. simpl. rewrite !length_app. simpl.
      repeat split; try lia. auto. }
  unfold balanced. simpl. rewrite !length_app. simpl. repeat split; lia.
Qed.

Lemma balanced_staircase (s : state) : balanced s -> staircase s.
Proof. intros (H1 & H2 & H3). unfold staircase. repeat split; lia. Qed.

Lemma for_each_staircase (rows : list string) (s : state) :
  balanced s ->
  match for_each body rows s with
  | (Ok _, s') => balanced s'
  | (Raise e, s') => staircase s' /\ (e = IndexError \/ e = ValueError)
  end.
Proof.
  revert s. induction rows as [|l rows IH]; intros s Hb; simpl.
  - exact Hb.
  - unfold bind. pose proof (body_staircase l s Hb) as Hl.
    destruct (body l s) as [[[]|e] s1]; [apply IH; exact Hl | exact Hl].
Qed.

End Facts.
End MonthsStairs.

Module FamiliesMore.
Import PlotFamilies FamiliesFacts.

Section Facts.
Context {B : Builtins}.

(** A row of fewer than five fields that is not a row of totals. *)
Lemma read_row_short (line : string) :
  (List.length (split file_separator line) < 5)%nat ->
  getitem (split file_separator line) 1 <> Ok "Total" ->
  exists e, read_row line = Raise e /\
            (e = IndexError \/ e = ValueError) /\
            ((forall i p, (1 <= i)%nat -> getitem (split file_separator line) i = Ok p ->
                          accepts i p = true) -> e = IndexError).
Proof.
  intros Hlen Htot. unfold read_row. set (parts := split file_separator line) in *.
  assert (H4 : getitem parts 4 = Raise IndexError) by (apply getitem_short; lia).
  destruct (getitem parts 0) as [family|e0] eqn:G0; simpl.
  2:{ unfold getitem in G0. destruct (nth_error parts 0); inversion G0; subst.
      exists IndexError. auto. }
  destruct (getitem parts 1) as [p1|e1] eqn:G1; simpl.
  2:{ unfold getitem in G1. destruct (nth_error parts 1); inversion G1; subst.
      exists IndexError. auto. }
  destruct (String.eqb p1 "Total") eqn:Et.
  { apply String.eqb_eq in Et. subst p1. contradiction Htot. reflexivity. }
  destruct (strptime p1) as [m|] eqn:P1; simpl.
  2:{ exists ValueError. repeat split; auto. intros Hacc.
      specialize (Hacc 1%nat p1 (le_n _) G1). simpl in Hacc. rewrite P1 in Hacc.
      discriminate. }
  destruct (getitem parts 2) as [p2|e2] eqn:G2; simpl.
  2:{ unfold getitem in G2. destruct (nth_error parts 2); inversion G2; subst.
      exists IndexError. auto. }
  destruct (py_int p2) as [c|] eqn:P2; simpl.
  2:{ exists ValueError. repeat split; auto. intros Hacc.
      assert (Hle : (1 <= 2)%nat) by lia.
      specialize (Hacc 2%nat p2 Hle G2). simpl in Hacc. rewrite P2 in Hacc.
      discriminate. }
  destruct (getitem parts 3) as [p3|e3] eqn:G3; simpl.
  2:{ unfold getitem in G3. destruct (nth_error parts 3); inversion G3; subst.
      exists IndexError. auto. }
  destruct (py_float p3) as [btc|] eqn:P3; simpl.
  2:{ exists ValueError. repeat split; auto. intros Hacc.
      assert (Hle : (1 <= 3)%nat) by lia.
      specialize (Hacc 3%nat p3 Hle G3). simpl in Hacc. rewrite P3 in Hacc.
      discriminate. }
  rewrite H4. simpl. exists IndexError. auto.
Qed.

(** The loop stops at the first row that raises. *)
Lemma for_each_body_stops (pre post : list string) (bad : string) (e : exn)
  (d d' : families_t) :
  for_each body pre d = (Ok tt, d') -> read_row bad = Raise e ->
  for_each body (pre ++ bad :: post) d = (Raise e, d').
Proof.
  intros Hpre Hbad. rewrite for_each_app, Hpre. simpl. unfold bind.
  rewrite body_read_row, Hbad. reflexivity.
Qed.

End Facts.
End FamiliesMore.

Module TopMore.
Import PlotTopFamilies TopFacts.

Section Facts.
Context {B : Builtins}.

Lemma read_row_short_top (line : string) :
  (List.length (split file_separator line) < 5)%nat ->
  field 0 line <> "BlackCat" ->
  getitem (split file_separator line) 1 <> Ok "Total" ->
  exists e, read_row line = Raise e /\
            (e = IndexError \/ e = ValueError) /\
            ((forall i p, (1 <= i)%nat -> getitem (split file_separator line) i = Ok p ->
                          PlotFamilies.accepts i p = true) -> e = IndexError).
Proof.
  intros Hlen Hcat Htot. unfold read_row. rewrite getitem_first. simpl.
  set (parts := split file_separator line) in *.
  assert (H4 : getitem parts 4 = Raise IndexError) by (apply getitem_short; lia).
  destruct (String.eqb (field 0 line) "BlackCat") eqn:Ec.
  { apply String.eqb_eq in Ec. contradiction. }
  destruct (getitem parts 1) as [p1|e1] eqn:G1; simpl.
  2:{ unfold getitem in G1. destruct (nth_error parts 1); inversion G1; subst.
      exists IndexError. auto. }
  destruct (String.eqb p1 "Total") eqn:Et.
  { apply String.eqb_eq in Et. subst p1. contradiction Htot. reflexivity. }
  destruct (strptime p1) as [m|] eqn:P1; simpl.
  2:{ exists ValueError. repeat split; auto. intros Hacc.
      specialize (Hacc 1%nat p1 (le_n _) G1). simpl in Hacc. rewrite P1 in Hacc.
      discriminate. }
  destruct (getitem parts 2) as [p2|e2] eqn:G2; simpl.
  2:{ unfold getitem in G2. destruct (nth_error parts 2); inversion G2; subst.
      exists IndexError. auto. }
  destruct (py_int p2) as [c|] eqn:P2; simpl.
  2:{ exists ValueError. repeat split; auto. intros Hacc.
      assert (Hle : (1 <= 2)%nat) by lia.
      specialize (Hacc 2%nat p2 Hle G2). simpl in Hacc. rewrite P2 in Hacc.
      discriminate. }
  destruct (getitem parts 3) as [p3|e3] eqn:G3; simpl.
  2:{ unfold getitem in G3. destruct (nth_error parts 3); inversion G3; subst.
      exists IndexError. auto. }
  destruct (py_float p3) as [btc|] eqn:P3; simpl.
  2:{ exists ValueError. repeat split; auto. intros Hacc.
      assert (Hle : (1 <= 3)%nat) by lia.
      specialize (Hacc 3%nat p3 Hle G3). simpl in Hacc. rewrite P3 in Hacc.
      discriminate. }
  rewrite H4. simpl. exists IndexError. auto.
Qed.

Lemma for_each_body_stops_top (pre post : list string) (bad : string) (e : exn)
  (s s' : state) :
  for_each body pre s = (Ok tt, s') -> read_row bad = Raise e ->
  exists s'', for_each body (pre ++ bad :: post) s = (Raise e, s'') /\
              families s'' = families s'.
Proof.
  intros Hpre Hbad. rewrite for_each_app, Hpre. simpl. unfold bind.
  destruct (body_read_row_top bad s') as [s'' [Hb Hs]]. rewrite Hbad in Hb, Hs.
  rewrite Hb. exists s''. split; [reflexivity | exact Hs].
Qed.

End Facts.
End TopMore.

Module Failures.

Section Facts.
Context {B : Builtins}.







End Facts.
End Failures.

Module Agreement.

Section Facts.
Context {B : Builtins}.

Local Abbreviation other := (fun k : string => negb (String.eqb k "BlackCat")).

(** The top-N script reads a line as [plot_families.py] does, unless it is
    a row of the excluded family. *)
Lemma read_row_top_families (l : string) :
  PlotTopFamilies.read_row l =
  if PlotTopFamilies.is_blackcat l then Ok None else PlotFamilies.read_row l.
Proof.
  unfold PlotTopFamilies.read_row, PlotFamilies.read_row, PlotTopFamilies.is_blackcat.
  rewrite getitem_first. simpl.
  destruct (String.eqb (field 0 l) "BlackCat"); reflexivity.
Qed.

Lemma row_ok_top_families (l : string) :
  PlotFamilies.row_ok l = true -> PlotTopFamilies.row_ok l = true.
Proof.
  unfold PlotFamilies.row_ok, PlotTopFamilies.row_ok. rewrite read_row_top_families.
  destruct (PlotTopFamilies.is_blackcat l); [reflexivity | tauto].
Qed.

Lemma well_formed_top_families (lines : list string) :
  PlotFamilies.well_formed lines = true -> PlotTopFamilies.well_formed lines = true.
Proof.
  unfold PlotFamilies.well_formed, PlotTopFamilies.well_formed.
  rewrite !forallb_forall. intros H l Hl. apply row_ok_top_families. apply H. exact Hl.
Qed.

Lemma records_top_families (lines : list string) :
  PlotTopFamilies.records lines =
  filter (fun r => other (rec_family r)) (PlotFamilies.records lines).
Proof.
  unfold PlotTopFamilies.records, PlotFamilies.records.
  induction (skipn 1 lines) as [|l rows IH]; simpl; [reflexivity|].
  rewrite filter_app, <- IH. f_equal.
  rewrite read_row_top_families. unfold PlotTopFamilies.is_blackcat.
  destruct (PlotFamilies.read_row l) as [[r|]|e] eqn:E;
    try (destruct (String.eqb (field 0 l) "BlackCat"); reflexivity).
  destruct (FamiliesFacts.read_row_record l r E) as [Hf _].
  simpl. rewrite Hf.
  destruct (String.eqb (field 0 l) "BlackCat"); reflexivity.
Qed.

Lemma rows_of_top_families (k : string) (lines : list string) :
  k <> "BlackCat" -> PlotTopFamilies.rows_of k lines = PlotFamilies.rows_of k lines.
Proof.
  intros Hk. unfold PlotTopFamilies.rows_of, PlotFamilies.rows_of.
  rewrite records_top_families, filter_filter. apply filter_ext. intros r.
  cbv beta. destruct (String.eqb_spec (rec_family r) k) as [E|E].
  - rewrite E. apply String.eqb_neq in Hk. rewrite Hk. reflexivity.
  - apply andb_false_r.
Qed.

End Facts.
End Agreement.

(** ** Groups, rankings and figures *)

Module FamiliesBuckets.
Import PlotFamilies FamiliesFacts.

Section Facts.
Context {B : Builtins}.

(** After ingestion the maximum of a family is the [max] of the USD sums of
    its rows. *)
Lemma ingest_max_rows (lines : list string) (fams : families_t) (k : string) :
  ingest lines = (Ok tt, fams) -> In k (keys fams) ->
  exists m, max_usd fams k = Some m /\
            py_max (map rec_sum_usd (rows_of k lines)) = Ok m.
Proof.
  intros Hin Hk. destruct (ingest_max_usd lines fams k Hin Hk) as [m Hm].
  exists m. split; [exact Hm|]. unfold max_usd in Hm.
  destruct (dict_get k fams) as [v|] eqn:Hv; [|discriminate].
  apply dict_get_Ok_In in Hv. rewrite (ingest_entry lines fams k v Hin Hv) in Hm.
  simpl in Hm. destruct (py_max (map rec_sum_usd (rows_of k lines))); congruence.
Qed.

(** The bucket of a family is the class of its maximum. *)
Lemma bucket_of_max (lines : list string) (fams : families_t) (b : buckets)
  (k : string) (m : float) :
  ingest lines = (Ok tt, fams) -> bucketing fams = (Ok tt, b) ->
  In k (keys fams) -> max_usd fams k = Some m ->
  forall c, In k (members b c) <-> classify m = c.
Proof.
  intros Hin Hb Hk Hm c.
  assert (Hmax : forall k, In k (keys fams) -> exists m, max_usd fams k = Some m).
  { intros k' Hk'. apply (ingest_max_usd lines fams k' Hin Hk'). }
  unfold bucketing in Hb. rewrite (bucket_loop_spec fams (keys fams) _ Hmax) in Hb.
  inversion Hb. destruct c; simpl;
    rewrite (keys_in_In fams _ (keys fams) k m Hm); tauto.
Qed.

Lemma classify_small (m : float) :
  classify m = Small <-> PrimFloat.ltb m SMALL_THRESHOLD = true.
Proof.
  unfold classify. destruct (PrimFloat.ltb m SMALL_THRESHOLD);
    [tauto|]. destruct (PrimFloat.ltb m MEDIUM_THRESHOLD); split; discriminate.
Qed.

Lemma classify_medium (m : float) :
  is_nan m = false ->
  classify m = Medium <->
  PrimFloat.leb SMALL_THRESHOLD m = true /\ PrimFloat.ltb m MEDIUM_THRESHOLD = true.
Proof.
  intros Nm. unfold classify. destruct (PrimFloat.ltb m SMALL_THRESHOLD) eqn:E1.
  - split; [discriminate|]. intros [H _]. apply float_le_not_lt in H. congruence.
  - apply (float_not_lt_le m SMALL_THRESHOLD Nm eq_refl) in E1.
    destruct (PrimFloat.ltb m MEDIUM_THRESHOLD); split; try tauto; try discriminate.
    intros [_ H]. discriminate.
Qed.

Lemma classify_large (m : float) :
  is_nan m = false ->
  classify m = Large <-> PrimFloat.leb MEDIUM_THRESHOLD m = true.
Proof.
  intros Nm. unfold classify. split.
  - destruct (PrimFloat.ltb m SMALL_THRESHOLD); [discriminate|].
    destruct (PrimFloat.ltb m MEDIUM_THRESHOLD) eqn:E2; [discriminate|]. intros _.
    apply (float_not_lt_le m MEDIUM_THRESHOLD Nm eq_refl E2).
  - intros H.
    assert (H1 : PrimFloat.ltb SMALL_THRESHOLD m = true).
    { apply (float_lt_le_trans SMALL_THRESHOLD MEDIUM_THRESHOLD m eq_refl H). }
    rewrite (float_lt_asym _ _ H1), (float_le_not_lt _ _ H). reflexivity.
Qed.

End Facts.
End FamiliesBuckets.

Module FamiliesRender.
Import PlotFamilies FamiliesFacts FamiliesPlots.

Section Facts.
Context {B : Builtins}.

Lemma plot_loop_keys {A : Type} (fams : families_t) (metric : family_rec -> list A)
  (names : list string) (acc : list (line A)) :
  (forall k, In k names -> In k (keys fams)) ->
  exists ls,
    for_each (fun family_name =>
                r <- lift (dict_get family_name fams) ;;
                modify (fun acc => acc ++ [mk_line family_name (month r) (metric r)]))
             names acc = (Ok tt, acc ++ ls) /\
    plots fams metric names ls.
Proof.
  set (body := fun family_name : string =>
                 r <- lift (dict_get family_name fams) ;;
                 modify (fun acc : list (line A) =>
                           acc ++ [mk_line family_name (month r) (metric r)])).
  revert acc. induction names as [|k names IH]; intros acc Hk; simpl.
  - exists []. rewrite app_nil_r. split; [reflexivity | constructor].
  - destruct (dict_get_key k fams (Hk k (or_introl eq_refl))) as [v Hv].
    assert (Hbody : body k acc = (Ok tt, acc ++ [mk_line k (month v) (metric v)])).
    { unfold body, bind, lift, modify. rewrite Hv. reflexivity. }
    unfold bind at 1. rewrite Hbody.
    destruct (IH (acc ++ [mk_line k (month v) (metric v)])) as [ls [Hls Hp]].
    { intros k' Hk'. apply Hk. right. exact Hk'. }
    exists (mk_line k (month v) (metric v) :: ls). split.
    + rewrite Hls, <- app_assoc. reflexivity.
    + constructor; [|exact Hp]. simpl. split; [reflexivity|].
      exists v. repeat split. exact Hv.
Qed.

Lemma plot_lines_keys {A : Type} (fams : families_t) (metric : family_rec -> list A)
  (names : list string) :
  (forall k, In k names -> In k (keys fams)) ->
  exists ls, plot_lines fams metric names = Ok ls /\ plots fams metric names ls.
Proof.
  intros Hk. destruct (plot_loop_keys fams metric names [] Hk) as [ls [Hls Hp]].
  exists ls. unfold plot_lines. rewrite Hls. split; [reflexivity | exact Hp].
Qed.

Lemma plot_family_group_keys (fams : families_t) (names : list string) (name : string) :
  (forall k, In k names -> In k (keys fams)) ->
  exists f, plot_family_group fams names name = Ok f /\ shows fams names name f.
Proof.
  intros Hk. unfold plot_family_group.
  destruct (plot_lines_keys fams count names Hk) as [pc [Hc Hpc]].
  destruct (plot_lines_keys fams sum_btc names Hk) as [pb [Hb Hpb]].
  destruct (plot_lines_keys fams sum_usd names Hk) as [pu [Hu Hpu]].
  rewrite Hc, Hb, Hu. eexists. split; [reflexivity|].
  repeat split; assumption.
Qed.

(** After ingestion the loop over the families fills the buckets with keys. *)
Lemma bucketing_keys (lines : list string) (fams : families_t) :
  ingest lines = (Ok tt, fams) ->
  exists b, bucketing fams = (Ok tt, b) /\
            Permutation (small b ++ medium b ++ large b) (keys fams).
Proof.
  intros Hin.
  assert (Hmax : forall k, In k (keys fams) -> exists m, max_usd fams k = Some m).
  { intros k Hk. apply (ingest_max_usd lines fams k Hin Hk). }
  eexists. split.
  - unfold bucketing. apply bucket_loop_spec. exact Hmax.
  - simpl. apply keys_in_partition. exact Hmax.
Qed.

Lemma plots_square {A : Type} (lines : list string) (fams : families_t)
  (metric : family_rec -> list A) (names : list string) (ls : list (line A)) :
  ingest lines = (Ok tt, fams) ->
  (forall k v, In (k, v) fams -> List.length (month v) = List.length (metric v)) ->
  plots fams metric names ls ->
  Forall (fun ln => List.length (xs ln) = List.length (ys ln)) ls.
Proof.
  intros Hin Hlen Hp. induction Hp as [|k ln names ls [_ [v [Hv [Hx Hy]]]] _ IH].
  - constructor.
  - constructor; [|exact IH]. rewrite Hx, Hy. apply (Hlen k).
    apply dict_get_Ok_In. exact Hv.
Qed.

Lemma shows_square (lines : list string) (fams : families_t) (names : list string)
  (name : string) (f : figure) :
  ingest lines = (Ok tt, fams) -> shows fams names name f -> square f.
Proof.
  intros Hin (_ & Hc & Hb & Hu).
  repeat split.
  - apply (plots_square lines fams count names _ Hin); [|exact Hc].
    intros k v Hv. rewrite (ingest_entry lines fams k v Hin Hv). simpl.
    rewrite !length_map. reflexivity.
  - apply (plots_square lines fams sum_btc names _ Hin); [|exact Hb].
    intros k v Hv. rewrite (ingest_entry lines fams k v Hin Hv). simpl.
    rewrite !length_map. reflexivity.
  - apply (plots_square lines fams sum_usd names _ Hin); [|exact Hu].
    intros k v Hv. rewrite (ingest_entry lines fams k v Hin Hv). simpl.
    rewrite !length_map. reflexivity.
Qed.

(** A file that is read without error is plotted without error. *)
Lemma main_after_ingest (script path : string) (fs : filesystem)
  (lines : list string) (fams : families_t) :
  fs path = Some lines ->
  ingest lines = (Ok tt, fams) ->
  exists b f1 f2 f3,
    bucketing fams = (Ok tt, b) /\
    Permutation (small b ++ medium b ++ large b) (keys fams) /\
    main [script; path] fs = mk_outcome (report b) [path] (Completed [f1; f2; f3]) /\
    shows fams (small b) "small" f1 /\
    shows fams (medium b) "medium" f2 /\
    shows fams (large b) "large" f3.
Proof.
  intros Hfs Hin.
  destruct (bucketing_keys lines fams Hin) as [b [Hb Hperm]].
  assert (Hk : forall k, In k (small b ++ medium b ++ large b) -> In k (keys fams)).
  { intros k Hk. apply (Permutation_in k Hperm Hk). }
  destruct (plot_family_group_keys fams (small b) "small") as [f1 [H1 S1]].
  { intros k H. apply Hk. apply in_or_app. left. exact H. }
  destruct (plot_family_group_keys fams (medium b) "medium") as [f2 [H2 S2]].
  { intros k H. apply Hk. apply in_or_app. right. apply in_or_app. left. exact H. }
  destruct (plot_family_group_keys fams (large b) "large") as [f3 [H3 S3]].
  { intros k H. apply Hk. apply in_or_app. right. apply in_or_app. right. exact H. }
  exists b, f1, f2, f3.
  split; [exact Hb|]. split; [exact Hperm|]. split; [|split; [|split]]; try assumption.
  unfold main. simpl. rewrite Hfs, Hin, Hb, H1, H2, H3. reflexivity.
Qed.

End Facts.
End FamiliesRender.

Module TopSize.
Import PlotTopFamilies TopFacts.

Section Facts.
Context {B : Builtins}.

Lemma top_families_length {K : Type} (total : family_rec -> K) (lt : K -> K -> bool)
  (fams : families_t) :
  List.length (top_families total lt fams) = Nat.min topN (List.length (keys fams)).
Proof.
  unfold top_families. rewrite length_firstn. unfold keys. rewrite !length_map.
  rewrite (Permutation_length (sorted_reverse_perm _ _ _ lt fams)). reflexivity.
Qed.

Lemma top_families_NoDup {K : Type} (total : family_rec -> K) (lt : K -> K -> bool)
  (fams : families_t) :
  NoDup (keys fams) -> NoDup (top_families total lt fams).
Proof.
  intros H. unfold top_families. apply NoDup_firstn.
  apply (Permutation_NoDup (l := keys fams)); [|exact H].
  unfold keys. apply Permutation_map. apply Permutation_sym.
  apply sorted_reverse_perm.
Qed.

Lemma top_families_all {K : Type} (total : family_rec -> K) (lt : K -> K -> bool)
  (fams : families_t) :
  (List.length (keys fams) <= topN)%nat ->
  Permutation (top_families total lt fams) (keys fams).
Proof.
  intros H. unfold top_families. rewrite firstn_all2.
  - unfold keys. apply Permutation_map. apply sorted_reverse_perm.
  - unfold keys in *. rewrite length_map in *.
    rewrite (Permutation_length (sorted_reverse_perm _ _ _ lt fams)). exact H.
Qed.

End Facts.
End TopSize.

Module TopRender.
Import PlotTopFamilies TopFacts TopPlots.

Section Facts.
Context {B : Builtins}.

Lemma colours_NoDup : NoDup colours.
Proof.
  assert (H : nodup string_dec colours = colours) by (vm_compute; reflexivity).
  rewrite <- H. apply NoDup_nodup.
Qed.

Lemma plot_loop_keys_top {A : Type} (fams : families_t) (metric : family_rec -> list A)
  (names : list string) (j : nat) (acc : list (line A)) :
  (forall k, In k names -> In k (keys fams)) ->
  (j + List.length names <= List.length colours)%nat ->
  exists ls,
    for_each (fun jn : nat * string =>
                let (j, family_name) := jn in
                r <- lift (dict_get family_name fams) ;;
                c <- lift (getitem colours j) ;;
                modify (fun acc => acc ++ [mk_line family_name c (month r) (metric r)]))
             (enumerate_from j names) acc = (Ok tt, acc ++ ls) /\
    Forall2 (fun k ln =>
               label ln = k /\
               exists v, dict_get k fams = Ok v /\ xs ln = month v /\ ys ln = metric v)
            names ls /\
    firstn j colours ++ map (@colour A) ls = firstn (j + List.length names) colours.
Proof.
  set (body := fun jn : nat * string =>
                 let (j, family_name) := jn in
                 r <- lift (dict_get family_name fams) ;;
                 c <- lift (getitem colours j) ;;
                 modify (fun acc : list (line A) =>
                           acc ++ [mk_line family_name c (month r) (metric r)])).
  revert j acc. induction names as [|k names IH]; intros j acc Hk Hj;
    cbn [enumerate_from for_each].
  - exists []. unfold ret. cbn [List.length map]. rewrite !app_nil_r, Nat.add_0_r.
    split; [reflexivity|]. split; [constructor | reflexivity].
  - destruct (dict_get_key k fams (Hk k (or_introl eq_refl))) as [v Hv].
    change (List.length (k :: names)) with (S (List.length names)) in Hj.
    destruct (nth_error colours j) as [c|] eqn:Hc.
    2:{ apply nth_error_None in Hc. lia. }
    assert (Hbody : body (j, k) acc = (Ok tt, acc ++ [mk_line k c (month v) (metric v)])).
    { unfold body, bind, lift, modify, getitem. rewrite Hv, Hc. reflexivity. }
    unfold bind at 1. rewrite Hbody.
    destruct (IH (S j) (acc ++ [mk_line k c (month v) (metric v)])) as [ls [Hls [Hp Hcol]]].
    { intros k' Hk'. apply Hk. right. exact Hk'. }
    { lia. }
    exists (mk_line k c (month v) (metric v) :: ls). split; [|split].
    + rewrite Hls, <- app_assoc. reflexivity.
    + constructor; [|exact Hp]. simpl. split; [reflexivity|].
      exists v. repeat split. exact Hv.
    + rewrite (firstn_snoc j colours c Hc), <- app_assoc in Hcol.
      change (List.length (k :: names)) with (S (List.length names)).
      replace (j + S (List.length names))%nat with (S j + List.length names)%nat by lia.
      exact Hcol.
Qed.

Lemma plot_lines_keys_top {A : Type} (fams : families_t) (metric : family_rec -> list A)
  (names : list string) :
  (forall k, In k names -> In k (keys fams)) ->
  (List.length names <= List.length colours)%nat ->
  exists ls, plot_lines fams metric names = Ok ls /\ plots fams metric names ls.
Proof.
  intros Hk Hlen.
  destruct (plot_loop_keys_top fams metric names 0 [] Hk Hlen) as [ls [Hls [Hp Hc]]].
  exists ls. unfold plot_lines. rewrite Hls. split; [reflexivity|].
  split; [exact Hp | exact Hc].
Qed.

Lemma top_families_plots {A K : Type} (total : family_rec -> K) (lt : K -> K -> bool)
  (metric : family_rec -> list A) (fams : families_t) :
  exists ls, plot_lines fams metric (top_families total lt fams) = Ok ls /\
             plots fams metric (top_families total lt fams) ls.
Proof.
  apply plot_lines_keys_top.
  - intros k. apply top_families_keys.
  - rewrite TopSize.top_families_length.
    pose proof (Nat.le_min_l topN (List.length (keys fams))) as Hmin.
    change (List.length colours) with 25%nat. unfold topN in *. lia.
Qed.

(** The figure is drawn from any state. *)
Lemma render_total_top (s : state) :
  exists fig,
    render s = Ok fig /\
    plots (families s) count (top_families_count (families s)) (panel_count fig) /\
    plots (families s) sum_btc (top_families_btc (families s)) (panel_btc fig) /\
    plots (families s) sum_usd (top_families_usd (families s)) (panel_usd fig) /\
    xlim fig = (min_month s, max_month s) /\
    title_months fig = (min_month s, max_month s).
Proof.
  unfold render.
  destruct (top_families_plots total_count int_lt count (families s)) as [pc [Hc Hpc]].
  destruct (top_families_plots total_sum_btc PrimFloat.ltb sum_btc (families s))
    as [pb [Hb Hpb]].
  destruct (top_families_plots total_sum_usd PrimFloat.ltb sum_usd (families s))
    as [pu [Hu Hpu]].
  unfold top_families_count, top_families_btc, top_families_usd.
  rewrite Hc, Hb, Hu. eexists. split; [reflexivity|].
  cbn [panel_count panel_btc panel_usd xlim title_months].
  split; [exact Hpc|]. split; [exact Hpb|]. split; [exact Hpu|].
  split; reflexivity.
Qed.

Lemma plots_colours {A : Type} (fams : families_t) (metric : family_rec -> list A)
  (names : list string) (ls : list (line A)) :
  plots fams metric names ls -> NoDup (map (@colour A) ls).
Proof.
  intros [_ H]. rewrite H. apply NoDup_firstn. apply colours_NoDup.
Qed.

Lemma plots_square_top {A : Type} (lines : list string) (s : state)
  (metric : family_rec -> list A) (names : list string) (ls : list (line A)) :
  (forall k v, In (k, v) (families s) -> List.length (month v) = List.length (metric v)) ->
  plots (families s) metric names ls ->
  Forall (fun ln => List.length (xs ln) = List.length (ys ln)) ls.
Proof.
  intros Hlen [Hp _]. induction Hp as [|k ln names ls [_ [v [Hv [Hx Hy]]]] _ IH].
  - constructor.
  - constructor; [|exact IH]. rewrite Hx, Hy. apply (Hlen k).
    apply dict_get_Ok_In. exact Hv.
Qed.

End Facts.
End TopRender.

Module TopMonths.
Import PlotTopFamilies TopFacts.

Section Facts.
Context {B : Builtins}.

Lemma fold_store_months (recs : list record) (s : state) :
  min_month (fold_left (fun acc r => store_state r acc) recs s) =
    fold_left dt_min (map rec_month recs) (min_month s) /\
  max_month (fold_left (fun acc r => store_state r acc) recs s) =
    fold_left dt_max (map rec_month recs) (max_month s).
Proof.
  revert s. induction recs as [|r recs IH]; intros s; simpl; [split; reflexivity|].
  destruct (IH (store_state r s)) as [H1 H2]. rewrite H1, H2. split; reflexivity.
Qed.

Lemma ingest_months_fold (lines : list string) (s : state) :
  ingest lines = (Ok tt, s) ->
  min_month s = fold_left dt_min (map rec_month (records lines)) datetime_max /\
  max_month s = fold_left dt_max (map rec_month (records lines)) datetime_min.
Proof.
  intros H. pose proof (ingest_well_formed_top lines s H) as Hwf.
  unfold ingest in H. rewrite (for_each_body_ok_top _ _ Hwf) in H.
  inversion H. apply fold_store_months.
Qed.

End Facts.
End TopMonths.

Module MonthsRender.
Import PlotMonths MonthsFacts MonthsCalls.

Section Panel.
Context {A : Type} `{Num A}.
Variable months : list datetime.
Variable y_values : list A.
Variable epsilon : A.
Hypothesis same_length : List.length months = List.length y_values.

Lemma texts_of_calls (h : halign) (js : list nat) :
  (forall j, In j js -> (j < List.length y_values)%nat) ->
  map (fun t => (point t, ha t)) (texts_of months y_values h js) =
  map (fun j => (j, h)) js.
Proof.
  induction js as [|j js IH]; intros Hjs; [reflexivity|].
  change (j :: js) with ([j] ++ js). rewrite (texts_of_app months y_values h [j] js).
  rewrite !map_app, IH by (intros i Hi; apply Hjs; right; exact Hi).
  f_equal.
  destruct (text_at_in_range months y_values same_length j h) as [m [y [_ [_ Ht]]]];
    [apply Hjs; left; reflexivity|].
  unfold texts_of. simpl. rewrite Ht. reflexivity.
Qed.

(** A panel that is drawn: its line, its limits and its text calls. *)
Lemma render_panel_calls (colour title : string) (p : panel A) :
  render_panel months y_values epsilon colour title = Ok p ->
  calls p = expected_calls y_values epsilon /\
  plot_x p = months /\ plot_y p = y_values /\
  getitem months 0 = Ok (fst (xlim p)) /\ getlast months = Ok (snd (xlim p)).
Proof.
  unfold render_panel. intros Hp.
  destruct (getitem months 0) as [first|e] eqn:Hfirst; [|discriminate].
  destruct (getlast months) as [last|e] eqn:Hlast; [|discriminate].
  assert (Hne : y_values <> []).
  { intros E. rewrite E in same_length. destruct months; [discriminate Hfirst|].
    simpl in same_length. lia. }
  rewrite (annotate_spec months y_values epsilon same_length Hne) in Hp.
  inversion Hp; subst p; clear Hp.
  assert (Hlen : (0 < List.length y_values)%nat).
  { destruct y_values; [congruence | simpl; lia]. }
  unfold calls, expected_calls. cbn [texts plot_x plot_y xlim fst snd].
  split; [|repeat split].
  rewrite (map_app _ (texts_of months y_values Center _) _).
  rewrite (map_app _ (texts_of months y_values Left [0%nat])
                   (texts_of months y_values Right [(List.length y_values - 1)%nat])).
  rewrite (texts_of_calls Center).
  2:{ intros j Hj. apply filter_In in Hj. destruct Hj as [Hj _].
      apply (range_In months y_values same_length) in Hj. lia. }
  rewrite (texts_of_calls Left [0%nat]) by (intros j [Hj|[]]; subst j; lia).
  rewrite (texts_of_calls Right [(List.length y_values - 1)%nat])
    by (intros j [Hj|[]]; subst j; lia).
  reflexivity.
Qed.

End Panel.

Section Facts.
Context {B : Builtins}.

(** The three panels of a figure that is drawn. *)
Lemma render_panels (s : state) (fig : figure) :
  render s = Ok fig ->
  render_panel (months s) (count s) epsilon_count
               "blue" "Number of transactions" = Ok (panel_count fig) /\
  render_panel (months s) (amount_btc s) epsilon_btc
               "green" "Payment sum in BTC" = Ok (panel_btc fig) /\
  render_panel (months s) (amount_usd s) epsilon_usd
               "red" "Payment sum in USD (in millions)" = Ok (panel_usd fig).
Proof.
  unfold render. intros Hr.
  destruct (render_panel (months s) (count s) _ _ _) as [pc|e]; [|discriminate].
  destruct (render_panel (months s) (amount_btc s) _ _ _) as [pb|e]; [|discriminate].
  destruct (render_panel (months s) (amount_usd s) _ _ _) as [pu|e]; [|discriminate].
  destruct (getitem (months s) 0); [|discriminate].
  destruct (getlast (months s)); [|discriminate].
  inversion Hr. repeat split.
Qed.

End Facts.
End MonthsRender.

Module CountPeaks.
Import PlotMonths MonthsCalls.

Lemma In_expected_center {A : Type} `{Num A} (y_values : list A) (epsilon : A) (j : nat) :
  In (j, Center) (expected_calls y_values epsilon) -> is_peak y_values epsilon j = true.
Proof.
  unfold expected_calls. intros Hin. apply in_app_or in Hin. destruct Hin as [Hin|Hin].
  - apply in_map_iff in Hin. destruct Hin as [i [E Hi]]. inversion E; subst i.
    apply filter_In in Hi. apply Hi.
  - destruct Hin as [E|[E|[]]]; discriminate.
Qed.

(** Two neighbours are not both more than 75 above each other. *)
Lemma count_peaks_not_adjacent (y_values : list Z) (j : nat) :
  is_peak y_values epsilon_count j = true ->
  is_peak y_values epsilon_count (S j) = false.
Proof.
  unfold is_peak. replace (S j - 1)%nat with j by lia.
  replace (j + 1)%nat with (S j) by lia.
  destruct (nth_error y_values j) as [y|]; [|discriminate].
  destruct (nth_error y_values (j - 1)) as [l|]; [|discriminate].
  destruct (nth_error y_values (S j)) as [r|]; [|discriminate].
  destruct (nth_error y_values (S j + 1)) as [r'|]; [|reflexivity].
  unfold num_gt, num_add, num_int, epsilon_count. intros H.
  apply andb_prop in H. destruct H as [_ H]. apply Z.gtb_lt in H.
  apply andb_false_iff. left. rewrite Z.gtb_ltb. apply Z.ltb_ge. lia.
Qed.

End CountPeaks.

(** ** Tick labels *)

Module TicksFacts.
Import Ticks.

Local Abbreviation is_comma c := (Ascii.eqb c ","%char).

Lemma uint_chars_no_comma (u : Decimal.uint) :
  Forall (fun c => is_comma c = false)
         (list_ascii_of_string (NilEmpty.string_of_uint u)).
Proof.
  induction u; simpl; constructor; try assumption; reflexivity.
Qed.

Lemma digits_no_comma (n : Z) : Forall (fun c => is_comma c = false) (digits n).
Proof.
  unfold digits, NilZero.string_of_uint.
  destruct (N.to_uint (Z.abs_N n)) eqn:E; try (rewrite <- E; apply uint_chars_no_comma).
  repeat constructor.
Qed.

Lemma digits_nonempty (n : Z) : digits n <> [].
Proof.
  unfold digits, NilZero.string_of_uint.
  destruct (N.to_uint (Z.abs_N n)) eqn:E; simpl; try discriminate.
Qed.

(** Induction in steps of three, as [group3] recurs. *)
Lemma by_threes (P : list ascii -> Prop) :
  P [] -> (forall a, P [a]) -> (forall a b, P [a; b]) -> (forall a b c, P [a; b; c]) ->
  (forall a b c d rest, P (d :: rest) -> P (a :: b :: c :: d :: rest)) ->
  forall l, P l.
Proof.
  intros H0 H1 H2 H3 Hstep l.
  assert (H : forall n l, (List.length l <= n)%nat -> P l).
  { clear l. induction n as [|n IH]; intros l Hl.
    - destruct l; [exact H0 | simpl in Hl; lia].
    - destruct l as [|a [|b [|c [|d rest]]]]; auto.
      apply Hstep. apply IH. simpl in Hl |- *. lia. }
  apply (H (List.length l) l). lia.
Qed.

Lemma group3_without (l : list ascii) :
  Forall (fun c => is_comma c = false) l ->
  filter (fun c => negb (is_comma c)) (group3 l) = l.
Proof.
  induction l as [| | | |a b c d rest IH] using by_threes; intros H.
  1-4: simpl; repeat match goal with
         | H : Forall _ (_ :: _) |- _ => inversion H; clear H; subst
         end;
       repeat match goal with E : is_comma _ = false |- _ => rewrite E; clear E end;
       reflexivity.
  inversion H as [|? ? Ha H']; subst. inversion H' as [|? ? Hb H'']; subst.
  inversion H'' as [|? ? Hc H''']; subst.
  change (group3 (a :: b :: c :: d :: rest))
    with (a :: b :: c :: ","%char :: group3 (d :: rest)).
  cbn [filter]. rewrite Ha, Hb, Hc. cbn [negb]. 
  change (is_comma ","%char) with true. cbn [negb]. rewrite (IH H'''). reflexivity.
Qed.

Lemma group3_length (l : list ascii) :
  List.length (group3 l) = (List.length l + (List.length l - 1) / 3)%nat.
Proof.
  induction l as [| | | |a b c d rest IH] using by_threes; try reflexivity.
  change (group3 (a :: b :: c :: d :: rest))
    with (a :: b :: c :: ","%char :: group3 (d :: rest)).
  cbn [List.length] in *. rewrite IH.
  replace (S (S (S (S (List.length rest)))) - 1)%nat
    with (S (List.length rest) - 1 + 1 * 3)%nat by lia.
  rewrite Nat.div_add by lia. lia.
Qed.

Lemma group3_commas (l : list ascii) (i : nat) (x : ascii) :
  Forall (fun c => is_comma c = false) l ->
  nth_error (group3 l) i = Some x ->
  (is_comma x = true <-> i mod 4 = 3%nat).
Proof.
  revert i. induction l as [| | | |a b c d rest IH] using by_threes; intros i H Hx.
  - destruct i; discriminate.
  - inversion H; subst. destruct i as [|[|i]]; simpl in Hx; try discriminate.
    inversion Hx; subst. split; [congruence | discriminate].
  - inversion H as [|? ? Ha H']; subst. inversion H'; subst.
    destruct i as [|[|[|i]]]; simpl in Hx; try discriminate;
      inversion Hx; subst; (split; [congruence | discriminate]).
  - inversion H as [|? ? Ha H']; subst. inversion H' as [|? ? Hb H'']; subst.
    inversion H''; subst.
    destruct i as [|[|[|[|i]]]]; simpl in Hx; try discriminate;
      inversion Hx; subst; (split; [congruence | discriminate]).
  - inversion H as [|? ? Ha H']; subst. inversion H' as [|? ? Hb H'']; subst.
    inversion H'' as [|? ? Hc H''']; subst.
    change (group3 (a :: b :: c :: d :: rest))
      with (a :: b :: c :: ","%char :: group3 (d :: rest)) in Hx.
    destruct i as [|[|[|[|i]]]].
    + inversion Hx; subst. split; [congruence | discriminate].
    + inversion Hx; subst. split; [congruence | discriminate].
    + inversion Hx; subst. split; [congruence | discriminate].
    + inversion Hx; subst. split; reflexivity.
    + cbn [nth_error] in Hx. rewrite (IH i H''' Hx).
      replace (S (S (S (S i)))) with (i + 1 * 4)%nat by lia.
      rewrite Nat.Div0.mod_add. reflexivity.
Qed.

Lemma format_comma_nonneg (n : Z) :
  (0 <= n)%Z ->
  list_ascii_of_string (format_comma n) = rev (group3 (rev (digits n))).
Proof.
  intros H. unfold format_comma. destruct (Z.ltb_spec n 0); [lia|].
  apply list_ascii_of_string_of_list_ascii.
Qed.

Lemma without_commas_body (n : Z) :
  filter (fun c => negb (Ascii.eqb c ","%char)) (rev (group3 (rev (digits n)))) =
  digits n.
Proof.
  rewrite filter_rev.
  rewrite (group3_without (rev (digits n))).
  - apply rev_involutive.
  - apply Forall_rev. apply digits_no_comma.
Qed.

(** The floats of a magnitude below 1. *)
Lemma digits2_pos_bound (p : positive) : (Z.pos p < 2 ^ Z.pos (digits2_pos p))%Z.
Proof.
  induction p as [p IH|p IH|]; simpl digits2_pos;
    rewrite ?Pos2Z.inj_succ, ?Z.pow_succ_r by lia; lia.
Qed.

Lemma canonical_bound (m : positive) (e : Z) :
  bounded prec emax m e = true -> (Z.pos m < 2 ^ 53)%Z.
Proof.
  unfold bounded, canonical_mantissa, fexp. intros H.
  apply andb_prop in H. destruct H as [H _]. apply Z.eqb_eq in H.
  pose proof (digits2_pos_bound m) as Hd.
  assert (Hle : (Z.pos (digits2_pos m) <= 53)%Z).
  { change prec with 53%Z in H. lia. }
  apply (Z.lt_le_trans _ _ _ Hd). apply Z.pow_le_mono_r; lia.
Qed.

Lemma below_one_shift (m : positive) (e : Z) :
  bounded prec emax m e = true ->
  SFltb (S754_finite false m e) (Prim2SF 1) = true ->
  Z.shiftl (Z.pos m) e = 0%Z.
Proof.
  intros Hb. pose proof (canonical_bound m e Hb) as Hm. clear Hb.
  change (Prim2SF 1) with (S754_finite false 4503599627370496 (-52)).
  unfold SFltb, SFcompare.
  destruct (Z.compare_spec e (-52)) as [E|E|E]; try discriminate.
  - rewrite Pos.compare_cont_spec. unfold Pos.switch_Eq.
    destruct (Pos.compare_spec m 4503599627370496) as [E'|E'|E']; try discriminate.
    intros _. subst e. clear Hm.
    rewrite Z.shiftl_div_pow2 by (apply Z.leb_le; reflexivity).
    apply Z.div_small. split; [apply Pos2Z.is_nonneg|].
    change (2 ^ (- -52))%Z with (Z.pos 4503599627370496).
    apply Pos2Z.pos_lt_pos. exact E'.
  - intros _. assert (He : (53 <= - e)%Z) by (clear Hm; lia).
    rewrite Z.shiftl_div_pow2 by (clear Hm; lia). apply Z.div_small.
    split; [apply Pos2Z.is_nonneg|]. apply (Z.lt_le_trans _ _ _ Hm). clear Hm.
    apply Z.pow_le_mono_r; lia.
Qed.

End TicksFacts.


(** * The properties of the specification *)

(** C1, as amended: in the month-timeline script, after the ingestion of
    a file with at least one row, the figure is drawn and, for each of the
    three metrics, a point of the series has a text annotation exactly
    when it is an interior point whose value exceeds both neighbours by
    more than the metric's epsilon, or it is the first point, or it is the
    last point; for an interior index this is the peak test alone.  Each
    annotation sits at its point and shows the point's value. *)
Theorem peak_annotation_rule {B : Builtins} (lines : list string)
  (s : PlotMonths.state) :
  PlotMonths.ingest lines = (Ok tt, s) ->
  skipn 1 lines <> [] ->
  exists fig,
    PlotMonths.render s = Ok fig /\
    PlotMonths.annotation_rule (PlotMonths.months s) (PlotMonths.count s)
      PlotMonths.epsilon_count (PlotMonths.panel_count fig) /\
    PlotMonths.annotation_rule (PlotMonths.months s) (PlotMonths.amount_btc s)
      PlotMonths.epsilon_btc (PlotMonths.panel_btc fig) /\
    PlotMonths.annotation_rule (PlotMonths.months s) (PlotMonths.amount_usd s)
      PlotMonths.epsilon_usd (PlotMonths.panel_usd fig).
Proof.
  intros Hin Hrows.
  pose proof (MonthsFacts.ingest_balanced lines s Hin) as Hbal.
  pose proof (MonthsFacts.ingest_months_nonempty lines s Hin Hrows) as Hne.
  destruct (MonthsFacts.render_total s Hbal Hne) as [fig Hr].
  exists fig. split; [exact Hr|].
  destruct Hbal as (Hc & Hb & Hu). unfold PlotMonths.render in Hr.
  destruct (PlotMonths.render_panel (PlotMonths.months s) (PlotMonths.count s) _ _ _)
    as [pc|e] eqn:Ec; [|discriminate].
  destruct (PlotMonths.render_panel (PlotMonths.months s) (PlotMonths.amount_btc s) _ _ _)
    as [pb|e] eqn:Eb; [|discriminate].
  destruct (PlotMonths.render_panel (PlotMonths.months s) (PlotMonths.amount_usd s) _ _ _)
    as [pu|e] eqn:Eu; [|discriminate].
  destruct (getitem (PlotMonths.months s) 0); [|discriminate].
  destruct (getlast (PlotMonths.months s)); [|discriminate].
  inversion Hr; subst fig; clear Hr.
  cbn [PlotMonths.panel_count PlotMonths.panel_btc PlotMonths.panel_usd].
  split; [|split].
  - apply (MonthsFacts.render_panel_rule _ _ _ (eq_sym Hc) _ _ _ Ec).
  - apply (MonthsFacts.render_panel_rule _ _ _ (eq_sym Hb) _ _ _ Eb).
  - apply (MonthsFacts.render_panel_rule _ _ _ (eq_sym Hu) _ _ _ Eu).
Qed.

(** The rule of C1 on a file with a peak in each series: the second point
    is the only interior point and has an annotation in each panel. *)
Lemma peak_annotation_rule_witness :
  PlotMonths.ingest months_file = (Ok tt, snd (PlotMonths.ingest months_file)) /\
  skipn 1 months_file <> [] /\
  exists fig,
    PlotMonths.render (snd (PlotMonths.ingest months_file)) = Ok fig /\
    PlotMonths.annotated (PlotMonths.texts (PlotMonths.panel_count fig)) 1 = true /\
    PlotMonths.annotated (PlotMonths.texts (PlotMonths.panel_btc fig)) 1 = true /\
    PlotMonths.annotated (PlotMonths.texts (PlotMonths.panel_usd fig)) 1 = true.
Proof.
  assert (Hin : PlotMonths.ingest months_file =
                (Ok tt, snd (PlotMonths.ingest months_file)))
    by (vm_compute; reflexivity).
  assert (Hrows : skipn 1 months_file <> []) by (simpl; discriminate).
  split; [exact Hin|]. split; [exact Hrows|].
  destruct (@peak_annotation_rule ascii_builtins months_file _ Hin Hrows)
    as [fig [Hr [[_ [Hc _]] [[_ [Hb _]] [_ [Hu _]]]]]].
  exists fig. split; [exact Hr|].
  split; [|split].
  - destruct (Hc 1%nat) as [_ H]; [vm_compute; lia|]. apply H. vm_compute. reflexivity.
  - destruct (Hb 1%nat) as [_ H]; [vm_compute; lia|]. apply H. vm_compute. reflexivity.
  - destruct (Hu 1%nat) as [_ H]; [vm_compute; lia|]. apply H. vm_compute. reflexivity.
Defined.

(** C1 as stated fails: the first point of a series is annotated although
    it is not an interior peak. *)
Lemma first_point_is_annotated :
  exists s fig,
    PlotMonths.ingest months_file = (Ok tt, s) /\
    PlotMonths.render s = Ok fig /\
    ~ (forall j, PlotMonths.annotated (PlotMonths.texts (PlotMonths.panel_count fig)) j = true <->
                 PlotMonths.interior_peak (PlotMonths.count s) PlotMonths.epsilon_count j = true).
Proof.
  eexists. eexists. split; [vm_compute; reflexivity|].
  split; [vm_compute; reflexivity|].
  intros H. specialize (H 0%nat). vm_compute in H. destruct H as [H _].
  discriminate (H eq_refl).
Qed.

(** C2, as amended: for every well-formed file, the keys of the mapping
    built by [plot_families.py] are exactly the distinct category labels
    of the rows after the header whose month field is not ["Total"], and
    there are as many; in [plot_top_families.py] they are those labels
    other than ["BlackCat"]. *)
Theorem category_keys {B : Builtins} (lines : list string) :
  (PlotFamilies.well_formed lines = true ->
   exists fams,
     PlotFamilies.ingest lines = (Ok tt, fams) /\
     (forall k, In k (keys fams) <-> In k (PlotFamilies.labels lines)) /\
     NoDup (keys fams) /\
     List.length (keys fams) =
       List.length (nodup string_dec (PlotFamilies.labels lines))) /\
  (PlotTopFamilies.well_formed lines = true ->
   exists s,
     PlotTopFamilies.ingest lines = (Ok tt, s) /\
     (forall k, In k (keys (PlotTopFamilies.families s)) <->
                In k (PlotTopFamilies.labels lines) /\ k <> "BlackCat") /\
     NoDup (keys (PlotTopFamilies.families s)) /\
     List.length (keys (PlotTopFamilies.families s)) =
       List.length (nodup string_dec
                      (filter (fun k => negb (String.eqb k "BlackCat"))
                              (PlotTopFamilies.labels lines)))).
Proof.
  split; intros Hwf.
  - exists (group rec_family PlotFamilies.append_record PlotFamilies.new_family
                  (PlotFamilies.records lines) []).
    pose proof (FamiliesFacts.ingest_group lines Hwf) as Hin.
    pose proof (FamiliesFacts.ingest_keys lines _ Hin) as Hk.
    rewrite (FamiliesFacts.records_labels lines Hwf) in Hk.
    split; [exact Hin|]. rewrite Hk. split; [|split].
    + intros k. apply first_seen_In.
    + apply first_seen_NoDup.
    + apply first_seen_length.
  - destruct (TopFacts.ingest_group_top lines Hwf) as [s [Hin _]].
    exists s. pose proof (TopFacts.ingest_keys_top lines s Hin) as Hk.
    rewrite (TopFacts.records_labels_top lines Hwf) in Hk.
    split; [exact Hin|]. rewrite Hk. split; [|split].
    + intros k. rewrite first_seen_In, filter_In, negb_true_iff, String.eqb_neq. tauto.
    + apply first_seen_NoDup.
    + apply first_seen_length.
Qed.

(** C2 on the file of the round trip and on a file with rows of the
    excluded family. *)
Lemma category_keys_witness :
  PlotFamilies.well_formed acme_file = true /\
  PlotTopFamilies.well_formed ranking_file = true /\
  (exists fams,
     PlotFamilies.ingest acme_file = (Ok tt, fams) /\
     List.length (keys fams) =
       List.length (nodup string_dec (PlotFamilies.labels acme_file))) /\
  (exists s,
     PlotTopFamilies.ingest ranking_file = (Ok tt, s) /\
     NoDup (keys (PlotTopFamilies.families s))).
Proof.
  split; [vm_compute; reflexivity|]. split; [vm_compute; reflexivity|].
  destruct (@category_keys ascii_builtins acme_file) as [Hf _].
  destruct (@category_keys ascii_builtins ranking_file) as [_ Ht].
  split.
  - destruct Hf as [fams [Hin [_ [_ Hlen]]]]; [vm_compute; reflexivity|].
    exists fams. split; assumption.
  - destruct Ht as [s [Hin [_ [Hnd _]]]]; [vm_compute; reflexivity|].
    exists s. split; assumption.
Defined.

(** C2 as stated fails in the top-N script: the label ["BlackCat"] of a
    well-formed file is not a key. *)
Lemma blackcat_label_is_no_key :
  PlotFamilies.well_formed blackcat_file = true /\
  PlotTopFamilies.well_formed blackcat_file = true /\
  exists s,
    PlotTopFamilies.ingest blackcat_file = (Ok tt, s) /\
    ~ (forall k, In k (keys (PlotTopFamilies.families s)) <->
                 In k (PlotTopFamilies.labels blackcat_file)).
Proof.
  split; [vm_compute; reflexivity|]. split; [vm_compute; reflexivity|].
  eexists. split; [vm_compute; reflexivity|].
  intros H. specialize (H "BlackCat"). vm_compute in H. destruct H as [_ H].
  apply H. left. reflexivity.
Qed.

(** C3: after ingestion the bucketing loop ends without an exception; its
    three lists together are a rearrangement of the keys, without repeats;
    a family is in the list of a bucket exactly when that is the bucket of
    the maximum of its USD sums; a maximum below 1000 is small, one from
    1000 and below 50000 is medium, one from 50000 is large; and a larger
    maximum never has a smaller bucket. *)
Theorem threshold_bucketing {B : Builtins} (lines : list string)
  (fams : PlotFamilies.families_t) :
  PlotFamilies.ingest lines = (Ok tt, fams) ->
  exists b,
    PlotFamilies.bucketing fams = (Ok tt, b) /\
    Permutation (PlotFamilies.small b ++ PlotFamilies.medium b ++ PlotFamilies.large b)
                (keys fams) /\
    NoDup (PlotFamilies.small b ++ PlotFamilies.medium b ++ PlotFamilies.large b) /\
    (forall k, In k (keys fams) ->
       exists m, PlotFamilies.max_usd fams k = Some m /\
                 forall c, In k (PlotFamilies.members b c) <-> c = PlotFamilies.classify m) /\
    (forall m,
       (PrimFloat.ltb m PlotFamilies.SMALL_THRESHOLD = true ->
        PlotFamilies.classify m = PlotFamilies.Small) /\
       (PrimFloat.leb PlotFamilies.SMALL_THRESHOLD m = true ->
        PrimFloat.ltb m PlotFamilies.MEDIUM_THRESHOLD = true ->
        PlotFamilies.classify m = PlotFamilies.Medium) /\
       (PrimFloat.leb PlotFamilies.MEDIUM_THRESHOLD m = true ->
        PlotFamilies.classify m = PlotFamilies.Large)) /\
    (forall m1 m2, PrimFloat.leb m1 m2 = true ->
       (PlotFamilies.bucket_rank (PlotFamilies.classify m1) <=
        PlotFamilies.bucket_rank (PlotFamilies.classify m2))%nat).
Proof.
  intros Hin.
  assert (Hmax : forall k, In k (keys fams) -> exists m, PlotFamilies.max_usd fams k = Some m).
  { intros k Hk. apply (FamiliesFacts.ingest_max_usd lines fams k Hin Hk). }
  assert (Hnd : NoDup (keys fams)).
  { rewrite (FamiliesFacts.ingest_keys lines fams Hin). apply first_seen_NoDup. }
  pose proof (FamiliesFacts.keys_in_partition fams (keys fams) Hmax) as Hperm.
  eexists. split; [|split; [|split; [|split; [|split]]]].
  - unfold PlotFamilies.bucketing. apply FamiliesFacts.bucket_loop_spec. exact Hmax.
  - simpl. exact Hperm.
  - simpl. apply (Permutation_NoDup (Permutation_sym Hperm) Hnd).
  - intros k Hk. destruct (Hmax k Hk) as [m Hm]. exists m. split; [exact Hm|].
    intros c. destruct c; simpl;
      rewrite (FamiliesFacts.keys_in_In fams _ (keys fams) k m Hm);
      (split; [intros [_ H]; symmetry; exact H
              | intros H; split; [exact Hk | symmetry; exact H]]).
  - apply FamiliesFacts.classify_thresholds.
  - apply FamiliesFacts.classify_monotone.
Qed.

(** C3 on the file of the round trip: the maximum of Acme is 700 and Acme
    is in the small bucket. *)
Lemma threshold_bucketing_witness :
  PlotFamilies.ingest acme_file = (Ok tt, snd (PlotFamilies.ingest acme_file)) /\
  PlotFamilies.max_usd (snd (PlotFamilies.ingest acme_file)) "Acme" = Some 700%float /\
  exists b,
    PlotFamilies.bucketing (snd (PlotFamilies.ingest acme_file)) = (Ok tt, b) /\
    In "Acme" (PlotFamilies.small b).
Proof.
  assert (Hin : PlotFamilies.ingest acme_file =
                (Ok tt, snd (PlotFamilies.ingest acme_file)))
    by (vm_compute; reflexivity).
  assert (Hmax : PlotFamilies.max_usd (snd (PlotFamilies.ingest acme_file)) "Acme" =
                 Some 700%float)
    by (vm_compute; reflexivity).
  split; [exact Hin|]. split; [exact Hmax|].
  destruct (@threshold_bucketing ascii_builtins acme_file _ Hin)
    as [b [Hb [_ [_ [Hm _]]]]].
  exists b. split; [exact Hb|].
  destruct (Hm "Acme") as [m [Hm' Hc]]; [vm_compute; left; reflexivity|].
  apply (Hc PlotFamilies.Small). rewrite Hmax in Hm'. inversion Hm'. reflexivity.
Defined.

(** C4: after ingestion, each of the three top lists is the first 15 names
    of a ranking of all categories in descending order of the metric's
    running total, categories with tying totals in the order of the first
    rows of theirs in the file; it has at most 15 names and ["BlackCat"]
    is not one of them.  For the BTC and USD totals this is the order of
    numbers: it holds when no total is [nan], which is so for every file
    whose sums are non-negative, as the data model has them. *)
Theorem top_n_ranking {B : Builtins} (lines : list string)
  (s : PlotTopFamilies.state) :
  PlotTopFamilies.ingest lines = (Ok tt, s) ->
  keys (PlotTopFamilies.families s) =
    first_seen (map rec_family (PlotTopFamilies.records lines)) /\
  PlotTopFamilies.ranking_rule PlotTopFamilies.total_count PlotTopFamilies.int_lt
    (PlotTopFamilies.families s)
    (PlotTopFamilies.top_families_count (PlotTopFamilies.families s)) /\
  (Forall (fun item => is_nan (PlotTopFamilies.total_sum_btc (snd item)) = false)
          (PlotTopFamilies.families s) ->
   PlotTopFamilies.ranking_rule PlotTopFamilies.total_sum_btc PrimFloat.ltb
     (PlotTopFamilies.families s)
     (PlotTopFamilies.top_families_btc (PlotTopFamilies.families s))) /\
  (Forall (fun item => is_nan (PlotTopFamilies.total_sum_usd (snd item)) = false)
          (PlotTopFamilies.families s) ->
   PlotTopFamilies.ranking_rule PlotTopFamilies.total_sum_usd PrimFloat.ltb
     (PlotTopFamilies.families s)
     (PlotTopFamilies.top_families_usd (PlotTopFamilies.families s))) /\
  (Forall (fun r => PrimFloat.leb 0 (rec_sum_btc r) = true /\
                    PrimFloat.leb 0 (rec_sum_usd r) = true)
          (PlotTopFamilies.records lines) ->
   Forall (fun item => is_nan (PlotTopFamilies.total_sum_btc (snd item)) = false)
          (PlotTopFamilies.families s) /\
   Forall (fun item => is_nan (PlotTopFamilies.total_sum_usd (snd item)) = false)
          (PlotTopFamilies.families s)).
Proof.
  intros Hin.
  assert (Hk : ~ In "BlackCat" (keys (PlotTopFamilies.families s))).
  { pose proof (TopFacts.for_each_no_blackcat (skipn 1 lines) PlotTopFamilies.init) as H.
    unfold PlotTopFamilies.ingest in Hin. rewrite Hin in H. apply H. simpl. tauto. }
  split; [apply (TopFacts.ingest_keys_top lines s Hin)|].
  split; [|split; [|split]].
  - apply (TopFacts.ranking_rule_holds _ _ (fun _ => True)); auto.
    + intros a b _ _. unfold PlotTopFamilies.int_lt. rewrite Z.ltb_lt, Z.ltb_ge. lia.
    + intros a b c _ _ _. unfold PlotTopFamilies.int_lt. rewrite !Z.ltb_ge. lia.
    + apply Forall_forall. intros; exact I.
  - intros Hnan.
    apply (TopFacts.ranking_rule_holds _ _ (fun x => is_nan x = false)); auto.
    + intros a b _ _. apply float_lt_asym.
    + apply float_lt_negtrans.
  - intros Hnan.
    apply (TopFacts.ranking_rule_holds _ _ (fun x => is_nan x = false)); auto.
    + intros a b _ _. apply float_lt_asym.
    + apply float_lt_negtrans.
  - apply (TopFacts.totals_not_nan lines s Hin).
Qed.

(** C4 on a file with ties. *)
Lemma top_n_ranking_witness :
  PlotTopFamilies.ingest ranking_file =
    (Ok tt, snd (PlotTopFamilies.ingest ranking_file)) /\
  PlotTopFamilies.top_families_count
    (PlotTopFamilies.families (snd (PlotTopFamilies.ingest ranking_file))) =
    ["Conti"; "Ryuk"; "Maze"] /\
  PlotTopFamilies.top_families_btc
    (PlotTopFamilies.families (snd (PlotTopFamilies.ingest ranking_file))) =
    ["Conti"; "Maze"; "Ryuk"] /\
  PlotTopFamilies.ranking_rule PlotTopFamilies.total_sum_btc PrimFloat.ltb
    (PlotTopFamilies.families (snd (PlotTopFamilies.ingest ranking_file)))
    (PlotTopFamilies.top_families_btc
       (PlotTopFamilies.families (snd (PlotTopFamilies.ingest ranking_file)))).
Proof.
  assert (Hin : PlotTopFamilies.ingest ranking_file =
                (Ok tt, snd (PlotTopFamilies.ingest ranking_file)))
    by (vm_compute; reflexivity).
  split; [exact Hin|]. split; [vm_compute; reflexivity|].
  split; [vm_compute; reflexivity|].
  destruct (@top_n_ranking ascii_builtins ranking_file _ Hin)
    as [_ [_ [Hbtc [_ Hnan]]]].
  apply Hbtc. apply Hnan. vm_compute. repeat constructor.
Defined.

(** C5, as amended: in each script ingestion never reads the first line
    of the file.  In the two family scripts a row whose month field is
    ["Total"] is skipped: the file is read as if the row were not there.
    The month script has no such test: a row whose month field is
    ["Total"] goes to the date parser, which rejects it, and the run ends
    with [ValueError]; the row has added nothing to the lists. *)
Theorem header_and_total_rows {B : Builtins} (h h' t : string)
  (pre post : list string) :
  strptime "Total" = None ->
  (PlotFamilies.ingest (h :: pre) = PlotFamilies.ingest (h' :: pre) /\
   PlotTopFamilies.ingest (h :: pre) = PlotTopFamilies.ingest (h' :: pre) /\
   PlotMonths.ingest (h :: pre) = PlotMonths.ingest (h' :: pre)) /\
  (getitem (split file_separator t) 1 = Ok "Total" ->
   PlotFamilies.ingest (h :: pre ++ t :: post) = PlotFamilies.ingest (h :: pre ++ post) /\
   PlotTopFamilies.ingest (h :: pre ++ t :: post) =
     PlotTopFamilies.ingest (h :: pre ++ post)) /\
  (field 0 t = "Total" ->
   forall s, PlotMonths.ingest (h :: pre) = (Ok tt, s) ->
             PlotMonths.ingest (h :: pre ++ t :: post) = (Raise ValueError, s)).
Proof.
  intros Hs. split; [repeat split|]. split.
  - intros Ht. unfold PlotFamilies.ingest, PlotTopFamilies.ingest. simpl.
    rewrite !for_each_app. simpl. unfold bind. split.
    + destruct (for_each PlotFamilies.body pre []) as [[[]|e] d]; [|reflexivity].
      rewrite (FamiliesFacts.body_total t d Ht). reflexivity.
    + destruct (for_each PlotTopFamilies.body pre PlotTopFamilies.init) as [[[]|e] d];
        [|reflexivity].
      rewrite (TopFacts.body_total_top t d Ht). reflexivity.
  - intros Ht s Hpre. unfold PlotMonths.ingest in *. simpl in *.
    rewrite for_each_app, Hpre. simpl. unfold bind.
    rewrite (MonthsFacts.body_total_months t s Hs Ht). reflexivity.
Qed.

(** C5 on a month file with a row of totals and on a family file with
    one. *)
Lemma header_and_total_rows_witness :
  @strptime ascii_builtins "Total" = None /\
  PlotMonths.ingest months_total_file =
    (Raise ValueError, snd (PlotMonths.ingest months_total_file_without)) /\
  PlotTopFamilies.ingest ranking_file =
    PlotTopFamilies.ingest
      (firstn 5 ranking_file ++ skipn 6 ranking_file).
Proof.
  split; [reflexivity|]. split.
  - destruct (@header_and_total_rows ascii_builtins
                (row "Month,Count,Sum (BTC),Sum (USD)")
                (row "Month,Count,Sum (BTC),Sum (USD)")
                (row "Total,5,0.5,1000000")
                [row "2021-01,5,0.5,1000000"] [] eq_refl) as [_ [_ H]].
    apply H; vm_compute; reflexivity.
  - destruct (@header_and_total_rows ascii_builtins
                (row "Family,Month,Count,Sum (BTC),Sum (USD)")
                (row "Family,Month,Count,Sum (BTC),Sum (USD)")
                (row "Ryuk,Total,7,0.5,300")
                (firstn 4 (skipn 1 ranking_file)) (skipn 6 ranking_file) eq_refl)
      as [_ [H _]].
    destruct H as [_ H]; [vm_compute; reflexivity|]. exact H.
Defined.

(** C5 as stated fails in the month script: with the row of totals the run
    raises, without it the file is read to its end. *)
Lemma months_total_row_not_skipped :
  fst (PlotMonths.ingest months_total_file) = Raise ValueError /\
  fst (PlotMonths.ingest months_total_file_without) = Ok tt /\
  PlotMonths.ingest months_total_file <> PlotMonths.ingest months_total_file_without.
Proof.
  split; [vm_compute; reflexivity|]. split; [vm_compute; reflexivity|].
  intros H. vm_compute in H. discriminate H.
Qed.

(** C6, as amended: a file with a row that is not a row of totals and has
    a month, count or sum that its parser rejects ends the run with an
    uncaught exception, and no row after the failing one is read.  When
    the rows before it are read without an exception, the exception is the
    [ValueError] of that row.  In [plot_families.py] nothing of the row is
    stored then: [families] is what the earlier rows built.  In
    [plot_months.py] the fields before the first rejected one have already
    been appended to their lists, the others not. *)
Theorem malformed_row_aborts {B : Builtins} (h bad : string)
  (pre post : list string)
  (script path : string) (fs : filesystem) :
  fs path = Some (h :: pre ++ bad :: post) ->
  (PlotFamilies.malformed bad ->
   (exists e fams,
      PlotFamilies.ingest (h :: pre ++ bad :: post) = (Raise e, fams) /\
      PlotFamilies.main [script; path] fs = mk_outcome [] [path] (Uncaught e)) /\
   (forall fams,
      PlotFamilies.ingest (h :: pre) = (Ok tt, fams) ->
      PlotFamilies.ingest (h :: pre ++ bad :: post) = (Raise ValueError, fams))) /\
  (PlotMonths.malformed bad ->
   (exists e s,
      PlotMonths.ingest (h :: pre ++ bad :: post) = (Raise e, s) /\
      PlotMonths.main [script; path] fs = mk_outcome [] [path] (Uncaught e)) /\
   (forall s,
      PlotMonths.ingest (h :: pre) = (Ok tt, s) ->
      exists i,
        (i <= 3)%nat /\ PlotMonths.first_rejected bad i /\
        PlotMonths.ingest (h :: pre ++ bad :: post) =
          (Raise ValueError, PlotMonths.partial_state bad i s))).
Proof.
  intros Hfs. split; intros Hbad.
  - assert (Hrow : forall d, PlotFamilies.body bad d = (Raise ValueError, d)).
    { intros d. rewrite FamiliesFacts.body_read_row.
      rewrite (FamiliesFacts.malformed_raises bad Hbad). reflexivity. }
    split.
    + unfold PlotFamilies.main. simpl. rewrite Hfs.
      unfold PlotFamilies.ingest. simpl. rewrite for_each_app.
      destruct (for_each PlotFamilies.body pre []) as [[[]|e] d].
      * simpl. unfold bind. rewrite Hrow. eexists. eexists. split; reflexivity.
      * eexists. eexists. split; reflexivity.
    + intros fams Hpre. unfold PlotFamilies.ingest in *. simpl in *.
      rewrite for_each_app, Hpre. simpl. unfold bind. rewrite Hrow. reflexivity.
  - destruct (MonthsFacts.malformed_first_rejected bad Hbad) as [i [Hi Hfirst]].
    assert (Hrow : forall s, PlotMonths.body bad s =
                             (Raise ValueError, PlotMonths.partial_state bad i s)).
    { intros s. apply (MonthsFacts.body_first_rejected bad i s Hfirst Hi). }
    split.
    + unfold PlotMonths.main. simpl. rewrite Hfs.
      unfold PlotMonths.ingest. simpl. rewrite for_each_app.
      destruct (for_each PlotMonths.body pre PlotMonths.init) as [[[]|e] d].
      * simpl. unfold bind. rewrite Hrow. eexists. eexists. split; reflexivity.
      * eexists. eexists. split; reflexivity.
    + intros s Hpre. exists i. split; [exact Hi|]. split; [exact Hfirst|].
      unfold PlotMonths.ingest in *. simpl in *.
      rewrite for_each_app, Hpre. simpl. unfold bind. rewrite Hrow. reflexivity.
Qed.

(** C6 on a month file and a family file whose second row has a count
    that is not a number. *)
Lemma malformed_row_aborts_witness :
  only_file months_bad_count_file "timeline_months.csv" = Some months_bad_count_file /\
  PlotMonths.malformed (row "2021-02,many,0.25,2000000") /\
  PlotFamilies.malformed (row "Conti,2021-02,many,0.5,300") /\
  (exists e s,
     PlotMonths.ingest months_bad_count_file = (Raise e, s) /\
     PlotMonths.main ["plot_months.py"; "timeline_months.csv"]
                     (only_file months_bad_count_file) =
       mk_outcome [] ["timeline_months.csv"] (Uncaught e)) /\
  PlotFamilies.ingest families_bad_count_file =
    (Raise ValueError, snd (PlotFamilies.ingest (firstn 2 families_bad_count_file))).
Proof.
  assert (Hm : PlotMonths.malformed (row "2021-02,many,0.25,2000000")).
  { exists 1%nat. eexists. split; [lia|]. split; vm_compute; reflexivity. }
  assert (Hf : PlotFamilies.malformed (row "Conti,2021-02,many,0.5,300")).
  { split.
    - eexists. split; vm_compute; reflexivity.
    - exists 2%nat. eexists. split; [lia|]. split; vm_compute; reflexivity. }
  split; [reflexivity|]. split; [exact Hm|]. split; [exact Hf|]. split.
  - destruct (@malformed_row_aborts ascii_builtins
                (row "Month,Count,Sum (BTC),Sum (USD)")
                (row "2021-02,many,0.25,2000000")
                [row "2021-01,5,0.5,1000000"] [row "2021-03,3,0.25,3000000"]
                "plot_months.py" "timeline_months.csv"
                (only_file months_bad_count_file) eq_refl) as [_ H].
    destruct (H Hm) as [Habort _]. exact Habort.
  - destruct (@malformed_row_aborts ascii_builtins
                (row "Family,Month,Count,Sum (BTC),Sum (USD)")
                (row "Conti,2021-02,many,0.5,300")
                [row "Conti,2021-01,5,1.5,100"] [row "Ryuk,2021-02,7,0.5,300"]
                "plot_families.py" "timeline_families.csv"
                (only_file families_bad_count_file) eq_refl) as [H _].
    destruct (H Hf) as [_ Hstate].
    apply (Hstate (snd (PlotFamilies.ingest (firstn 2 families_bad_count_file)))).
    vm_compute. reflexivity.
Defined.

(** C6 as stated fails in the month script: the month of the row with the
    rejected count is in [months] when the run ends. *)
Lemma month_of_rejected_row_is_stored :
  fst (PlotMonths.ingest months_bad_count_file) = Raise ValueError /\
  List.length (PlotMonths.months (snd (PlotMonths.ingest months_bad_count_file))) = 2%nat /\
  List.length (PlotMonths.count (snd (PlotMonths.ingest months_bad_count_file))) = 1%nat /\
  snd (PlotMonths.ingest months_bad_count_file) <>
  snd (PlotMonths.ingest (firstn 2 months_bad_count_file)).
Proof.
  split; [vm_compute; reflexivity|]. split; [vm_compute; reflexivity|].
  split; [vm_compute; reflexivity|].
  intros H. vm_compute in H. discriminate H.
Qed.

(** C7: started with an argument count other than one, each of the three
    scripts prints its usage message and exits with code 1 without opening
    any file. *)
Theorem usage_on_wrong_argument_count {B : Builtins} (script : string)
  (args : list string)
  (fs : filesystem) :
  List.length args <> 1%nat ->
  PlotMonths.main (script :: args) fs =
    mk_outcome [usage script "timeline_months.csv"] [] (Exited 1) /\
  PlotFamilies.main (script :: args) fs =
    mk_outcome [usage script "timeline_families.csv"] [] (Exited 1) /\
  PlotTopFamilies.main (script :: args) fs =
    mk_outcome [usage script "timeline_families.csv"] [] (Exited 1).
Proof.
  intros H. unfold PlotMonths.main, PlotFamilies.main, PlotTopFamilies.main.
  destruct args as [|a [|b args]]; simpl in *; try congruence; repeat split.
Qed.

(** C7 on [plot_months.py] started without an argument. *)
Lemma usage_on_wrong_argument_count_witness :
  List.length (@nil string) <> 1%nat /\
  PlotMonths.main ["plot_months.py"] no_files =
    mk_outcome [usage "plot_months.py" "timeline_months.csv"] [] (Exited 1).
Proof.
  split; [simpl; lia|].
  apply (@usage_on_wrong_argument_count ascii_builtins "plot_months.py" [] no_files).
  simpl. lia.
Defined.

(** C8: in the top-N script a row whose family is ["BlackCat"] is skipped
    before anything else is looked at: the file is read, exception or not,
    as if those rows were not there, so they add no record and do not move
    the minimum and maximum months; ["BlackCat"] is never a key and is in
    none of the three top lists. *)
Theorem blackcat_rows_skipped {B : Builtins} (h : string) (rows : list string) :
  (forall l s, PlotTopFamilies.is_blackcat l = true ->
               PlotTopFamilies.body l s = (Ok tt, s)) /\
  PlotTopFamilies.ingest (h :: rows) =
    PlotTopFamilies.ingest
      (h :: filter (fun l => negb (PlotTopFamilies.is_blackcat l)) rows) /\
  ~ In "BlackCat"
       (keys (PlotTopFamilies.families (snd (PlotTopFamilies.ingest (h :: rows))))) /\
  ~ In "BlackCat"
       (PlotTopFamilies.top_families_count
          (PlotTopFamilies.families (snd (PlotTopFamilies.ingest (h :: rows))))) /\
  ~ In "BlackCat"
       (PlotTopFamilies.top_families_btc
          (PlotTopFamilies.families (snd (PlotTopFamilies.ingest (h :: rows))))) /\
  ~ In "BlackCat"
       (PlotTopFamilies.top_families_usd
          (PlotTopFamilies.families (snd (PlotTopFamilies.ingest (h :: rows))))).
Proof.
  assert (Hk : ~ In "BlackCat"
                 (keys (PlotTopFamilies.families
                          (snd (PlotTopFamilies.ingest (h :: rows)))))).
  { unfold PlotTopFamilies.ingest. simpl. apply TopFacts.for_each_no_blackcat.
    simpl. tauto. }
  split; [exact TopFacts.body_blackcat|]. split.
  - unfold PlotTopFamilies.ingest. simpl. apply TopFacts.for_each_without_blackcat.
  - split; [exact Hk|]. repeat split; intros H; apply Hk;
      apply TopFacts.top_families_keys in H; exact H.
Qed.

(** C9: after ingestion in the two family scripts, the four lists of every
    category hold one item per ingested row of the category, in file
    order, so they have one length; in the top-N script the running
    totals are the sums, from 0 and in file order, of the items of the
    count, BTC and USD lists (the USD list holds each sum of a row divided
    by [usd_factor], which is 1). *)
Theorem series_lengths_and_totals {B : Builtins} (lines : list string) (k : string) :
  (forall fams v,
     PlotFamilies.ingest lines = (Ok tt, fams) -> In (k, v) fams ->
     let rows := PlotFamilies.rows_of k lines in
     PlotFamilies.month v = map rec_month rows /\
     PlotFamilies.count v = map rec_count rows /\
     PlotFamilies.sum_btc v = map rec_sum_btc rows /\
     PlotFamilies.sum_usd v = map rec_sum_usd rows /\
     List.length (PlotFamilies.month v) = List.length rows /\
     List.length (PlotFamilies.count v) = List.length rows /\
     List.length (PlotFamilies.sum_btc v) = List.length rows /\
     List.length (PlotFamilies.sum_usd v) = List.length rows) /\
  (forall s v,
     PlotTopFamilies.ingest lines = (Ok tt, s) -> In (k, v) (PlotTopFamilies.families s) ->
     let rows := PlotTopFamilies.rows_of k lines in
     PlotTopFamilies.month v = map rec_month rows /\
     PlotTopFamilies.count v = map rec_count rows /\
     PlotTopFamilies.sum_btc v = map rec_sum_btc rows /\
     PlotTopFamilies.sum_usd v =
       map (fun r => (rec_sum_usd r / PlotTopFamilies.usd_factor)%float) rows /\
     List.length (PlotTopFamilies.month v) = List.length rows /\
     List.length (PlotTopFamilies.count v) = List.length rows /\
     List.length (PlotTopFamilies.sum_btc v) = List.length rows /\
     List.length (PlotTopFamilies.sum_usd v) = List.length rows /\
     PlotTopFamilies.total_count v = zsum (PlotTopFamilies.count v) /\
     PlotTopFamilies.total_sum_btc v = fsum (PlotTopFamilies.sum_btc v) /\
     PlotTopFamilies.total_sum_usd v = fsum (map rec_sum_usd rows) /\
     PlotTopFamilies.total_sum_usd v = fsum (PlotTopFamilies.sum_usd v)).
Proof.
  split.
  - intros fams v Hin Hv rows.
    rewrite (FamiliesFacts.ingest_entry lines fams k v Hin Hv). simpl.
    rewrite !length_map. repeat split.
  - intros s v Hin Hv rows.
    rewrite (TopFacts.ingest_entry_top lines s k v Hin Hv). simpl.
    rewrite !length_map. repeat split.
    rewrite TopFacts.usd_list_unscaled. reflexivity.
Qed.

(** C9 on a file with two rows of one family. *)
Lemma series_lengths_and_totals_witness :
  exists v,
    In ("Conti", v)
       (PlotTopFamilies.families (snd (PlotTopFamilies.ingest ranking_file))) /\
    List.length (PlotTopFamilies.month v) = 2%nat /\
    List.length (PlotTopFamilies.sum_usd v) = 2%nat /\
    PlotTopFamilies.total_count v = zsum (PlotTopFamilies.count v) /\
    PlotTopFamilies.total_count v = 7%Z.
Proof.
  assert (Hin : PlotTopFamilies.ingest ranking_file =
                (Ok tt, snd (PlotTopFamilies.ingest ranking_file)))
    by (vm_compute; reflexivity).
  destruct (@series_lengths_and_totals ascii_builtins ranking_file "Conti") as [_ H].
  eexists. split; [vm_compute; left; reflexivity|].
  match goal with
  | |- List.length (PlotTopFamilies.month ?v) = _ /\ _ =>
      destruct (H _ v Hin) as (_ & _ & _ & _ & Hm & _ & _ & Hu & Hc & _);
        [vm_compute; left; reflexivity|]
  end.
  split; [rewrite Hm; vm_compute; reflexivity|].
  split; [rewrite Hu; vm_compute; reflexivity|].
  split; [exact Hc | vm_compute; reflexivity].
Defined.

(** C10: on a file that has only its header line, the month-timeline script
    ends with an uncaught [IndexError], raised by the access to the first
    month of the empty list (the access to the last one would raise it as
    well); nothing is printed and no parse error is involved. *)
Theorem header_only_index_error {B : Builtins} (script path header : string)
  (fs : filesystem) :
  fs path = Some [header] ->
  PlotMonths.ingest [header] = (Ok tt, PlotMonths.init) /\
  getitem (PlotMonths.months PlotMonths.init) 0 = Raise IndexError /\
  getlast (PlotMonths.months PlotMonths.init) = Raise IndexError /\
  PlotMonths.main [script; path] fs = mk_outcome [] [path] (Uncaught IndexError).
Proof.
  intros H. repeat split. unfold PlotMonths.main. simpl. rewrite H. reflexivity.
Qed.

(** C10 on a file that holds the header of a month file. *)
Lemma header_only_index_error_witness :
  only_file months_header_only "timeline_months.csv" = Some months_header_only /\
  PlotMonths.main ["plot_months.py"; "timeline_months.csv"] (only_file months_header_only) =
    mk_outcome [] ["timeline_months.csv"] (Uncaught IndexError).
Proof.
  split; [reflexivity|].
  apply (@header_only_index_error ascii_builtins "plot_months.py" "timeline_months.csv"
           (row "Month,Count,Sum (BTC),Sum (USD)") (only_file months_header_only)).
  reflexivity.
Defined.
(** * Further properties of the scripts *)

(** X1: when the month script reads a file without error, its four lists
    hold, in file order, what the parsers make of the four fields of each
    line after the first: the month, the count, the BTC sum rounded to four
    digits and the USD sum divided by [usd_factor] and rounded to two; each
    list has as many items as the file has lines after the first. *)
Theorem month_series_contents {B : Builtins} (lines : list string)
  (s : PlotMonths.state) :
  PlotMonths.ingest lines = (Ok tt, s) ->
  let rows := skipn 1 lines in
  map Some (PlotMonths.months s) = map (fun l => strptime (field 0 l)) rows /\
  map Some (PlotMonths.count s) = map (fun l => py_int (field 1 l)) rows /\
  map Some (PlotMonths.amount_btc s) =
    map (fun l => option_map (fun x => py_round x 4) (py_float (field 2 l))) rows /\
  map Some (PlotMonths.amount_usd s) =
    map (fun l => option_map (fun x => py_round (x / PlotMonths.usd_factor) 2)
                             (py_float (field 3 l))) rows /\
  List.length (PlotMonths.months s) = List.length rows /\
  List.length (PlotMonths.count s) = List.length rows /\
  List.length (PlotMonths.amount_btc s) = List.length rows /\
  List.length (PlotMonths.amount_usd s) = List.length rows.
Proof.
  intros H rows. unfold PlotMonths.ingest in H.
  destruct (MonthsMore.for_each_body_series _ _ _ H) as (H1 & H2 & H3 & H4).
  simpl in H1, H2, H3, H4. fold rows in H1, H2, H3, H4.
  repeat split; try assumption.
  - apply (f_equal (@List.length _)) in H1. rewrite !length_map in H1. exact H1.
  - apply (f_equal (@List.length _)) in H2. rewrite !length_map in H2. exact H2.
  - apply (f_equal (@List.length _)) in H3. rewrite !length_map in H3. exact H3.
  - apply (f_equal (@List.length _)) in H4. rewrite !length_map in H4. exact H4.
Qed.

Lemma month_series_contents_witness :
  PlotMonths.ingest months_file = (Ok tt, snd (PlotMonths.ingest months_file)) /\
  PlotMonths.count (snd (PlotMonths.ingest months_file)) = [5; 700; 3]%Z /\
  List.length (PlotMonths.amount_usd (snd (PlotMonths.ingest months_file))) = 3%nat.
Proof.
  split; [vm_compute; reflexivity|].
  split; [vm_compute; reflexivity|].
  destruct (month_series_contents months_file (snd (PlotMonths.ingest months_file)))
    as (_ & _ & _ & _ & _ & _ & _ & H); [vm_compute; reflexivity|].
  exact H.
Defined.

(** X2: a row of a family file with fewer than five fields that is not a
    row of totals (and, in the top-N script, not a row of the excluded
    family) ends the run: after rows that were read without error the loop
    raises [IndexError] or [ValueError], [IndexError] when the parsers
    accept the fields the row has, and the dictionary is left as the rows
    before it made it.  A last line that is empty is such a row. *)
Theorem short_row_aborts {B : Builtins} (h short : string)
  (pre post : list string) :
  (List.length (split file_separator short) < 5)%nat ->
  getitem (split file_separator short) 1 <> Ok "Total" ->
  (forall fams,
     PlotFamilies.ingest (h :: pre) = (Ok tt, fams) ->
     exists e,
       PlotFamilies.ingest (h :: pre ++ short :: post) = (Raise e, fams) /\
       (e = IndexError \/ e = ValueError) /\
       ((forall i p, (1 <= i)%nat -> getitem (split file_separator short) i = Ok p ->
                     PlotFamilies.accepts i p = true) -> e = IndexError)) /\
  (forall s,
     field 0 short <> "BlackCat" ->
     PlotTopFamilies.ingest (h :: pre) = (Ok tt, s) ->
     exists e s',
       PlotTopFamilies.ingest (h :: pre ++ short :: post) = (Raise e, s') /\
       PlotTopFamilies.families s' = PlotTopFamilies.families s /\
       (e = IndexError \/ e = ValueError) /\
       ((forall i p, (1 <= i)%nat -> getitem (split file_separator short) i = Ok p ->
                     PlotFamilies.accepts i p = true) -> e = IndexError)).
Proof.
  intros Hlen Htot. split.
  - intros fams Hpre.
    destruct (FamiliesMore.read_row_short short Hlen Htot) as [e [Hr [He Hi]]].
    exists e. split; [|split; assumption].
    unfold PlotFamilies.ingest in *. simpl in *.
    apply (FamiliesMore.for_each_body_stops pre post short e [] fams Hpre Hr).
  - intros s Hcat Hpre.
    destruct (TopMore.read_row_short_top short Hlen Hcat Htot) as [e [Hr [He Hi]]].
    unfold PlotTopFamilies.ingest in *. simpl in *.
    destruct (TopMore.for_each_body_stops_top pre post short e _ s Hpre Hr)
      as [s' [Hs' Hf]].
    exists e, s'. repeat split; assumption.
Qed.

Lemma short_row_aborts_witness :
  (List.length (split file_separator nl) < 5)%nat /\
  getitem (split file_separator nl) 1 <> Ok "Total" /\
  PlotFamilies.ingest (acme_file ++ [nl]) =
    (Raise IndexError, snd (PlotFamilies.ingest acme_file)).
Proof.
  assert (Hlen : (List.length (split file_separator nl) < 5)%nat)
    by (vm_compute; lia).
  assert (Htot : getitem (split file_separator nl) 1 <> Ok "Total")
    by (vm_compute; discriminate).
  split; [exact Hlen|]. split; [exact Htot|].
  destruct (short_row_aborts (row "Family,Month,Count,Sum (BTC),Sum (USD)") nl
              (skipn 1 acme_file) [] Hlen Htot) as [H _].
  destruct (H (snd (PlotFamilies.ingest acme_file))) as [e [He [_ Hi]]];
    [vm_compute; reflexivity|].
  rewrite <- (Hi ltac:(intros i p Hi' Hp; vm_compute in Hp; destruct i as [|[|i]]; try lia; discriminate)).
  exact He.
Defined.

(** X3: the loop bodies look at the first five fields of a line of a
    family file, and at the first four of a line of a month file: two
    lines that agree on them are read alike, whatever columns follow. *)
Theorem further_columns_ignored {B : Builtins} (l l' : string) :
  (firstn 5 (split file_separator l) = firstn 5 (split file_separator l') ->
   (forall fams, PlotFamilies.body l fams = PlotFamilies.body l' fams) /\
   (forall s, PlotTopFamilies.body l s = PlotTopFamilies.body l' s)) /\
  (firstn 4 (split file_separator l) = firstn 4 (split file_separator l') ->
   forall s, PlotMonths.body l s = PlotMonths.body l' s).
Proof.
  split.
  - intros H. split; intros s.
    + unfold PlotFamilies.body.
      rewrite (getitem_firstn 5 0 (split file_separator l)),
        (getitem_firstn 5 1 (split file_separator l)),
        (getitem_firstn 5 2 (split file_separator l)),
        (getitem_firstn 5 3 (split file_separator l)),
        (getitem_firstn 5 4 (split file_separator l)) by lia.
      rewrite (getitem_firstn 5 0 (split file_separator l')),
        (getitem_firstn 5 1 (split file_separator l')),
        (getitem_firstn 5 2 (split file_separator l')),
        (getitem_firstn 5 3 (split file_separator l')),
        (getitem_firstn 5 4 (split file_separator l')) by lia.
      rewrite H. reflexivity.
    + unfold PlotTopFamilies.body.
      rewrite (getitem_firstn 5 0 (split file_separator l)),
        (getitem_firstn 5 1 (split file_separator l)),
        (getitem_firstn 5 2 (split file_separator l)),
        (getitem_firstn 5 3 (split file_separator l)),
        (getitem_firstn 5 4 (split file_separator l)) by lia.
      rewrite (getitem_firstn 5 0 (split file_separator l')),
        (getitem_firstn 5 1 (split file_separator l')),
        (getitem_firstn 5 2 (split file_separator l')),
        (getitem_firstn 5 3 (split file_separator l')),
        (getitem_firstn 5 4 (split file_separator l')) by lia.
      rewrite H. reflexivity.
  - intros H s. unfold PlotMonths.body.
    rewrite (getitem_firstn 4 0 (split file_separator l)),
      (getitem_firstn 4 1 (split file_separator l)),
      (getitem_firstn 4 2 (split file_separator l)),
      (getitem_firstn 4 3 (split file_separator l)) by lia.
    rewrite (getitem_firstn 4 0 (split file_separator l')),
      (getitem_firstn 4 1 (split file_separator l')),
      (getitem_firstn 4 2 (split file_separator l')),
      (getitem_firstn 4 3 (split file_separator l')) by lia.
    rewrite H. reflexivity.
Qed.

Lemma further_columns_ignored_witness :
  PlotFamilies.body (row "Acme,2021-01,5,0.01,500,note,more") [] =
  PlotFamilies.body (row "Acme,2021-01,5,0.01,500,") [].
Proof.
  destruct (further_columns_ignored (row "Acme,2021-01,5,0.01,500,note,more")
                                    (row "Acme,2021-01,5,0.01,500,")) as [H _].
  destruct H as [H _]; [vm_compute; reflexivity|]. apply H.
Defined.

(** X4: when [plot_families.py] has read its file without error it runs to
    its end: no family is without a maximum, no look-up in the dictionary
    fails.  It prints the sizes of the three groups, which add up to the
    number of families, and shows three figures, for the small, the medium
    and the large families in this order; each figure has in each of its
    three panels one line per family of its group, in the order of the
    group, with the family as label and the months of the family against
    its counts, BTC sums or USD sums, as many x values as y values. *)
Theorem families_run_completes {B : Builtins} (script path : string)
  (fs : filesystem) (lines : list string) (fams : PlotFamilies.families_t) :
  fs path = Some lines ->
  PlotFamilies.ingest lines = (Ok tt, fams) ->
  exists b f1 f2 f3,
    PlotFamilies.bucketing fams = (Ok tt, b) /\
    PlotFamilies.main [script; path] fs =
      mk_outcome (FamiliesPlots.report b) [path] (Completed [f1; f2; f3]) /\
    (List.length (PlotFamilies.small b) + List.length (PlotFamilies.medium b) +
     List.length (PlotFamilies.large b) = List.length (keys fams))%nat /\
    FamiliesPlots.shows fams (PlotFamilies.small b) "small" f1 /\
    FamiliesPlots.shows fams (PlotFamilies.medium b) "medium" f2 /\
    FamiliesPlots.shows fams (PlotFamilies.large b) "large" f3 /\
    FamiliesPlots.square f1 /\ FamiliesPlots.square f2 /\ FamiliesPlots.square f3.
Proof.
  intros Hfs Hin.
  destruct (FamiliesRender.main_after_ingest script path fs lines fams Hfs Hin)
    as (b & f1 & f2 & f3 & Hb & Hperm & Hmain & S1 & S2 & S3).
  exists b, f1, f2, f3.
  split; [exact Hb|]. split; [exact Hmain|].
  split; [apply Permutation_length in Hperm; rewrite !length_app in Hperm; lia|].
  split; [exact S1|]. split; [exact S2|]. split; [exact S3|].
  split; [|split].
  - apply (FamiliesRender.shows_square lines fams _ _ f1 Hin S1).
  - apply (FamiliesRender.shows_square lines fams _ _ f2 Hin S2).
  - apply (FamiliesRender.shows_square lines fams _ _ f3 Hin S3).
Qed.

Lemma families_run_completes_witness :
  exists f1 f2 f3,
    PlotFamilies.main ["plot_families.py"; "timeline_families.csv"] (only_file acme_file) =
      mk_outcome ["Small (< 1000 USD): 1"; "Medium (< 50000 USD): 0";
                  "Large (>= 50000 USD): 0"]
                 ["timeline_families.csv"] (Completed [f1; f2; f3]) /\
    FamiliesPlots.square f1.
Proof.
  destruct (families_run_completes "plot_families.py" "timeline_families.csv"
              (only_file acme_file) acme_file (snd (PlotFamilies.ingest acme_file)))
    as (b & f1 & f2 & f3 & Hb & Hmain & _ & _ & _ & _ & Hs & _);
    [reflexivity | vm_compute; reflexivity |].
  exists f1, f2, f3. split; [|exact Hs].
  rewrite Hmain. vm_compute in Hb. inversion Hb. reflexivity.
Defined.

(** X5: when [plot_top_families.py] has read its file without error it
    runs to its end: no look-up in the dictionary fails and no rank is
    beyond the list of colours.  Each of the three panels has one line per
    family of its top list, in the order of the list, with the family as
    label and the months of the family against its counts, BTC sums or USD
    sums, as many x values as y values; the line of rank [j] is drawn in
    [colours[j]], so that no two lines of a panel share a colour.  The x
    axis goes from the least to the greatest month that was read. *)
Theorem top_run_completes {B : Builtins} (script path : string)
  (fs : filesystem) (lines : list string) (s : PlotTopFamilies.state) :
  fs path = Some lines ->
  PlotTopFamilies.ingest lines = (Ok tt, s) ->
  let fams := PlotTopFamilies.families s in
  exists fig,
    PlotTopFamilies.main [script; path] fs = mk_outcome [] [path] (Completed fig) /\
    TopPlots.plots fams PlotTopFamilies.count
      (PlotTopFamilies.top_families_count fams) (PlotTopFamilies.panel_count fig) /\
    TopPlots.plots fams PlotTopFamilies.sum_btc
      (PlotTopFamilies.top_families_btc fams) (PlotTopFamilies.panel_btc fig) /\
    TopPlots.plots fams PlotTopFamilies.sum_usd
      (PlotTopFamilies.top_families_usd fams) (PlotTopFamilies.panel_usd fig) /\
    NoDup (map (@PlotTopFamilies.colour Z) (PlotTopFamilies.panel_count fig)) /\
    NoDup (map (@PlotTopFamilies.colour float) (PlotTopFamilies.panel_btc fig)) /\
    NoDup (map (@PlotTopFamilies.colour float) (PlotTopFamilies.panel_usd fig)) /\
    TopPlots.square fig /\
    PlotTopFamilies.xlim fig = (PlotTopFamilies.min_month s, PlotTopFamilies.max_month s).
Proof.
  intros Hfs Hin fams.
  destruct (TopRender.render_total_top s) as (fig & Hr & Hc & Hb & Hu & Hx & _).
  fold fams in Hc, Hb, Hu.
  exists fig.
  split.
  { unfold PlotTopFamilies.main. simpl. rewrite Hfs, Hin, Hr. reflexivity. }
  split; [exact Hc|]. split; [exact Hb|]. split; [exact Hu|].
  split; [apply (TopRender.plots_colours _ _ _ _ Hc)|].
  split; [apply (TopRender.plots_colours _ _ _ _ Hb)|].
  split; [apply (TopRender.plots_colours _ _ _ _ Hu)|].
  split; [|exact Hx].
  repeat split.
  - apply (TopRender.plots_square_top lines s PlotTopFamilies.count _ _) with (2 := Hc).
    intros k v Hv. rewrite (TopFacts.ingest_entry_top lines s k v Hin Hv). simpl.
    rewrite !length_map. reflexivity.
  - apply (TopRender.plots_square_top lines s PlotTopFamilies.sum_btc _ _) with (2 := Hb).
    intros k v Hv. rewrite (TopFacts.ingest_entry_top lines s k v Hin Hv). simpl.
    rewrite !length_map. reflexivity.
  - apply (TopRender.plots_square_top lines s PlotTopFamilies.sum_usd _ _) with (2 := Hu).
    intros k v Hv. rewrite (TopFacts.ingest_entry_top lines s k v Hin Hv). simpl.
    rewrite !length_map. reflexivity.
Qed.

Lemma top_run_completes_witness :
  exists fig,
    PlotTopFamilies.main ["plot_top_families.py"; "timeline_families.csv"]
                         (only_file ranking_file) =
      mk_outcome [] ["timeline_families.csv"] (Completed fig) /\
    map (@PlotTopFamilies.colour Z) (PlotTopFamilies.panel_count fig) =
      ["red"; "darkcyan"; "black"].
Proof.
  destruct (top_run_completes "plot_top_families.py" "timeline_families.csv"
              (only_file ranking_file) ranking_file
              (snd (PlotTopFamilies.ingest ranking_file)))
    as (fig & Hmain & [_ Hc] & _); [reflexivity | vm_compute; reflexivity |].
  exists fig. split; [exact Hmain|]. rewrite Hc. vm_compute. reflexivity.
Defined.

(** X6: after the top-N script has read its file, each of its three top
    lists names [min(15, n)] families, [n] being the number of families
    read, no family twice and only families of the dictionary; with at
    most 15 families each list names all of them, so that the three panels
    show the same families. *)
Theorem top_lists_size {B : Builtins} (lines : list string)
  (s : PlotTopFamilies.state) :
  PlotTopFamilies.ingest lines = (Ok tt, s) ->
  let fams := PlotTopFamilies.families s in
  let n := List.length (keys fams) in
  Forall (fun top =>
            List.length top = Nat.min PlotTopFamilies.topN n /\
            NoDup top /\
            (forall k, In k top -> In k (keys fams)) /\
            ((n <= PlotTopFamilies.topN)%nat -> Permutation top (keys fams)))
         [PlotTopFamilies.top_families_count fams;
          PlotTopFamilies.top_families_btc fams;
          PlotTopFamilies.top_families_usd fams].
Proof.
  intros Hin fams n.
  assert (Hnd : NoDup (keys fams)).
  { unfold fams. rewrite (TopFacts.ingest_keys_top lines s Hin). apply first_seen_NoDup. }
  repeat constructor.
  all: try apply TopSize.top_families_length.
  all: try (apply TopSize.top_families_NoDup; exact Hnd).
  all: try (intros k; apply TopFacts.top_families_keys).
  all: apply TopSize.top_families_all.
Qed.

Lemma top_lists_size_witness :
  List.length
    (PlotTopFamilies.top_families_usd
       (PlotTopFamilies.families (snd (PlotTopFamilies.ingest ranking_file)))) =
    Nat.min PlotTopFamilies.topN
      (List.length
         (keys (PlotTopFamilies.families (snd (PlotTopFamilies.ingest ranking_file))))) /\
  Permutation
    (PlotTopFamilies.top_families_usd
       (PlotTopFamilies.families (snd (PlotTopFamilies.ingest ranking_file))))
    (keys (PlotTopFamilies.families (snd (PlotTopFamilies.ingest ranking_file)))).
Proof.
  assert (Hin : PlotTopFamilies.ingest ranking_file =
                (Ok tt, snd (PlotTopFamilies.ingest ranking_file)))
    by (vm_compute; reflexivity).
  pose proof (top_lists_size ranking_file (snd (PlotTopFamilies.ingest ranking_file)) Hin)
    as H.
  apply Forall_inv_tail, Forall_inv_tail, Forall_inv in H.
  destruct H as (Hlen & _ & _ & Hperm).
  split; [exact Hlen|]. apply Hperm. vm_compute. lia.
Defined.

(** X7: after the top-N script has read its file, [min_month] and
    [max_month] bound the months of the records from below and from above
    (the records of all families that were read, in the top lists or not);
    each of the two is its first value, [datetime.max] or [datetime.min],
    or the month of a record, and it is the month of a record when there
    is one and no month lies beyond [datetime.max] or [datetime.min];
    without a record both keep their first values. *)
Theorem month_range {B : Builtins} (lines : list string)
  (s : PlotTopFamilies.state) :
  PlotTopFamilies.ingest lines = (Ok tt, s) ->
  let ms := map rec_month (PlotTopFamilies.records lines) in
  (forall m, In m ms ->
     dt_ltb m (PlotTopFamilies.min_month s) = false /\
     dt_ltb (PlotTopFamilies.max_month s) m = false) /\
  (PlotTopFamilies.min_month s = datetime_max \/ In (PlotTopFamilies.min_month s) ms) /\
  (PlotTopFamilies.max_month s = datetime_min \/ In (PlotTopFamilies.max_month s) ms) /\
  (ms = [] ->
   PlotTopFamilies.min_month s = datetime_max /\
   PlotTopFamilies.max_month s = datetime_min) /\
  (ms <> [] ->
   (forall m, In m ms -> dt_ltb datetime_max m = false /\ dt_ltb m datetime_min = false) ->
   In (PlotTopFamilies.min_month s) ms /\ In (PlotTopFamilies.max_month s) ms).
Proof.
  intros Hin ms.
  destruct (TopMonths.ingest_months_fold lines s Hin) as [Hmin Hmax]. fold ms in Hmin, Hmax.
  destruct (fold_dt_min ms datetime_max) as (A1 & A2 & A3).
  destruct (fold_dt_max ms datetime_min) as (B1 & B2 & B3).
  rewrite <- Hmin in A1, A2, A3. rewrite <- Hmax in B1, B2, B3.
  split; [intros m Hm; split; [apply A2 | apply B2]; exact Hm|].
  split; [exact A3|]. split; [exact B3|]. split.
  - intros E. rewrite E in Hmin, Hmax. simpl in Hmin, Hmax. split; assumption.
  - intros Hne Hrange. split.
    + destruct A3 as [A3|A3]; [|exact A3].
      destruct ms as [|m ms']; [contradiction Hne; reflexivity|].
      assert (Hm : In m (m :: ms')) by (left; reflexivity).
      destruct (Hrange m Hm) as [R1 _]. specialize (A2 m Hm). rewrite A3 in A2 |- *.
      assert (E : m = datetime_max) by (apply dt_ltb_tie; assumption).
      rewrite <- E. exact Hm.
    + destruct B3 as [B3|B3]; [|exact B3].
      destruct ms as [|m ms']; [contradiction Hne; reflexivity|].
      assert (Hm : In m (m :: ms')) by (left; reflexivity).
      destruct (Hrange m Hm) as [_ R2]. specialize (B2 m Hm). rewrite B3 in B2 |- *.
      assert (E : m = datetime_min) by (apply dt_ltb_tie; assumption).
      rewrite <- E. exact Hm.
Qed.

Lemma month_range_witness :
  PlotTopFamilies.min_month (snd (PlotTopFamilies.ingest ranking_file)) =
    mk_datetime 2021 1 1 0 0 0 0 /\
  In (PlotTopFamilies.max_month (snd (PlotTopFamilies.ingest ranking_file)))
     (map rec_month (PlotTopFamilies.records ranking_file)).
Proof.
  split; [vm_compute; reflexivity|].
  destruct (month_range ranking_file (snd (PlotTopFamilies.ingest ranking_file)))
    as (_ & _ & _ & _ & H); [vm_compute; reflexivity|].
  apply H.
  - vm_compute. discriminate.
  - intros m Hm. vm_compute in Hm.
    repeat (destruct Hm as [Hm|Hm]; [subst m; vm_compute; split; reflexivity|]).
    destruct Hm.
Defined.

(** X8: a family file in which no line after the first gives a record (a
    file of one line or none, or one with nothing but rows of totals and,
    for the top-N script, rows of the excluded family) is no error for the
    two family scripts, unlike for the month script.  [plot_families.py]
    prints three sizes 0 and shows three figures without lines;
    [plot_top_families.py] shows one figure without lines, whose x axis
    goes from [datetime.max] to [datetime.min], the first values of
    [min_month] and [max_month], the greater one on the left. *)
Theorem no_data_rows {B : Builtins} (script path : string) (fs : filesystem)
  (lines : list string) :
  fs path = Some lines ->
  (PlotFamilies.well_formed lines = true -> PlotFamilies.records lines = [] ->
   PlotFamilies.main [script; path] fs =
     mk_outcome ["Small (< 1000 USD): 0"; "Medium (< 50000 USD): 0";
                 "Large (>= 50000 USD): 0"]
                [path]
                (Completed [PlotFamilies.mk_figure "small" [] [] [];
                            PlotFamilies.mk_figure "medium" [] [] [];
                            PlotFamilies.mk_figure "large" [] [] []])) /\
  (PlotTopFamilies.well_formed lines = true -> PlotTopFamilies.records lines = [] ->
   PlotTopFamilies.main [script; path] fs =
     mk_outcome [] [path]
                (Completed (PlotTopFamilies.mk_figure [] [] []
                              (datetime_max, datetime_min)
                              (datetime_max, datetime_min))) /\
   dt_ltb datetime_min datetime_max = true).
Proof.
  intros Hfs. split.
  - intros Hwf Hrec. pose proof (FamiliesFacts.ingest_group lines Hwf) as Hin.
    rewrite Hrec in Hin. unfold PlotFamilies.main. simpl. rewrite Hfs, Hin.
    reflexivity.
  - intros Hwf Hrec. split; [|reflexivity].
    assert (Hin : PlotTopFamilies.ingest lines = (Ok tt, PlotTopFamilies.init)).
    { unfold PlotTopFamilies.ingest.
      rewrite (TopFacts.for_each_body_ok_top _ _ Hwf).
      unfold PlotTopFamilies.records in Hrec. rewrite Hrec. reflexivity. }
    unfold PlotTopFamilies.main. simpl. rewrite Hfs, Hin. reflexivity.
Qed.

Lemma no_data_rows_witness :
  PlotTopFamilies.main ["plot_top_families.py"; "timeline_families.csv"]
                       (only_file blackcat_file) =
    mk_outcome [] ["timeline_families.csv"]
               (Completed (PlotTopFamilies.mk_figure [] [] []
                             (datetime_max, datetime_min)
                             (datetime_max, datetime_min))) /\
  PlotFamilies.main ["plot_families.py"; "timeline_families.csv"]
                    (only_file months_header_only) =
    mk_outcome ["Small (< 1000 USD): 0"; "Medium (< 50000 USD): 0";
                "Large (>= 50000 USD): 0"]
               ["timeline_families.csv"]
               (Completed [PlotFamilies.mk_figure "small" [] [] [];
                           PlotFamilies.mk_figure "medium" [] [] [];
                           PlotFamilies.mk_figure "large" [] [] []]).
Proof.
  split.
  - destruct (no_data_rows "plot_top_families.py" "timeline_families.csv"
                (only_file blackcat_file) blackcat_file eq_refl) as [_ H].
    destruct H as [H _]; [vm_compute; reflexivity | vm_compute; reflexivity |].
    exact H.
  - destruct (no_data_rows "plot_families.py" "timeline_families.csv"
                (only_file months_header_only) months_header_only eq_refl) as [H _].
    apply H; vm_compute; reflexivity.
Defined.

(** X9: the group of a family in [plot_families.py], read off its rows when
    no USD sum of the family is [nan]: the family is small when every one
    of its monthly sums is below 1000, large when one of them is 50000 or
    more, and medium otherwise, that is when one of them is 1000 or more
    and all are below 50000. *)
Theorem bucket_by_rows {B : Builtins} (lines : list string)
  (fams : PlotFamilies.families_t) (b : PlotFamilies.buckets) (k : string) :
  PlotFamilies.ingest lines = (Ok tt, fams) ->
  PlotFamilies.bucketing fams = (Ok tt, b) ->
  In k (keys fams) ->
  let usd := map rec_sum_usd (PlotFamilies.rows_of k lines) in
  Forall (fun x => is_nan x = false) usd ->
  (In k (PlotFamilies.small b) <->
   Forall (fun x => PrimFloat.ltb x PlotFamilies.SMALL_THRESHOLD = true) usd) /\
  (In k (PlotFamilies.medium b) <->
   Exists (fun x => PrimFloat.leb PlotFamilies.SMALL_THRESHOLD x = true) usd /\
   Forall (fun x => PrimFloat.ltb x PlotFamilies.MEDIUM_THRESHOLD = true) usd) /\
  (In k (PlotFamilies.large b) <->
   Exists (fun x => PrimFloat.leb PlotFamilies.MEDIUM_THRESHOLD x = true) usd).
Proof.
  intros Hin Hb Hk usd Hn.
  destruct (FamiliesBuckets.ingest_max_rows lines fams k Hin Hk) as [m [Hm Hmax]].
  fold usd in Hmax.
  destruct (py_max_greatest usd m Hmax Hn) as [Hmin Hge].
  assert (Nm : is_nan m = false) by (rewrite Forall_forall in Hn; apply Hn; exact Hmin).
  pose proof (FamiliesBuckets.bucket_of_max lines fams b k m Hin Hb Hk Hm) as Hc.
  assert (Hbelow : forall t, PrimFloat.ltb m t = true <->
                             Forall (fun x => PrimFloat.ltb x t = true) usd).
  { intros t. rewrite Forall_forall. split.
    - intros H x Hx. apply (float_le_lt_trans x m t (Hge x Hx) H).
    - intros H. apply H. exact Hmin. }
  assert (Habove : forall t, is_nan t = false ->
                             (PrimFloat.leb t m = true <->
                              Exists (fun x => PrimFloat.leb t x = true) usd)).
  { intros t Nt. rewrite Exists_exists. split.
    - intros H. exists m. split; assumption.
    - intros [x [Hx H]]. apply (float_not_lt_le m t Nm Nt).
      destruct (PrimFloat.ltb m t) eqn:E; [|reflexivity].
      pose proof (float_le_lt_trans x m t (Hge x Hx) E) as H'.
      apply float_le_not_lt in H. congruence. }
  pose proof (Hc PlotFamilies.Small) as Hs.
  pose proof (Hc PlotFamilies.Medium) as Hmd.
  pose proof (Hc PlotFamilies.Large) as Hl.
  pose proof (FamiliesBuckets.classify_small m) as Cs.
  pose proof (FamiliesBuckets.classify_medium m Nm) as Cm.
  pose proof (FamiliesBuckets.classify_large m Nm) as Cl.
  pose proof (Hbelow PlotFamilies.SMALL_THRESHOLD) as B1.
  pose proof (Hbelow PlotFamilies.MEDIUM_THRESHOLD) as B2.
  pose proof (Habove PlotFamilies.SMALL_THRESHOLD eq_refl) as A1.
  pose proof (Habove PlotFamilies.MEDIUM_THRESHOLD eq_refl) as A2.
  simpl PlotFamilies.members in Hs, Hmd, Hl.
  tauto.
Qed.

Lemma bucket_by_rows_witness :
  exists b,
    PlotFamilies.bucketing (snd (PlotFamilies.ingest acme_file)) = (Ok tt, b) /\
    (In "Acme" (PlotFamilies.small b) <->
     Forall (fun x => PrimFloat.ltb x PlotFamilies.SMALL_THRESHOLD = true)
            [500; 700; 300]%float).
Proof.
  eexists. split; [vm_compute; reflexivity|].
  refine (proj1 (bucket_by_rows acme_file (snd (PlotFamilies.ingest acme_file)) _ "Acme"
                   _ _ _ _)).
  - vm_compute. reflexivity.
  - vm_compute. reflexivity.
  - vm_compute. left. reflexivity.
  - repeat constructor.
Defined.

(** X10: [float] reads the text [nan], and [max] keeps a first item that is
    [nan], since nothing compares greater than it; [nan] is below neither
    threshold.  So a family whose first row has the USD sum [nan] is put in
    the large group, whatever its other rows are. *)
Theorem nan_first_is_large {B : Builtins} (lines : list string)
  (fams : PlotFamilies.families_t) (b : PlotFamilies.buckets) (k : string)
  (r : record) (rest : list record) :
  PlotFamilies.ingest lines = (Ok tt, fams) ->
  PlotFamilies.bucketing fams = (Ok tt, b) ->
  PlotFamilies.rows_of k lines = r :: rest ->
  is_nan (rec_sum_usd r) = true ->
  PlotFamilies.max_usd fams k = Some (rec_sum_usd r) /\
  In k (PlotFamilies.large b) /\
  ~ In k (PlotFamilies.small b) /\ ~ In k (PlotFamilies.medium b).
Proof.
  intros Hin Hb Hrows Hnan.
  assert (Hk : In k (keys fams)).
  { rewrite (FamiliesFacts.ingest_keys lines fams Hin). apply first_seen_In.
    apply in_map_iff. exists r. unfold PlotFamilies.rows_of in Hrows.
    assert (Hr : In r (filter (fun r => String.eqb (rec_family r) k)
                              (PlotFamilies.records lines)))
      by (rewrite Hrows; left; reflexivity).
    apply filter_In in Hr. destruct Hr as [Hr Hf]. apply String.eqb_eq in Hf.
    split; assumption. }
  destruct (FamiliesBuckets.ingest_max_rows lines fams k Hin Hk) as [m [Hm Hmax]].
  rewrite Hrows in Hmax. simpl map in Hmax.
  rewrite (py_max_nan_first _ _ Hnan) in Hmax. inversion Hmax. subst m.
  pose proof (FamiliesBuckets.bucket_of_max lines fams b k _ Hin Hb Hk Hm) as Hc.
  assert (Hl : PlotFamilies.classify (rec_sum_usd r) = PlotFamilies.Large).
  { unfold PlotFamilies.classify. rewrite !(float_nan_not_lt _ _ Hnan). reflexivity. }
  split; [exact Hm|]. split; [apply (Hc PlotFamilies.Large); exact Hl|].
  split; intros H.
  - apply (Hc PlotFamilies.Small) in H. congruence.
  - apply (Hc PlotFamilies.Medium) in H. congruence.
Qed.

Lemma nan_first_is_large_witness :
  In "Conti"
     (PlotFamilies.large
        (snd (PlotFamilies.bucketing (snd (PlotFamilies.ingest nan_file))))).
Proof.
  refine (proj1 (proj2
            (nan_first_is_large nan_file (snd (PlotFamilies.ingest nan_file))
               (snd (PlotFamilies.bucketing (snd (PlotFamilies.ingest nan_file))))
               "Conti"
               (mk_record "Conti" (mk_datetime 2021 1 1 0 0 0 0) 5 1.5 nan)
               [mk_record "Conti" (mk_datetime 2021 2 1 0 0 0 0) 2 1 200]
               _ _ _ _))).
  all: vm_compute; reflexivity.
Defined.

(** X11: the two family scripts agree.  A file that [plot_families.py]
    reads without error is read without error by the top-N script; the
    families of the latter are those of the former without the excluded
    one, in the same order, and each has the same lists of months, counts,
    BTC sums and USD sums in both. *)
Theorem family_scripts_agree {B : Builtins} (lines : list string)
  (fams : PlotFamilies.families_t) :
  PlotFamilies.ingest lines = (Ok tt, fams) ->
  exists s,
    PlotTopFamilies.ingest lines = (Ok tt, s) /\
    keys (PlotTopFamilies.families s) =
      filter (fun k => negb (String.eqb k "BlackCat")) (keys fams) /\
    forall k v,
      In (k, v) (PlotTopFamilies.families s) ->
      exists v',
        In (k, v') fams /\
        PlotTopFamilies.month v = PlotFamilies.month v' /\
        PlotTopFamilies.count v = PlotFamilies.count v' /\
        PlotTopFamilies.sum_btc v = PlotFamilies.sum_btc v' /\
        PlotTopFamilies.sum_usd v = PlotFamilies.sum_usd v'.
Proof.
  intros Hin.
  pose proof (FamiliesFacts.ingest_well_formed lines fams Hin) as Hwf.
  destruct (TopFacts.ingest_group_top lines (Agreement.well_formed_top_families lines Hwf))
    as [s [Hs _]].
  pose proof (TopFacts.ingest_keys_top lines s Hs) as Hkeys.
  rewrite Agreement.records_top_families in Hkeys.
  rewrite (map_filter_comm rec_family (fun k => negb (String.eqb k "BlackCat"))), first_seen_filter in Hkeys.
  rewrite <- (FamiliesFacts.ingest_keys lines fams Hin) in Hkeys.
  exists s. split; [exact Hs|]. split; [exact Hkeys|].
  intros k v Hv.
  assert (Hk : In k (keys (PlotTopFamilies.families s))).
  { apply in_map_iff. exists (k, v). split; [reflexivity | exact Hv]. }
  rewrite Hkeys in Hk. apply filter_In in Hk. destruct Hk as [Hk Hne].
  assert (Hne' : k <> "BlackCat").
  { intros E. subst k. discriminate. }
  apply in_map_iff in Hk. destruct Hk as [[k' v'] [Ek Hv']]. simpl in Ek. subst k'.
  exists v'. split; [exact Hv'|].
  rewrite (TopFacts.ingest_entry_top lines s k v Hs Hv).
  rewrite (FamiliesFacts.ingest_entry lines fams k v' Hin Hv').
  rewrite (Agreement.rows_of_top_families k lines Hne'). simpl.
  rewrite TopFacts.usd_list_unscaled. repeat split.
Qed.

Lemma family_scripts_agree_witness :
  exists s,
    PlotTopFamilies.ingest acme_file = (Ok tt, s) /\
    keys (PlotTopFamilies.families s) = ["Acme"].
Proof.
  destruct (family_scripts_agree acme_file (snd (PlotFamilies.ingest acme_file)))
    as [s [Hs [Hk _]]]; [vm_compute; reflexivity|].
  exists s. split; [exact Hs|]. rewrite Hk. vm_compute. reflexivity.
Defined.

(** X12: the label [format(int(x), ',')] of a tick.  Without its commas
    the text of an integer is [str] of the integer; a negative integer has
    the text of its opposite after a minus sign; and in the text of an
    integer that is not negative, counted from the right, every fourth
    character is a comma and no other is, which makes
    [d + (d - 1) // 3] characters for [d] digits. *)
Theorem tick_labels_group_by_three (n : Z) :
  Ticks.without_commas (Ticks.format_comma n) = Ticks.str n /\
  ((n < 0)%Z -> Ticks.format_comma n = String "-" (Ticks.format_comma (- n))) /\
  ((0 <= n)%Z ->
   (forall i c,
      nth_error (rev (list_ascii_of_string (Ticks.format_comma n))) i = Some c ->
      (c = ","%char <-> i mod 4 = 3%nat)) /\
   String.length (Ticks.format_comma n) =
     (List.length (Ticks.digits n) + (List.length (Ticks.digits n) - 1) / 3)%nat).
Proof.
  split; [|split].
  - unfold Ticks.without_commas, Ticks.format_comma, Ticks.str.
    destruct (n <? 0)%Z; cbn [list_ascii_of_string filter Ascii.eqb negb];
      rewrite list_ascii_of_string_of_list_ascii.
    + change (Ascii.eqb "-" ",") with false. cbn [negb].
      rewrite TicksFacts.without_commas_body. reflexivity.
    + rewrite TicksFacts.without_commas_body. reflexivity.
  - intros H. unfold Ticks.format_comma.
    destruct (Z.ltb_spec n 0); [|lia]. destruct (Z.ltb_spec (- n) 0); [lia|].
    unfold Ticks.digits. rewrite Zabs2N.inj_opp. reflexivity.
  - intros H. split.
    + intros i c Hc. rewrite (TicksFacts.format_comma_nonneg n H), rev_involutive in Hc.
      rewrite <- (TicksFacts.group3_commas (rev (Ticks.digits n)) i c
                    (Forall_rev (TicksFacts.digits_no_comma n)) Hc).
      split; [intros ->; reflexivity | apply Ascii.eqb_eq].
    + rewrite <- (string_of_list_ascii_of_string (Ticks.format_comma n)).
      rewrite (TicksFacts.format_comma_nonneg n H).
      assert (Hlen : forall l, String.length (string_of_list_ascii l) = List.length l).
      { induction l as [|x l IH]; simpl; [reflexivity | rewrite IH; reflexivity]. }
      rewrite Hlen, length_rev, TicksFacts.group3_length, length_rev. reflexivity.
Qed.

Lemma tick_labels_group_by_three_witness :
  Ticks.format_comma (-1234567) = String "-" (Ticks.format_comma 1234567) /\
  Ticks.format_comma 1234567 = "1,234,567" /\
  String.length (Ticks.format_comma 1234567) = 9%nat.
Proof.
  destruct (tick_labels_group_by_three (-1234567)) as (_ & Hneg & _).
  destruct (tick_labels_group_by_three 1234567) as (_ & _ & Hpos).
  split; [apply Hneg; lia|]. split; [reflexivity|].
  destruct Hpos as [_ Hlen]; [lia|]. rewrite Hlen. reflexivity.
Defined.

(** X13: [int] cuts a float towards zero, so the tick formatter shows every
    tick of a magnitude below 1 as [0]; on an axis whose values stay below
    1 all its labels would be the same.  It fails on [nan] and on the
    infinities only. *)
Theorem small_ticks_show_zero (x : float) :
  (PrimFloat.ltb (abs x) 1 = true -> Ticks.tick_label x = inl "0") /\
  (Ticks.tick_label x = inr Ticks.NanToInteger <-> is_nan x = true) /\
  (Ticks.tick_label x = inr Ticks.InfinityToInteger <-> is_infinity x = true) /\
  (is_nan x = false -> is_infinity x = false ->
   exists n, Ticks.tick_label x = inl (Ticks.format_comma n)).
Proof.
  unfold Ticks.tick_label, Ticks.int_of_float, is_nan, is_infinity.
  rewrite ltb_spec, !eqb_spec, abs_spec.
  pose proof (Prim2SF_valid x) as Hv.
  change (Prim2SF infinity) with (S754_infinity false).
  destruct (Prim2SF x) as [s|s| |s m e] eqn:E; simpl SFabs; cbn [SFeqb SFcompare negb].
  - split; [reflexivity|]. split; [split; discriminate|].
    split; [split; discriminate|]. intros _ _. exists 0%Z. reflexivity.
  - split; [discriminate|]. split; [split; try discriminate; destruct s; discriminate|].
    split; [split; reflexivity|]. intros _ H. discriminate.
  - split; [discriminate|]. split; [split; reflexivity|].
    split; [split; discriminate|]. discriminate.
  - assert (Hrefl : SFeqb (S754_finite s m e) (S754_finite s m e) = true).
    { unfold SFeqb, SFcompare. rewrite Z.compare_refl.
      change (Pos.compare_cont Eq m m) with (Pos.compare m m).
      rewrite Pos.compare_refl. destruct s; reflexivity. }
    unfold SFeqb in Hrefl. cbn [SFcompare] in Hrefl.
    split; [|split; [|split]].
    + intros H. simpl in Hv.
      rewrite (TicksFacts.below_one_shift m e Hv H). destruct s; reflexivity.
    + split; [discriminate|]. intros H.
      destruct s; rewrite Z.compare_refl in *;
        change (Pos.compare_cont Eq m m) with (Pos.compare m m) in *;
        rewrite Pos.compare_refl in *; discriminate.
    + split; discriminate.
    + intros _ _. eexists. reflexivity.
Qed.

Lemma small_ticks_show_zero_witness :
  Ticks.tick_label 0.75 = inl "0" /\ Ticks.tick_label (-0.5) = inl "0".
Proof.
  split.
  - apply (proj1 (small_ticks_show_zero 0.75)). reflexivity.
  - apply (proj1 (small_ticks_show_zero (-0.5))). reflexivity.
Defined.

(** X14: in the panel of the transaction counts no two neighbouring points
    both get the centred text of a peak: each would have to be more than
    75 above the other. *)
Theorem count_peaks_apart {B : Builtins} (lines : list string)
  (s : PlotMonths.state) (fig : PlotMonths.figure) (j : nat) :
  PlotMonths.ingest lines = (Ok tt, s) ->
  PlotMonths.render s = Ok fig ->
  In (j, PlotMonths.Center) (MonthsCalls.calls (PlotMonths.panel_count fig)) ->
  ~ In (S j, PlotMonths.Center) (MonthsCalls.calls (PlotMonths.panel_count fig)).
Proof.
  intros Hin Hr Hj HSj.
  destruct (MonthsFacts.ingest_balanced lines s Hin) as (Hc & _).
  destruct (MonthsRender.render_panels s fig Hr) as (Ec & _).
  destruct (MonthsRender.render_panel_calls _ _ _ (eq_sym Hc) _ _ _ Ec) as (C1 & _).
  rewrite C1 in Hj, HSj.
  apply CountPeaks.In_expected_center in Hj, HSj.
  rewrite (CountPeaks.count_peaks_not_adjacent _ _ Hj) in HSj. discriminate.
Qed.

Lemma count_peaks_apart_witness :
  exists fig,
    PlotMonths.render (snd (PlotMonths.ingest months_file)) = Ok fig /\
    In (1%nat, PlotMonths.Center) (MonthsCalls.calls (PlotMonths.panel_count fig)) /\
    ~ In (2%nat, PlotMonths.Center) (MonthsCalls.calls (PlotMonths.panel_count fig)).
Proof.
  eexists. split; [vm_compute; reflexivity|].
  assert (H1 : In (1%nat, PlotMonths.Center)
                  [(1%nat, PlotMonths.Center); (0%nat, PlotMonths.Left);
                   (2%nat, PlotMonths.Right)]) by (left; reflexivity).
  split; [exact H1|].
  apply (count_peaks_apart months_file (snd (PlotMonths.ingest months_file)) _ 1%nat);
    [vm_compute; reflexivity | vm_compute; reflexivity | exact H1].
Defined.

(** X15: the text calls of the month script, in the order they are made.
    When the file was read without error and has a line after the first,
    the figure is drawn, and in each panel the centred texts of the peaks
    come first, by increasing index, followed by the text of the first
    point, aligned left, and the text of the last point, aligned right:
    two calls more than there are peaks.  With one data row the two last
    calls label the same point.  Each panel plots the months against the
    series, and its x axis goes from the month of the first data row to
    the month of the last one, in the order of the file. *)
Theorem text_calls_in_order {B : Builtins} (lines : list string)
  (s : PlotMonths.state) :
  PlotMonths.ingest lines = (Ok tt, s) ->
  skipn 1 lines <> [] ->
  exists fig,
    PlotMonths.render s = Ok fig /\
    MonthsCalls.calls (PlotMonths.panel_count fig) =
      MonthsCalls.expected_calls (PlotMonths.count s) PlotMonths.epsilon_count /\
    MonthsCalls.calls (PlotMonths.panel_btc fig) =
      MonthsCalls.expected_calls (PlotMonths.amount_btc s) PlotMonths.epsilon_btc /\
    MonthsCalls.calls (PlotMonths.panel_usd fig) =
      MonthsCalls.expected_calls (PlotMonths.amount_usd s) PlotMonths.epsilon_usd /\
    (List.length (skipn 1 lines) = 1%nat ->
     MonthsCalls.calls (PlotMonths.panel_count fig) =
       [(0%nat, PlotMonths.Left); (0%nat, PlotMonths.Right)]) /\
    PlotMonths.plot_x (PlotMonths.panel_count fig) = PlotMonths.months s /\
    PlotMonths.plot_y (PlotMonths.panel_count fig) = PlotMonths.count s /\
    PlotMonths.plot_y (PlotMonths.panel_btc fig) = PlotMonths.amount_btc s /\
    PlotMonths.plot_y (PlotMonths.panel_usd fig) = PlotMonths.amount_usd s /\
    getitem (PlotMonths.months s) 0 =
      Ok (fst (PlotMonths.xlim (PlotMonths.panel_count fig))) /\
    getlast (PlotMonths.months s) =
      Ok (snd (PlotMonths.xlim (PlotMonths.panel_count fig))).
Proof.
  intros Hin Hrows.
  pose proof (MonthsFacts.ingest_balanced lines s Hin) as Hbal.
  pose proof (MonthsFacts.ingest_months_nonempty lines s Hin Hrows) as Hne.
  destruct (MonthsFacts.render_total s Hbal Hne) as [fig Hr].
  exists fig. split; [exact Hr|].
  destruct Hbal as (Hc & Hb & Hu).
  destruct (MonthsRender.render_panels s fig Hr) as (Ec & Eb & Eu).
  destruct (MonthsRender.render_panel_calls _ _ _ (eq_sym Hc) _ _ _ Ec)
    as (C1 & C2 & C3 & C4 & C5).
  destruct (MonthsRender.render_panel_calls _ _ _ (eq_sym Hb) _ _ _ Eb)
    as (B1 & _ & B3 & _).
  destruct (MonthsRender.render_panel_calls _ _ _ (eq_sym Hu) _ _ _ Eu)
    as (U1 & _ & U3 & _).
  repeat (split; [assumption|]).
  split; [|repeat (split; [assumption|]); assumption].
  intros Hone. rewrite C1. unfold MonthsCalls.expected_calls.
  assert (Hlen : List.length (PlotMonths.count s) = 1%nat).
  { rewrite Hc. unfold PlotMonths.ingest in Hin.
    rewrite (MonthsFacts.for_each_months_length _ _ _ Hin). simpl. exact Hone. }
  rewrite Hlen. reflexivity.
Qed.

Lemma text_calls_in_order_witness :
  exists fig,
    PlotMonths.render (snd (PlotMonths.ingest months_file)) = Ok fig /\
    MonthsCalls.calls (PlotMonths.panel_usd fig) =
      [(1%nat, PlotMonths.Center); (0%nat, PlotMonths.Left); (2%nat, PlotMonths.Right)].
Proof.
  destruct (text_calls_in_order months_file (snd (PlotMonths.ingest months_file)))
    as (fig & Hr & _ & _ & Hu & _);
    [vm_compute; reflexivity | vm_compute; discriminate |].
  exists fig. split; [exact Hr|]. rewrite Hu. vm_compute. reflexivity.
Defined.


(** X17: the four lists of the month script never get out of step by more
    than one item.  Whatever the file is and however reading it ends, the
    lists of months, counts, BTC sums and USD sums are in this order each
    at least as long as the next, and the first is at most one item longer
    than the last; they have one length when the file was read without
    error, and an exception of the loop is [IndexError] or [ValueError]. *)
Theorem month_lists_in_step {B : Builtins} (lines : list string) :
  let s := snd (PlotMonths.ingest lines) in
  MonthsCalls.staircase s /\
  (fst (PlotMonths.ingest lines) = Ok tt -> PlotMonths.balanced s) /\
  (forall e, fst (PlotMonths.ingest lines) = Raise e -> e = IndexError \/ e = ValueError).
Proof.
  unfold PlotMonths.ingest.
  pose proof (MonthsStairs.for_each_staircase (skipn 1 lines) PlotMonths.init) as H.
  destruct (for_each PlotMonths.body (skipn 1 lines) PlotMonths.init) as [[[]|e] s].
  - assert (Hb : PlotMonths.balanced s).
    { apply H. unfold PlotMonths.balanced. simpl. repeat split. }
    simpl. split; [apply MonthsStairs.balanced_staircase; exact Hb|].
    split; [intros _; exact Hb | intros e' E; discriminate].
  - destruct H as [Hs He]; [unfold PlotMonths.balanced; simpl; repeat split|].
    simpl. split; [exact Hs|]. split; [discriminate|]. intros e' E. inversion E. subst.
    exact He.
Qed.

